(** * Thinkle: the agent pipeline and its configuration, embedded in Rocq

    The development follows the Python sources:
    - [config/config_parser.py]  : the pydantic configuration classes,
      [ThinkleConfig.validate_interests], [ConfigParser.load_config] and
      [ConfigParser.save_config];
    - [agents/states.py]         : [ResearchTask], [NewsStory] and the
      state dictionaries of the graphs;
    - [agents/scout.py]          : the scout sub-graph (agent / tools /
      after_tools / final);
    - [agents/planner.py], [agents/evaluator.py], [generate_newsletter.py].

    Python [int] is [Z], [str] is [string] (code points below 256),
    a [dict] with string keys is a [gmap string _], an exception is the
    [Raise] branch of [result]. The language model, the tools, the JSON
    text codec and the prompt templates are the fields of the class
    [Environment], what the operating system answers when a file is opened
    for writing is the class [Config.FileSystem], pydantic's coercion to
    [int] is the class [IntCoercion]: every theorem holds whatever they
    answer. *)

From Stdlib Require Import ZArith List Ascii String Bool Lia.
From stdpp Require Import base option list gmap strings.

Open Scope string_scope.
Open Scope Z_scope.
Open Scope list_scope.

(** ** Exceptions *)

Inductive exn :=
| ValueError (msg : string)
| ValidationError (msg : string)
| FileNotFoundError
| IsADirectoryError
| PermissionError
| UnicodeDecodeError
| YAMLError
| ModelError.

Inductive result (A : Type) :=
| Ok (a : A)
| Raise (e : exn).
Arguments Ok {A} a.
Arguments Raise {A} e.

Definition bind {A B} (m : result A) (k : A -> result B) : result B :=
  match m with Ok a => k a | Raise e => Raise e end.

Notation "'do' x <- m ; k" := (bind m (fun x => k))
  (at level 10, x name, m at level 100, k at level 200,
   format "'do'  x  <-  m ;  '/' k").

(** [try: body except Exception: handler]. *)
Definition try_except {A} (body : result A) (handler : exn -> result A) : result A :=
  match body with Ok a => Ok a | Raise e => handler e end.

Fixpoint mapM {A B} (f : A -> result B) (l : list A) : result (list B) :=
  match l with
  | [] => Ok []
  | x :: l' => do y <- f x; do ys <- mapM f l'; Ok (y :: ys)
  end.

(** ** Python string methods *)

Module Str.

Definition code (c : ascii) : Z := Z.of_N (N_of_ascii c).

(** [str.isspace] on one character. *)
Definition isspace (c : ascii) : bool :=
  let n := code c in
  (((9 <=? n) && (n <=? 13)) || ((28 <=? n) && (n <=? 32))
   || (n =? 133) || (n =? 160))%Z.

(** [str.lower] on one character. *)
Definition lower_char (c : ascii) : ascii :=
  let n := code c in
  if (((65 <=? n) && (n <=? 90))
      || ((192 <=? n) && (n <=? 222) && negb (n =? 215)))%Z
  then ascii_of_N (Z.to_N (n + 32)) else c.

Fixpoint lower (s : string) : string :=
  match s with
  | EmptyString => EmptyString
  | String c s' => String (lower_char c) (lower s')
  end.

Fixpoint lstrip (s : string) : string :=
  match s with
  | EmptyString => EmptyString
  | String c s' => if isspace c then lstrip s' else s
  end.

Fixpoint rstrip (s : string) : string :=
  match s with
  | EmptyString => EmptyString
  | String c s' =>
      match rstrip s' with
      | EmptyString => if isspace c then EmptyString else String c EmptyString
      | r => String c r
      end
  end.

(** [str.strip()] *)
Definition strip (s : string) : string := rstrip (lstrip s).

End Str.

(** ** config/config_parser.py *)

Module Config.

Record RedditSettings := {
  min_upvotes : Z;
  max_age_hours : Z }.

Record YouTubeSettings := {
  min_views : Z;
  max_duration_minutes : Z }.

Record ContentSettings := {
  include_academic : bool;
  include_reddit : bool;
  include_youtube : bool;
  include_news : bool;
  reddit : RedditSettings;
  youtube : YouTubeSettings }.

Record NewsletterSettings := {
  tone : string;
  include_opinions : bool;
  frequency : string;
  max_stories : Z }.

Record OutputSettings := {
  format : string;
  include_sources : bool;
  include_summary_stats : bool }.

Record ModelSettings := {
  planner : string;
  scout : string;
  evaluator : string;
  writer : string }.

Record ThinkleConfig := {
  interests : list string;
  user_profile : string;
  newsletter : NewsletterSettings;
  content : ContentSettings;
  output : OutputSettings;
  models : ModelSettings;
  max_tasks : Z }.

(** The keyword arguments a class is built from: a key that is absent is
    [None] and takes the field's default. Scalars already have the type
    of their field. *)
Record RedditArgs := {
  a_min_upvotes : option Z;
  a_max_age_hours : option Z }.

Record YouTubeArgs := {
  a_min_views : option Z;
  a_max_duration_minutes : option Z }.

Record ContentArgs := {
  a_include_academic : option bool;
  a_include_reddit : option bool;
  a_include_youtube : option bool;
  a_include_news : option bool;
  a_reddit : option RedditArgs;
  a_youtube : option YouTubeArgs }.

Record NewsletterArgs := {
  a_tone : option string;
  a_include_opinions : option bool;
  a_frequency : option string;
  a_max_stories : option Z }.

Record OutputArgs := {
  a_format : option string;
  a_include_sources : option bool;
  a_include_summary_stats : option bool }.

Record ModelArgs := {
  a_planner : option string;
  a_scout : option string;
  a_evaluator : option string;
  a_writer : option string }.

Record ThinkleArgs := {
  a_interests : option (list string);
  a_user_profile : option string;
  a_newsletter : option NewsletterArgs;
  a_content : option ContentArgs;
  a_output : option OutputArgs;
  a_models : option ModelArgs;
  a_max_tasks : option Z;
  a_extra : list string   (* keys that are no field of ThinkleConfig *) }.

Definition check (b : bool) (msg : string) : result unit :=
  if b then Ok tt else Raise (ValidationError msg).

Definition literal (allowed : list string) (s : string) : result string :=
  if bool_decide (s ∈ allowed) then Ok s
  else Raise (ValidationError "Input should be one of the literals").

Definition mk_RedditSettings (a : RedditArgs) : result RedditSettings :=
  let up := default 100 (a_min_upvotes a) in
  let age := default 48 (a_max_age_hours a) in
  do _ <- check (0 <=? up)%Z "min_upvotes: greater than or equal to 0";
  do _ <- check (0 <? age)%Z "max_age_hours: greater than 0";
  Ok {| min_upvotes := up; max_age_hours := age |}.

Definition mk_YouTubeSettings (a : YouTubeArgs) : result YouTubeSettings :=
  let v := default 10000 (a_min_views a) in
  let d := default 60 (a_max_duration_minutes a) in
  do _ <- check (0 <=? v)%Z "min_views: greater than or equal to 0";
  do _ <- check (0 <? d)%Z "max_duration_minutes: greater than 0";
  Ok {| min_views := v; max_duration_minutes := d |}.

Definition no_RedditArgs : RedditArgs :=
  {| a_min_upvotes := None; a_max_age_hours := None |}.
Definition no_YouTubeArgs : YouTubeArgs :=
  {| a_min_views := None; a_max_duration_minutes := None |}.

(** [ContentSettings.validate_at_least_one_source] *)
Definition validate_at_least_one_source (c : ContentSettings) : result ContentSettings :=
  let sources := [include_academic c; include_reddit c;
                  include_youtube c; include_news c] in
  if negb (existsb id sources)
  then Raise (ValueError "At least one content source must be enabled")
  else Ok c.

Definition mk_ContentSettings (a : ContentArgs) : result ContentSettings :=
  do r <- mk_RedditSettings (default no_RedditArgs (a_reddit a));
  do y <- mk_YouTubeSettings (default no_YouTubeArgs (a_youtube a));
  validate_at_least_one_source
    {| include_academic := default true (a_include_academic a);
       include_reddit := default true (a_include_reddit a);
       include_youtube := default true (a_include_youtube a);
       include_news := default true (a_include_news a);
       reddit := r; youtube := y |}.

Definition mk_NewsletterSettings (a : NewsletterArgs) : result NewsletterSettings :=
  do t <- literal ["professional"; "witty"; "casual"; "academic"]
                  (default "witty" (a_tone a));
  do f <- literal ["daily"; "weekly"] (default "weekly" (a_frequency a));
  let m := default 10 (a_max_stories a) in
  do _ <- check ((0 <? m) && (m <=? 50))%Z "max_stories: between 1 and 50";
  Ok {| tone := t; include_opinions := default true (a_include_opinions a);
        frequency := f; max_stories := m |}.

Definition mk_OutputSettings (a : OutputArgs) : result OutputSettings :=
  do f <- literal ["markdown"; "pdf"; "html"] (default "markdown" (a_format a));
  Ok {| format := f;
        include_sources := default true (a_include_sources a);
        include_summary_stats := default true (a_include_summary_stats a) |}.

Definition mk_ModelSettings (a : ModelArgs) : ModelSettings :=
  {| planner := default "gpt-5-mini" (a_planner a);
     scout := default "gpt-5-mini" (a_scout a);
     evaluator := default "gpt-5-mini" (a_evaluator a);
     writer := default "gpt-5-mini" (a_writer a) |}.

(** The loop of [validate_interests]: [seen] is the Python set,
    [unique_interests] the list it appends to. *)
Definition interests_step (st : gset string * list string) (interest : string)
  : gset string * list string :=
  let '(seen, unique_interests) := st in
  if bool_decide (Str.lower interest ∈ seen) then st
  else ({[ Str.lower interest ]} ∪ seen, unique_interests ++ [Str.strip interest]).

(** [ThinkleConfig.validate_interests] *)
Definition validate_interests (v : list string) : result (list string) :=
  match v with
  | [] => Raise (ValueError "At least one interest must be specified")
  | _ => Ok (snd (fold_left interests_step v (∅, [])))
  end.

Definition no_NewsletterArgs : NewsletterArgs :=
  {| a_tone := None; a_include_opinions := None;
     a_frequency := None; a_max_stories := None |}.
Definition no_ContentArgs : ContentArgs :=
  {| a_include_academic := None; a_include_reddit := None;
     a_include_youtube := None; a_include_news := None;
     a_reddit := None; a_youtube := None |}.
Definition no_OutputArgs : OutputArgs :=
  {| a_format := None; a_include_sources := None;
     a_include_summary_stats := None |}.
Definition no_ModelArgs : ModelArgs :=
  {| a_planner := None; a_scout := None; a_evaluator := None; a_writer := None |}.

(** The constructor call of [ThinkleConfig] on the loaded mapping. *)
Definition mk_ThinkleConfig (a : ThinkleArgs) : result ThinkleConfig :=
  do _ <- check (bool_decide (a_extra a = [])) "Extra inputs are not permitted";
  do raw <- match a_interests a with
            | Some v => Ok v
            | None => Raise (ValidationError "interests: Field required")
            end;
  do _ <- check (1 <=? Z.of_nat (length raw))%Z "interests: at least 1 item";
  do ints <- validate_interests raw;
  do n <- mk_NewsletterSettings (default no_NewsletterArgs (a_newsletter a));
  do c <- mk_ContentSettings (default no_ContentArgs (a_content a));
  do o <- mk_OutputSettings (default no_OutputArgs (a_output a));
  let mt := default 1 (a_max_tasks a) in
  do _ <- check ((0 <? mt) && (mt <=? 10))%Z "max_tasks: between 1 and 10";
  Ok {| interests := ints;
        user_profile := default "" (a_user_profile a);
        newsletter := n; content := c; output := o;
        models := mk_ModelSettings (default no_ModelArgs (a_models a));
        max_tasks := mt |}.

(** [config.model_dump()] *)
Definition model_dump (c : ThinkleConfig) : ThinkleArgs :=
  {| a_interests := Some (interests c);
     a_user_profile := Some (user_profile c);
     a_newsletter := Some
       {| a_tone := Some (tone (newsletter c));
          a_include_opinions := Some (include_opinions (newsletter c));
          a_frequency := Some (frequency (newsletter c));
          a_max_stories := Some (max_stories (newsletter c)) |};
     a_content := Some
       {| a_include_academic := Some (include_academic (content c));
          a_include_reddit := Some (include_reddit (content c));
          a_include_youtube := Some (include_youtube (content c));
          a_include_news := Some (include_news (content c));
          a_reddit := Some
            {| a_min_upvotes := Some (min_upvotes (reddit (content c)));
               a_max_age_hours := Some (max_age_hours (reddit (content c))) |};
          a_youtube := Some
            {| a_min_views := Some (min_views (youtube (content c)));
               a_max_duration_minutes :=
                 Some (max_duration_minutes (youtube (content c))) |} |};
     a_output := Some
       {| a_format := Some (format (output c));
          a_include_sources := Some (include_sources (output c));
          a_include_summary_stats := Some (include_summary_stats (output c)) |};
     a_models := Some
       {| a_planner := Some (planner (models c));
          a_scout := Some (scout (models c));
          a_evaluator := Some (evaluator (models c));
          a_writer := Some (writer (models c)) |};
     a_max_tasks := Some (max_tasks c);
     a_extra := [] |}.

(** Why something that exists at a path cannot be read: it is a directory,
    the process may not open it, or its bytes are not UTF-8. *)
Inductive unreadable :=
| IsADirectory
| NoPermission
| NotUTF8.

(** The exception [open] or the decoding raises then; none of them is a
    [yaml.YAMLError]. *)
Definition read_error (why : unreadable) : exn :=
  match why with
  | IsADirectory => IsADirectoryError
  | NoPermission => PermissionError
  | NotUTF8 => UnicodeDecodeError
  end.

(** What is at a path: something that cannot be read, or what
    [yaml.safe_load] makes of the file: a syntax error, [None] for an
    empty document, a document that is no mapping, or the mapping it
    denotes. [yaml.dump] writes the text of a mapping, which
    [yaml.safe_load] reads back unchanged. *)
Inductive yaml_file :=
| Unreadable (why : unreadable)
| Malformed
| EmptyDocument
| NotAMapping
| Mapping (raw_config : ThinkleArgs).

(** The file system: path to what is there. *)
Definition files := gmap string yaml_file.

(** What the operating system answers to [open(path, 'w')]: the exception
    it raises, if any (the directory of the path is missing, the path is a
    directory, the process may not write there). *)
Class FileSystem := {
  open_w : files -> string -> option exn }.

(** [ConfigParser.load_config]. Only [yaml.YAMLError] is caught around
    [open] and [yaml.safe_load]: the error of a file that cannot be read
    leaves the function as it is. The message of the last [ValueError] goes
    on with the text of the error it wraps. *)
Definition load_config (fs : files) (config_path : string) : result ThinkleConfig :=
  match fs !! config_path with
  | None => Raise FileNotFoundError
  | Some (Unreadable why) => Raise (read_error why)
  | Some Malformed => Raise YAMLError
  | Some EmptyDocument => Raise (ValueError "Configuration file is empty")
  | Some NotAMapping => Raise (ValueError "Configuration validation failed")
  | Some (Mapping raw_config) =>
      try_except (mk_ThinkleConfig raw_config)
        (fun _ => Raise (ValueError "Configuration validation failed"))
  end.

(** [ConfigParser.save_config]: the error of [open] is not caught; when
    [open] succeeds the file holds the dump of the configuration. *)
Definition save_config `{FileSystem} (fs : files) (config : ThinkleConfig)
    (output_path : string) : result files :=
  match open_w fs output_path with
  | Some e => Raise e
  | None => Ok (<[ output_path := Mapping (model_dump config) ]> fs)
  end.

End Config.

(** ** JSON values, as [json.loads] returns them *)

#[local] Set Warnings "-register-all".

Inductive json :=
| JNull
| JBool (b : bool)
| JInt (z : Z)
| JFloat (bits : Z)   (* a binary64, by its bit pattern *)
| JStr (s : string)
| JArr (l : list json)
| JObj (o : gmap string json).

(** pydantic's coercion of a value to an [int] field. Which strings and
    floats it accepts depends on the installed pydantic; every JSON integer
    is accepted as it is. *)
Class IntCoercion := {
  int_validate : json -> option Z;
  int_validate_int : forall z, int_validate (JInt z) = Some z }.

(** The least such coercion: it takes JSON integers and nothing else.
    pydantic itself also takes some strings, floats and booleans; the
    examples below only carry JSON integers, on which every coercion
    agrees. *)
Definition int_strict (v : json) : option Z :=
  match v with JInt z => Some z | _ => None end.

#[export] Instance strict_coercion : IntCoercion :=
  {| int_validate := int_strict; int_validate_int := fun z => eq_refl |}.

(** Fields declared [Field(...)]: required, no default. *)
Module Pydantic.

Definition required (name : string) (o : gmap string json) : result json :=
  match o !! name with
  | Some v => Ok v
  | None => Raise (ValidationError (name +:+ ": Field required"))
  end.

Definition as_str (name : string) (v : json) : result string :=
  match v with
  | JStr s => Ok s
  | _ => Raise (ValidationError (name +:+ ": Input should be a valid string"))
  end.

Definition as_int `{IntCoercion} (name : string) (v : json) : result Z :=
  match int_validate v with
  | Some z => Ok z
  | None => Raise (ValidationError (name +:+ ": Input should be a valid integer"))
  end.

Definition as_list (name : string) (v : json) : result (list json) :=
  match v with
  | JArr l => Ok l
  | _ => Raise (ValidationError (name +:+ ": Input should be a valid list"))
  end.

Definition as_dict (v : json) : result (gmap string json) :=
  match v with
  | JObj o => Ok o
  | _ => Raise (ValidationError "Input should be a valid dictionary")
  end.

Definition str_field (name : string) (o : gmap string json) : result string :=
  do v <- required name o; as_str name v.

Definition int_field `{IntCoercion} (name : string) (o : gmap string json) : result Z :=
  do v <- required name o; as_int name v.

Definition list_field (name : string) (o : gmap string json) : result (list json) :=
  do v <- required name o; as_list name v.

End Pydantic.

(** ** agents/states.py *)

Module ResearchTask.

Record t := {
  topic : string;
  additional_info : string }.

Definition model_validate (v : json) : result t :=
  do o <- Pydantic.as_dict v;
  do tp <- Pydantic.str_field "topic" o;
  do ai <- Pydantic.str_field "additional_info" o;
  Ok {| topic := tp; additional_info := ai |}.

Definition model_dump (x : t) : json :=
  JObj (<["topic" := JStr (topic x)]>
        (<["additional_info" := JStr (additional_info x)]> ∅)).

End ResearchTask.

Module NewsStory.

Record t := {
  title : string;
  summary : string;
  source : string;
  url : string;
  score : Z;
  timestamp : string;
  topic : string }.

(** The seven declared fields. *)
Definition fields : list string :=
  ["title"; "summary"; "source"; "url"; "score"; "timestamp"; "topic"].

Definition of_dict `{IntCoercion} (o : gmap string json) : result t :=
  do ti <- Pydantic.str_field "title" o;
  do su <- Pydantic.str_field "summary" o;
  do so <- Pydantic.str_field "source" o;
  do ur <- Pydantic.str_field "url" o;
  do sc <- Pydantic.int_field "score" o;
  do ts <- Pydantic.str_field "timestamp" o;
  do tp <- Pydantic.str_field "topic" o;
  Ok {| title := ti; summary := su; source := so; url := ur;
        score := sc; timestamp := ts; topic := tp |}.

Definition model_validate `{IntCoercion} (v : json) : result t :=
  do o <- Pydantic.as_dict v; of_dict o.

(** The story holds, field by field, what the object holds: the six
    strings as they are, the score as the coercion reads it. *)
Definition read_from `{IntCoercion} (o : gmap string json) (x : t) : Prop :=
  o !! "title" = Some (JStr (title x))
  /\ o !! "summary" = Some (JStr (summary x))
  /\ o !! "source" = Some (JStr (source x))
  /\ o !! "url" = Some (JStr (url x))
  /\ (exists v, o !! "score" = Some v /\ int_validate v = Some (score x))
  /\ o !! "timestamp" = Some (JStr (timestamp x))
  /\ o !! "topic" = Some (JStr (topic x)).

(** The object carries the field: the key is present and its value has the
    type of the field. *)
Definition has_field `{IntCoercion} (o : gmap string json) (name : string) : bool :=
  match o !! name with
  | None => false
  | Some v =>
      if String.eqb name "score"
      then match int_validate v with Some _ => true | None => false end
      else match v with JStr _ => true | _ => false end
  end.

(** No field is omitted, none holds a value its type does not take. *)
Definition complete `{IntCoercion} (o : gmap string json) : bool :=
  forallb (has_field o) fields.

Definition model_dump (x : t) : json :=
  JObj (<["title" := JStr (title x)]>
        (<["summary" := JStr (summary x)]>
         (<["source" := JStr (source x)]>
          (<["url" := JStr (url x)]>
           (<["score" := JInt (score x)]>
            (<["timestamp" := JStr (timestamp x)]>
             (<["topic" := JStr (topic x)]> ∅))))))).

End NewsStory.

Module PlannerOutput.

Record t := { ScoutTasks : list ResearchTask.t }.

Definition model_validate (v : json) : result t :=
  do o <- Pydantic.as_dict v;
  do l <- Pydantic.list_field "ScoutTasks" o;
  do ts <- mapM ResearchTask.model_validate l;
  Ok {| ScoutTasks := ts |}.

End PlannerOutput.

Module ScoutOutput.

Record t := {
  NewsStories : list NewsStory.t;
  Explanation : string }.

Definition model_validate `{IntCoercion} (v : json) : result t :=
  do o <- Pydantic.as_dict v;
  do l <- Pydantic.list_field "NewsStories" o;
  do ss <- mapM NewsStory.model_validate l;
  do ex <- Pydantic.str_field "Explanation" o;
  Ok {| NewsStories := ss; Explanation := ex |}.

(** The story objects of a payload. *)
Definition story_objects (v : json) : list json :=
  match v with
  | JObj o => match o !! "NewsStories" with Some (JArr l) => l | _ => [] end
  | _ => []
  end.

(** Some story object of the payload omits one of the seven fields, or
    carries under it a value the type of the field does not take. *)
Definition defective `{IntCoercion} (v : json) : Prop :=
  exists o, JObj o ∈ story_objects v /\ NewsStory.complete o = false.

End ScoutOutput.

Module EvaluatorOutput.

Record t := {
  NewsStories : list NewsStory.t;
  InvestigatorTasks : list ResearchTask.t;
  Explanation : string }.

Definition model_validate `{IntCoercion} (v : json) : result t :=
  do o <- Pydantic.as_dict v;
  do l <- Pydantic.list_field "NewsStories" o;
  do ss <- mapM NewsStory.model_validate l;
  do k <- Pydantic.list_field "InvestigatorTasks" o;
  do ts <- mapM ResearchTask.model_validate k;
  do ex <- Pydantic.str_field "Explanation" o;
  Ok {| NewsStories := ss; InvestigatorTasks := ts; Explanation := ex |}.

End EvaluatorOutput.

(** ** Messages and the chat model *)

Record ToolCall := {
  tool_name : string;
  tool_args : json;
  tool_call_id : string }.

Inductive BaseMessage :=
| SystemMessage (content : string)
| HumanMessage (content : string)
| AIMessage (content : string) (tool_calls : list ToolCall)
| ToolMessage (content : string) (call_id : string).

Definition content_of (m : BaseMessage) : string :=
  match m with
  | SystemMessage c | HumanMessage c | AIMessage c _ | ToolMessage c _ => c
  end.

Definition tool_calls_of (m : BaseMessage) : list ToolCall :=
  match m with AIMessage _ tcs => tcs | _ => [] end.

(** A [ChatOpenAI] client, by what the model answers:
    - [invoke]: the plain call, no tools bound;
    - [bound_invoke]: the call of [llm.bind_tools(all_tools, ...)];
    - [structured_reply]: the payload the model returns to a call made
      through [with_structured_output], before the schema validates it. *)
Record ChatOpenAI := {
  invoke : list BaseMessage -> result BaseMessage;
  bound_invoke : list BaseMessage -> result BaseMessage;
  structured_reply : list BaseMessage -> result json }.

(** [llm.with_structured_output(Schema).invoke(messages)] *)
Definition with_structured_output {A} (llm : ChatOpenAI)
    (model_validate : json -> result A) (messages : list BaseMessage) : result A :=
  do payload <- structured_reply llm messages; model_validate payload.

(** Everything the agents reach outside this repository: the model client
    behind a model name, the JSON text codec, the tools, and the prompt
    templates of [prompts.py] with their [format] arguments. *)
Class Environment := {
  new_ChatOpenAI : string -> ChatOpenAI;
  json_loads : string -> option json;
  json_dumps : json -> string;
  run_tool : ToolCall -> string;
  SCOUT_PROMPT : string -> string -> string;
  PLANNER_PROMPT : list string -> string -> string -> Z -> string;
  EVALUATOR_PROMPT : list string -> string -> string;
  today : string }.

(** One call of the model, as the run records it. *)
Inductive invocation :=
| bound_call        (* the agent step: tools bound *)
| structured_call   (* the final step: with_structured_output, no tools *)
| plain_call.       (* the final step's fallback: llm.invoke, no tools *)

Definition is_agent_call (i : invocation) : bool :=
  match i with bound_call => true | _ => false end.
Definition is_structured_call (i : invocation) : bool :=
  match i with structured_call => true | _ => false end.
Definition is_plain_call (i : invocation) : bool :=
  match i with plain_call => true | _ => false end.
Definition is_tool_free (i : invocation) : bool := negb (is_agent_call i).

Definition count (p : invocation -> bool) (tr : list invocation) : Z :=
  Z.of_nat (length (List.filter p tr)).

(** ** agents/scout.py *)

Module Scout.

Record AgentState := {
  messages : list BaseMessage;
  tool_iterations : option Z;       (* [None]: the key is absent *)
  NewsStories : list NewsStory.t }.

Record ScoutState := {
  AssignedTask : ResearchTask.t;
  config : option Config.ThinkleConfig   (* [None]: the key is absent *) }.

Inductive node := agent | tools | after_tools | final | END.

#[export] Instance node_eq_dec : EqDecision node.
Proof. solve_decision. Defined.

(** *** The text scraping of the fallback *)

(** Split at the first occurrence of [pat]: the text before and after. *)
Fixpoint partition (pat s : string) : option (string * string) :=
  if String.prefix pat s
  then Some (EmptyString, String.substring (String.length pat)
                                           (String.length s) s)
  else match s with
       | EmptyString => None
       | String c s' =>
           match partition pat s' with
           | Some (b, a) => Some (String c b, a)
           | None => None
           end
       end.

Definition fence : string := "```".

(** The optional [(?:json)?] under [re.IGNORECASE]. *)
Definition skip_json (s : string) : string :=
  if String.prefix "json" (Str.lower (String.substring 0 4 s))
  then String.substring 4 (String.length s) s else s.

(** [re.search(r"```(?:json)?\s*([\s\S]*?)```", content, re.IGNORECASE)],
    group 1 of the match. *)
Definition fence_match (content : string) : option string :=
  match partition fence content with
  | None => None
  | Some (_, rest) =>
      match partition fence (Str.lstrip (skip_json rest)) with
      | Some (body, _) => Some body
      | None => None
      end
  end.

(** [content.find(c)] *)
Fixpoint find (c : ascii) (s : string) : option nat :=
  match s with
  | EmptyString => None
  | String d s' =>
      if Ascii.eqb c d then Some 0%nat
      else match find c s' with Some i => Some (S i) | None => None end
  end.

(** [content.rfind(c)] *)
Fixpoint rfind (c : ascii) (s : string) : option nat :=
  match s with
  | EmptyString => None
  | String d s' =>
      match rfind c s' with
      | Some i => Some (S i)
      | None => if Ascii.eqb c d then Some 0%nat else None
      end
  end.

(** The candidate JSON text of the fallback. *)
Definition candidate_of (content0 : string) : string :=
  let content :=
    match fence_match content0 with
    | Some g => Str.strip g
    | None => content0
    end in
  match find "{" content, rfind "}" content with
  | Some start, Some end_ =>
      if (start <? end_)%nat
      then String.substring start (end_ + 1 - start) content
      else content
  | _, _ => content
  end.

(** The state after the update [{"NewsStories": stories}]: the channel has
    the [operator.add] reducer, the other channels stay. *)
Definition add_stories (s : AgentState) (stories : list NewsStory.t) : AgentState :=
  {| messages := messages s;
     tool_iterations := tool_iterations s;
     NewsStories := NewsStories s ++ stories |}.

Section Graph.
Context `{IntCoercion} `{Environment}.
Variable llm : ChatOpenAI.
Variable system_prompt : string.

(** [agent_step] *)
Definition agent_step (s : AgentState) : list invocation * result AgentState :=
  let prior_messages := messages s in
  ([bound_call],
   do ai <- bound_invoke llm (SystemMessage system_prompt :: prior_messages);
   Ok {| messages := messages s ++ [ai];
         tool_iterations := tool_iterations s;
         NewsStories := NewsStories s |}).

(** The fallback branch of [final_step], after the structured call
    raised. *)
Definition final_fallback (msgs : list BaseMessage) : result ScoutOutput.t :=
  do raw <- invoke llm msgs;
  let candidate := candidate_of (content_of raw) in
  match json_loads candidate with
  | None => Raise (ValueError "Scout output was not valid JSON")
  | Some data =>
      match ScoutOutput.model_validate data with
      | Ok parsed => Ok parsed
      | Raise (ValidationError _) =>
          Raise (ValueError "Scout output failed validation")
      | Raise e => Raise e
      end
  end.

Definition final_parse (msgs : list BaseMessage)
  : list invocation * result ScoutOutput.t :=
  match with_structured_output llm ScoutOutput.model_validate msgs with
  | Ok parsed => ([structured_call], Ok parsed)
  | Raise _ => ([structured_call; plain_call], final_fallback msgs)
  end.

(** [payload] is the answer the final step reads on [msgs], and [parsed]
    what the schema makes of it: the reply to the structured call or, that
    call having raised, the JSON read from the text of the plain call. *)
Definition final_answer (msgs : list BaseMessage) (payload : json)
    (parsed : ScoutOutput.t) : Prop :=
  ScoutOutput.model_validate payload = Ok parsed
  /\ (structured_reply llm msgs = Ok payload
      \/ exists e raw,
           with_structured_output llm ScoutOutput.model_validate msgs = Raise e
           /\ invoke llm msgs = Ok raw
           /\ json_loads (candidate_of (content_of raw)) = Some payload).

(** [final_step] *)
Definition final_step (s : AgentState) : list invocation * result AgentState :=
  let msgs := SystemMessage system_prompt :: messages s in
  let '(calls, r) := final_parse msgs in
  (calls,
   do parsed <- r;
   Ok {| messages := messages s;
         tool_iterations := tool_iterations s;
         NewsStories := NewsStories s ++ ScoutOutput.NewsStories parsed |}).

(** [after_tools] *)
Definition after_tools_step (s : AgentState) : AgentState :=
  let count := default 0 (tool_iterations s) + 1 in
  {| messages := messages s;
     tool_iterations := Some count;
     NewsStories := NewsStories s |}.

(** [ToolNode(all_tools)]: one tool message per call of the last
    message. *)
Definition tool_node (s : AgentState) : result AgentState :=
  match last (messages s) with
  | Some (AIMessage _ calls) =>
      Ok {| messages := messages s
              ++ map (fun c => ToolMessage (run_tool c) (tool_call_id c)) calls;
            tool_iterations := tool_iterations s;
            NewsStories := NewsStories s |}
  | _ => Raise (ValueError "Last message is not an AIMessage")
  end.

(** The conditional edge out of [agent]: to [tools] when the last
    message carries tool calls, to [otherwise] when it carries none. *)
Definition tools_edge (otherwise : node) (s : AgentState) : result node :=
  match last (messages s) with
  | Some m =>
      Ok (if (0 <? length (tool_calls_of m))%nat then tools else otherwise)
  | None => Raise (ValueError "No messages found in input state to tool_edge")
  end.

(** The conditional edge out of [after_tools]. *)
Definition after_tools_edge (cap : Z) (s : AgentState) : node :=
  if default 0 (tool_iterations s) <? cap then agent else final.

(** One node of the compiled sub-graph and the node its edge leads to. *)
Definition step (cap : Z) (otherwise : node) (n : node) (s : AgentState)
  : list invocation * result (node * AgentState) :=
  match n with
  | agent =>
      let '(calls, r) := agent_step s in
      (calls, do s' <- r; do n' <- tools_edge otherwise s'; Ok (n', s'))
  | tools => ([], do s' <- tool_node s; Ok (after_tools, s'))
  | after_tools =>
      let s' := after_tools_step s in
      ([], Ok (after_tools_edge cap s', s'))
  | final =>
      let '(calls, r) := final_step s in
      (calls, do s' <- r; Ok (END, s'))
  | END => ([], Ok (END, s))
  end.

Inductive outcome :=
| Finished (s : AgentState)
| Failed (e : exn)
| OutOfFuel.

Fixpoint run (cap : Z) (otherwise : node) (fuel : nat) (n : node) (s : AgentState)
  : list invocation * outcome :=
  match n with
  | END => ([], Finished s)
  | _ =>
      match fuel with
      | O => ([], OutOfFuel)
      | S fuel' =>
          let '(calls, r) := step cap otherwise n s in
          match r with
          | Raise e => (calls, Failed e)
          | Ok (n', s') =>
              let '(calls', o) := run cap otherwise fuel' n' s' in
              (calls ++ calls', o)
          end
      end
  end.

End Graph.

(** The agent calls still possible from node [n] when the counter is [k]. *)
Definition agent_budget (cap : Z) (n : node) (k : Z) : Z :=
  match n with
  | agent => Z.max 1 (cap - k)
  | tools | after_tools => Z.max 0 (cap - (k + 1))
  | final | END => 0
  end.

(** The node visits still possible from node [n] when the counter is [k]. *)
Definition visits (cap : Z) (n : node) (k : Z) : Z :=
  match n with
  | agent => 3 * Z.max 1 (cap - k) + 1
  | tools => 3 * Z.max 0 (cap - (k + 1)) + 3
  | after_tools => 3 * Z.max 0 (cap - (k + 1)) + 2
  | final => 1
  | END => 0
  end.

(** What a run that starts at node [n] records. *)
Definition well_bounded (cap : Z) (otherwise n : node) (k : Z)
    (tr : list invocation) (o : outcome) : Prop :=
  o <> OutOfFuel
  /\ count is_agent_call tr <= agent_budget cap n k
  /\ count is_structured_call tr <= 1
  /\ count is_plain_call tr <= count is_structured_call tr
  /\ (n = END -> tr = [])
  /\ (forall s', o = Finished s' -> n <> END ->
        count is_structured_call tr = 1
        \/ (otherwise = END /\ count is_structured_call tr = 0)).

(** The cap of the lambda on the [after_tools] edge. *)
Definition MAX_TOOL_ITERATIONS : Z := 3.

(** [langgraph.prebuilt.tools_condition] answers ["tools"] or ["__end__"];
    the edge is added without a path map. *)
Definition tools_condition_otherwise : node := END.

(** The state a [Send] payload gives the sub-graph: no message, no
    counter, no story. *)
Definition initial_state : AgentState :=
  {| messages := []; tool_iterations := None; NewsStories := [] |}.

Definition model_name (state : ScoutState) : string :=
  match config state with
  | Some c => Config.scout (Config.models c)
  | None => "gpt-5-mini"
  end.

(** Enough node visits for [cap] rounds of agent, tools, after_tools and
    the final step. *)
Definition fuel_for (cap : Z) : nat := (3 * Z.to_nat cap + 4)%nat.

(** [scout_node]: the compiled sub-graph, run on the payload. *)
Definition scout_node `{IntCoercion} `{Environment} (state : ScoutState)
  : list invocation * outcome :=
  let assigned_task := AssignedTask state in
  let system_prompt :=
    SCOUT_PROMPT (ResearchTask.topic assigned_task)
                 (ResearchTask.additional_info assigned_task) in
  let llm := new_ChatOpenAI (model_name state) in
  run llm system_prompt MAX_TOOL_ITERATIONS tools_condition_otherwise
      (fuel_for MAX_TOOL_ITERATIONS) agent initial_state.

End Scout.

(** ** agents/planner.py *)

Module Planner.

Record PlannerState := {
  config : Config.ThinkleConfig;
  ScoutTasks : list ResearchTask.t;
  NewsStories : list NewsStory.t;
  Report : string }.

(** [planner_node]: the state after its update [{"ScoutTasks": ...}]. *)
Definition planner_node `{Environment} (state : PlannerState) : result PlannerState :=
  let config := config state in
  let user_background := Config.user_profile config in
  let system_prompt :=
    PLANNER_PROMPT (Config.interests config) user_background today
                   (Config.max_tasks config) in
  let llm := new_ChatOpenAI (Config.planner (Config.models config)) in
  do response <- with_structured_output llm PlannerOutput.model_validate
                   [SystemMessage system_prompt];
  Ok {| config := config;
        ScoutTasks := PlannerOutput.ScoutTasks response;
        NewsStories := NewsStories state;
        Report := Report state |}.

End Planner.

(** ** generate_newsletter.py *)

Module Orchestrator.

(** [generate_scout_tasks]: the payload of each [Send("scout", ...)]. *)
Definition generate_scout_tasks (state : Planner.PlannerState)
  : list Scout.ScoutState :=
  map (fun task => {| Scout.AssignedTask := task;
                      Scout.config := Some (Planner.config state) |})
      (Planner.ScoutTasks state).

End Orchestrator.

(** ** agents/evaluator.py *)

Module Evaluator.

Record EvaluatorState := {
  config : Config.ThinkleConfig;
  NewsStories : list NewsStory.t;
  InvestigatorTasks : list ResearchTask.t;   (* [[]] also when absent *)
  followup_cycles : option Z;                (* [None]: the key is absent *)
  messages : list BaseMessage }.

Inductive routing :=
| Sends (payloads : list Scout.ScoutState)
| end_.

(** [state.get("followup_cycles", 0)] *)
Definition cycles (state : EvaluatorState) : Z :=
  default 0 (followup_cycles state).

(** [router_node] *)
Definition router_node (state : EvaluatorState) : routing :=
  let tasks := InvestigatorTasks state in
  if (0 <? length tasks)%nat && (cycles state <? 1)
  then Sends (map (fun t =>
                {| Scout.AssignedTask :=
                     {| ResearchTask.topic := ResearchTask.topic t;
                        ResearchTask.additional_info :=
                          ResearchTask.additional_info t |};
                   Scout.config := None |}) tasks)
  else end_.

(** [llm_node]: the state after its update. [NewsStories] has the
    [operator.add] reducer, [InvestigatorTasks] is overwritten. *)
Definition llm_node `{IntCoercion} `{Environment} (state : EvaluatorState)
  : result EvaluatorState :=
  let config := config state in
  let news_stories := NewsStories state in
  let prior_messages := messages state in
  let user_background := Config.user_profile config in
  let system_prompt := EVALUATOR_PROMPT (Config.interests config) user_background in
  let llm := new_ChatOpenAI (Config.evaluator (Config.models config)) in
  let stories_payload := map NewsStory.model_dump news_stories in
  let msgs :=
    [SystemMessage system_prompt;
     HumanMessage (json_dumps (JObj {[ "NewsStories" := JArr stories_payload ]}))]
    ++ prior_messages
    ++ (if (0 <? length (InvestigatorTasks state))%nat
        then [HumanMessage (json_dumps (JObj
                {[ "InvestigatorTasks already completed" :=
                     JArr (map ResearchTask.model_dump (InvestigatorTasks state)) ]}))]
        else []) in
  do response <- with_structured_output llm EvaluatorOutput.model_validate msgs;
  Ok {| config := config;
        NewsStories := NewsStories state ++ EvaluatorOutput.NewsStories response;
        InvestigatorTasks := EvaluatorOutput.InvestigatorTasks response;
        followup_cycles := followup_cycles state;
        messages := messages state |}.

(** [stories[-3:]] *)
Definition last3 {A} (l : list A) : list A := drop (length l - 3)%nat l.

(** [clear_tasks_node]: the state after its update. *)
Definition clear_tasks_node `{Environment} (state : EvaluatorState) : EvaluatorState :=
  let new_cycle := cycles state + 1 in
  let stories := NewsStories state in
  let preview :=
    map (fun s => JObj (<["title" := JStr (NewsStory.title s)]>
                        (<["url" := JStr (NewsStory.url s)]> ∅)))
        (last3 stories) in
  let msg := HumanMessage (json_dumps (JObj
               (<["followup_complete" := JBool true]>
                (<["followup_cycles" := JInt new_cycle]>
                 (<["appended_count" := JInt (Z.of_nat (length stories))]>
                  (<["appended_preview" := JArr preview]> ∅)))))) in
  {| config := config state;
     NewsStories := NewsStories state;
     InvestigatorTasks := [];
     followup_cycles := Some new_cycle;
     messages := messages state ++ [msg] |}.

Inductive outcome :=
| Finished (s : EvaluatorState)
| Failed (e : exn)
| OutOfFuel.

(** The scout instances of one fan-out; their stories and messages are
    added to the channels of the same name. *)
Fixpoint scout_round `{IntCoercion} `{Environment}
    (payloads : list Scout.ScoutState) (state : EvaluatorState) : outcome :=
  match payloads with
  | [] => Finished state
  | p :: rest =>
      match snd (Scout.scout_node p) with
      | Scout.Finished a =>
          scout_round rest
            {| config := config state;
               NewsStories := NewsStories state ++ Scout.NewsStories a;
               InvestigatorTasks := InvestigatorTasks state;
               followup_cycles := followup_cycles state;
               messages := messages state ++ Scout.messages a |}
      | Scout.Failed e => Failed e
      | Scout.OutOfFuel => OutOfFuel
      end
  end.

(** What the run of the graph records: the state after each node. *)
Inductive event :=
| Evaluated (after : EvaluatorState)
| Scouted (payloads : list Scout.ScoutState) (after : EvaluatorState)
| Cleared (after : EvaluatorState).

Definition state_after (e : event) : EvaluatorState :=
  match e with Evaluated s | Scouted _ s | Cleared s => s end.

Definition is_scouted (e : event) : bool :=
  match e with Scouted _ _ => true | _ => false end.
Definition is_evaluated (e : event) : bool :=
  match e with Evaluated _ => true | _ => false end.

(** The compiled graph: START -> llm -> router -> (scout*, clear_tasks,
    llm) or END. One unit of fuel per evaluation pass. *)
Fixpoint run `{IntCoercion} `{Environment} (fuel : nat) (state : EvaluatorState)
  : list event * outcome :=
  match fuel with
  | O => ([], OutOfFuel)
  | S fuel' =>
      match llm_node state with
      | Raise e => ([], Failed e)
      | Ok s1 =>
          match router_node s1 with
          | end_ => ([Evaluated s1], Finished s1)
          | Sends payloads =>
              match scout_round payloads s1 with
              | Finished s2 =>
                  let s3 := clear_tasks_node s2 in
                  let '(tr, o) := run fuel' s3 in
                  (Evaluated s1 :: Scouted payloads s2 :: Cleared s3 :: tr, o)
              | o => ([Evaluated s1], o)
              end
          end
      end
  end.

(** The values [followup_cycles] takes along a run, from the first state
    on. *)
Definition cycle_history (s0 : EvaluatorState) (tr : list event) : list Z :=
  cycles s0 :: map (fun e => cycles (state_after e)) tr.

Fixpoint nondecreasing (l : list Z) : Prop :=
  match l with
  | x :: (y :: _) as l' => x <= y /\ nondecreasing l'
  | _ => True
  end.

(** The state the sub-graph starts from inside the pipeline: the keys it
    shares with [PlannerState]. *)
Definition initial_state (p : Planner.PlannerState) : EvaluatorState :=
  {| config := Planner.config p;
     NewsStories := Planner.NewsStories p;
     InvestigatorTasks := [];
     followup_cycles := None;
     messages := [] |}.

(** [evaluator_node]: the compiled graph, run on the pipeline state. *)
Definition evaluator_node `{IntCoercion} `{Environment} (p : Planner.PlannerState)
  : list event * outcome :=
  run 3 (initial_state p).

End Evaluator.

(** ** Concrete inputs and model behaviours used by the examples *)

Module Examples.

Definition quote : string := String (ascii_of_nat 34) EmptyString.

Definition task1 : ResearchTask.t :=
  {| ResearchTask.topic := "AI safety";
     ResearchTask.additional_info := "reader works on alignment" |}.

Definition task2 : ResearchTask.t :=
  {| ResearchTask.topic := "Robotics";
     ResearchTask.additional_info := "reader builds drones" |}.

(** A story about another topic than [task1], scored above 10. *)
Definition story : NewsStory.t :=
  {| NewsStory.title := "Chip prices fall";
     NewsStory.summary := "Memory got cheaper this week";
     NewsStory.source := "example.org";
     NewsStory.url := "https://example.org/chips";
     NewsStory.score := 11;
     NewsStory.timestamp := "2025-01-01";
     NewsStory.topic := "Hardware" |}.

(** The same story with the [topic] key left out. *)
Definition story_without_topic : json :=
  JObj (<["title" := JStr "Chip prices fall"]>
        (<["summary" := JStr "Memory got cheaper this week"]>
         (<["source" := JStr "example.org"]>
          (<["url" := JStr "https://example.org/chips"]>
           (<["score" := JInt 11]>
            (<["timestamp" := JStr "2025-01-01"]> ∅)))))).

(** One payload that conforms to the three output schemas (keys a schema
    does not declare are ignored). *)
Definition payload (stories : list json) (tasks : list ResearchTask.t) : json :=
  JObj (<["NewsStories" := JArr stories]>
        (<["InvestigatorTasks" := JArr (map ResearchTask.model_dump tasks)]>
         (<["ScoutTasks" := JArr (map ResearchTask.model_dump tasks)]>
          (<["Explanation" := JStr "as requested"]> ∅)))).

Definition search_call : ToolCall :=
  {| tool_name := "web_search"; tool_args := JObj ∅; tool_call_id := "call_1" |}.

Definition quoted (s : string) : string := quote +:+ s +:+ quote.

Definition pair_text (key value : string) : string :=
  quoted key +:+ ": " +:+ quoted value.

Definition output_text (stories : string) : string :=
  "{" +:+ quoted "NewsStories" +:+ ": [" +:+ stories +:+ "], "
      +:+ pair_text "Explanation" "none" +:+ "}".

(** The text of a scout output without stories. *)
Definition empty_output_text : string := output_text "".

(** The text of a scout output whose one story has no [topic]. *)
Definition topicless_output_text : string :=
  output_text
    ("{" +:+ pair_text "title" "Chip prices fall" +:+ ", "
         +:+ pair_text "summary" "Memory got cheaper this week" +:+ ", "
         +:+ pair_text "source" "example.org" +:+ ", "
         +:+ pair_text "url" "https://example.org/chips" +:+ ", "
         +:+ quoted "score" +:+ ": 11, "
         +:+ pair_text "timestamp" "2025-01-01" +:+ "}").

(** A reply that wraps the text in a fence, with prose around it. *)
Definition fenced (text : string) : string :=
  "Here you go: ```json " +:+ text +:+ " ``` Thanks.".

(** A model that asks for a tool on every agent step ([eager]) or on
    none, answers structured calls with [structured] and plain calls with
    the text [plain]. *)
Definition client (eager : bool) (structured : result json) (plain : string)
  : ChatOpenAI :=
  {| invoke := fun _ => Ok (AIMessage plain []);
     bound_invoke := fun _ =>
       Ok (AIMessage "thinking" (if eager then [search_call] else []));
     structured_reply := fun _ => structured |}.

(** A codec that knows the two texts of the examples. *)
Definition loads (s : string) : option json :=
  if String.eqb s empty_output_text
  then Some (JObj (<["NewsStories" := JArr []]>
                   (<["Explanation" := JStr "none"]> ∅)))
  else if String.eqb s topicless_output_text
  then Some (JObj (<["NewsStories" := JArr [story_without_topic]]>
                   (<["Explanation" := JStr "none"]> ∅)))
  else None.

Definition environment (llm : ChatOpenAI) : Environment :=
  {| new_ChatOpenAI := fun _ => llm;
     json_loads := loads;
     json_dumps := fun _ => "{}";
     run_tool := fun _ => "no results";
     SCOUT_PROMPT := fun topic info => "Investigate " +:+ topic +:+ ". " +:+ info;
     PLANNER_PROMPT := fun _ _ _ _ => "Plan the research.";
     EVALUATOR_PROMPT := fun _ _ => "Evaluate the stories.";
     today := "2025-01-01" |}.

(** Every structured call fails, every agent step asks for a tool; the
    plain call answers an empty output in a fence. *)
Definition eager_unstructured_client : ChatOpenAI :=
  client true (Raise ModelError) (fenced empty_output_text).
Definition eager_unstructured : Environment :=
  environment eager_unstructured_client.

(** Every agent step asks for a tool; the structured reply carries
    [story]. *)
Definition eager_off_topic_client : ChatOpenAI :=
  client true (Ok (payload [NewsStory.model_dump story] []))
         (fenced empty_output_text).
Definition eager_off_topic : Environment :=
  environment eager_off_topic_client.

(** The model proposes [task1] at every evaluation, asks for no tool. *)
Definition one_followup : Environment :=
  environment (client false (Ok (payload [] [task1])) (fenced empty_output_text)).

(** The model proposes two tasks at once. *)
Definition two_tasks : Environment :=
  environment (client false (Ok (payload [] [task1; task2]))
                      (fenced empty_output_text)).

(** The structured reply leaves the topic of its story out; the plain call
    answers an empty output. *)
Definition topicless_then_empty_client : ChatOpenAI :=
  client true (Ok (payload [story_without_topic] [])) (fenced empty_output_text).
Definition topicless_then_empty : Environment :=
  environment topicless_then_empty_client.

(** The structured call fails and the plain call leaves the topic out. *)
Definition topicless_fallback_client : ChatOpenAI :=
  client true (Raise ModelError) (fenced topicless_output_text).
Definition topicless_fallback : Environment :=
  environment topicless_fallback_client.

Definition interests_args (v : list string) : Config.ThinkleArgs :=
  {| Config.a_interests := Some v;
     Config.a_user_profile := None;
     Config.a_newsletter := None;
     Config.a_content := None;
     Config.a_output := None;
     Config.a_models := None;
     Config.a_max_tasks := None;
     Config.a_extra := [] |}.

(** The configuration [ThinkleConfig(interests=v)] builds when [v] needs
    no clean-up: every other field at its default. *)
Definition default_config (v : list string) (scout_model : string)
  : Config.ThinkleConfig :=
  {| Config.interests := v;
     Config.user_profile := "";
     Config.newsletter :=
       {| Config.tone := "witty"; Config.include_opinions := true;
          Config.frequency := "weekly"; Config.max_stories := 10 |};
     Config.content :=
       {| Config.include_academic := true; Config.include_reddit := true;
          Config.include_youtube := true; Config.include_news := true;
          Config.reddit := {| Config.min_upvotes := 100;
                              Config.max_age_hours := 48 |};
          Config.youtube := {| Config.min_views := 10000;
                               Config.max_duration_minutes := 60 |} |};
     Config.output :=
       {| Config.format := "markdown"; Config.include_sources := true;
          Config.include_summary_stats := true |};
     Config.models :=
       {| Config.planner := "gpt-5-mini"; Config.scout := scout_model;
          Config.evaluator := "gpt-5-mini"; Config.writer := "gpt-5-mini" |};
     Config.max_tasks := 1 |}.

(** A file system with one configuration file. *)
Definition disk (v : list string) : Config.files :=
  {[ "interests.yaml" := Config.Mapping (interests_args v) ]}.

Definition planner_state (c : Config.ThinkleConfig) : Planner.PlannerState :=
  {| Planner.config := c; Planner.ScoutTasks := [];
     Planner.NewsStories := []; Planner.Report := "" |}.

Definition scout_state (c : option Config.ThinkleConfig) : Scout.ScoutState :=
  {| Scout.AssignedTask := task1; Scout.config := c |}.

Definition evaluator_state (c : Config.ThinkleConfig) (tasks : list ResearchTask.t)
  : Evaluator.EvaluatorState :=
  {| Evaluator.config := c;
     Evaluator.NewsStories := [];
     Evaluator.InvestigatorTasks := tasks;
     Evaluator.followup_cycles := Some 0;
     Evaluator.messages := [] |}.

End Examples.

(** ** config/config_parser.py: the [ConfigParser] object *)

Module ConfigParser.

Record t := {
  config_path : string;
  _config : option Config.ThinkleConfig   (* the cache of [load_config] *) }.

(** [ConfigParser.__init__]; [project_root] is the directory two levels
    above the module. *)
Definition init (project_root : string) (config_path : option string) : t :=
  {| config_path :=
       match config_path with
       | Some p => p
       | None => project_root +:+ "/config/interests.yaml"
       end;
     _config := None |}.

(** [ConfigParser.load_config]: the result and the parser afterwards. *)
Definition load_config (fs : Config.files) (self : t)
  : result Config.ThinkleConfig * t :=
  match Config.load_config fs (config_path self) with
  | Ok config =>
      (Ok config, {| config_path := config_path self; _config := Some config |})
  | Raise e => (Raise e, self)
  end.

Inductive got :=
| Got (config : Config.ThinkleConfig)
| RuntimeError (msg : string).

(** [ConfigParser.get_config] *)
Definition get_config (self : t) : got :=
  match _config self with
  | None => RuntimeError "Configuration not loaded. Call load_config() first."
  | Some config => Got config
  end.

(** [ConfigParser.reload_config] *)
Definition reload_config (fs : Config.files) (self : t)
  : result Config.ThinkleConfig * t :=
  load_config fs self.

(** [ConfigParser.save_config]: the file system afterwards, or the error
    of [open]. *)
Definition save_config `{Config.FileSystem} (fs : Config.files) (self : t)
    (config : Config.ThinkleConfig) (output_path : option string)
  : result Config.files :=
  Config.save_config fs config
    match output_path with
    | None => config_path self
    | Some p => p
    end.




End ConfigParser.

(** ** tools/basic_tools.py *)

Module Tools.

Inductive error :=
| HTTPError (status : Z)
| ConnectionError
| JSONDecodeError
| AttributeError
| TypeError.

Inductive outcome (A : Type) :=
| Returned (a : A)
| Raised (e : error).
Arguments Returned {A} a.
Arguments Raised {A} e.

(** A [requests.Response]: the status and what [response.json()] gives
    ([None] when the body is no JSON). *)
Record Response := {
  status_code : Z;
  body : option json }.

(** What the tool reaches outside: [requests.get] and the formatting of a
    value inside an f-string, which leaves a string as it is. *)
Class Requests := {
  requests_get : string -> gmap string json -> outcome Response;
  format_value : json -> string;
  format_value_str : forall s, format_value (JStr s) = s }.

(** [response.raise_for_status()] *)
Definition raise_for_status (response : Response) : outcome unit :=
  if (400 <=? status_code response) && (status_code response <? 600)
  then Raised (HTTPError (status_code response))
  else Returned tt.

(** One dictionary of the list the tool returns. *)
Definition entry `{Requests} (post : gmap string json) : gmap string json :=
  <["title" := default (JStr "No title") (post !! "title")]>
  (<["url" := JStr ("https://www.reddit.com"
                    +:+ format_value (default (JStr "") (post !! "permalink")))]>
   (<["score" := default (JInt 0) (post !! "score")]>
    (<["subreddit" := default (JStr "") (post !! "subreddit")]>
     (<["created_utc" := default JNull (post !! "created_utc")]> ∅)))).

Fixpoint entries `{Requests} (posts : list json) : outcome (list (gmap string json)) :=
  match posts with
  | [] => Returned []
  | JObj post :: rest =>
      match entries rest with
      | Returned es => Returned (entry post :: es)
      | Raised e => Raised e
      end
  | _ :: _ => Raised AttributeError   (* [post.get] on what is no dict *)
  end.

(** The comprehension over [data]: a list is walked, an empty dict or an
    empty string gives no post, their non-empty forms give strings (which
    have no [get]), anything else cannot be iterated. *)
Definition comprehension `{Requests} (data : json)
  : outcome (list (gmap string json)) :=
  match data with
  | JArr posts => entries posts
  | JObj o => if bool_decide (o = ∅) then Returned [] else Raised AttributeError
  | JStr s => if String.eqb s "" then Returned [] else Raised AttributeError
  | _ => Raised TypeError
  end.

(** [reddit_search] *)
Definition reddit_search `{Requests} (query subreddit : string) (limit : Z)
  : outcome (list (gmap string json)) :=
  let url := "https://api.pushshift.io/reddit/search/submission" in
  let params : gmap string json :=
    <["q" := JStr query]>
    (<["subreddit" := JStr subreddit]>
     (<["size" := JInt limit]>
      (<["sort" := JStr "desc"]>
       (<["sort_type" := JStr "score"]> ∅)))) in
  match requests_get url params with
  | Raised e => Raised e
  | Returned response =>
      match raise_for_status response with
      | Raised e => Raised e
      | Returned _ =>
          match body response with
          | None => Raised JSONDecodeError
          | Some (JObj o) => comprehension (default (JArr []) (o !! "data"))
          | Some _ => Raised AttributeError   (* [.get] on what is no dict *)
          end
      end
  end.

(** The keys of every entry. *)
Definition entry_keys : gset string :=
  {[ "title"; "url"; "score"; "subreddit"; "created_utc" ]}.

End Tools.

(** ** Further inputs used by the examples *)

Module Samples.

(** A post with every key, and a post with none. *)
Definition full_post : gmap string json :=
  <["title" := JStr "Launch day"]>
  (<["permalink" := JStr "/r/space/comments/1"]>
   (<["score" := JInt 42]>
    (<["subreddit" := JStr "space"]>
     (<["created_utc" := JInt 1700000000]> ∅)))).

Definition bare_post : gmap string json := ∅.

(** An API that answers every request with [status] and [answer]. *)
Definition api (status : Z) (answer : option json) : Tools.Requests :=
  {| Tools.requests_get := fun _ _ =>
       Tools.Returned {| Tools.status_code := status; Tools.body := answer |};
     Tools.format_value := fun v => match v with JStr s => s | _ => "None" end;
     Tools.format_value_str := fun s => eq_refl |}.

Definition two_posts : json :=
  JObj {[ "data" := JArr [JObj full_post; JObj bare_post] ]}.

(** A file whose four content sources are switched off. *)
Definition no_source_args : Config.ThinkleArgs :=
  {| Config.a_interests := Some ["AI"];
     Config.a_user_profile := None;
     Config.a_newsletter := None;
     Config.a_content := Some
       {| Config.a_include_academic := Some false;
          Config.a_include_reddit := Some false;
          Config.a_include_youtube := Some false;
          Config.a_include_news := Some false;
          Config.a_reddit := None;
          Config.a_youtube := None |};
     Config.a_output := None;
     Config.a_models := None;
     Config.a_max_tasks := None;
     Config.a_extra := [] |}.

Definition no_source_disk : Config.files :=
  {[ "interests.yaml" := Config.Mapping no_source_args ]}.

(** An operating system that lets every path be written. *)
Definition writable : Config.FileSystem :=
  {| Config.open_w := fun _ _ => None |}.



(** A state of the scout loop in the middle of a conversation. *)
Definition midway : Scout.AgentState :=
  {| Scout.messages := [HumanMessage "earlier"];
     Scout.tool_iterations := Some 1;
     Scout.NewsStories := [] |}.

End Samples.

(** * Theorems *)

(** ** The error monad *)

Lemma bind_Ok {A B} (m : result A) (k : A -> result B) (b : B) :
  bind m k = Ok b -> exists a, m = Ok a /\ k a = Ok b.
Proof. destruct m as [a|e]; simpl; [eauto | discriminate]. Qed.

Ltac inv_bind H :=
  repeat match type of H with
    | bind ?m ?k = Ok _ =>
        let a := fresh "x" in
        let E := fresh "E" in
        apply bind_Ok in H as (a & E & H)
    end.

Lemma mapM_Forall2 {A B} (f : A -> result B) (l : list A) (ys : list B) :
  mapM f l = Ok ys -> Forall2 (fun x y => f x = Ok y) l ys.
Proof.
  revert ys. induction l as [|x l IH]; intros ys Hm; simpl in Hm.
  - injection Hm as <-. constructor.
  - inv_bind Hm. injection Hm as <-. constructor; auto.
Qed.

Lemma mapM_length {A B} (f : A -> result B) (l : list A) (ys : list B) :
  mapM f l = Ok ys -> length ys = length l.
Proof. intros Hm. apply mapM_Forall2 in Hm. symmetry. eapply Forall2_length, Hm. Qed.

(** ** Strings *)

Section StrFacts.

Lemma rstrip_idem (s : string) : Str.rstrip (Str.rstrip s) = Str.rstrip s.
Proof.
  induction s as [|c s IH]; simpl; [reflexivity|].
  destruct (Str.rstrip s) as [|d r] eqn:Er.
  - destruct (Str.isspace c) eqn:Ec; simpl; [reflexivity|]. now rewrite Ec.
  - change (Str.rstrip (String c (String d r)))
      with (match Str.rstrip (String d r) with
            | EmptyString =>
                if Str.isspace c then EmptyString else String c EmptyString
            | r' => String c r'
            end).
    now rewrite IH.
Qed.

Lemma lstrip_head (s : string) :
  Str.lstrip s = EmptyString \/
  exists c t, Str.lstrip s = String c t /\ Str.isspace c = false.
Proof.
  induction s as [|c s IH]; simpl; [now left|].
  destruct (Str.isspace c) eqn:Ec; [exact IH|]. right. eauto.
Qed.

Lemma rstrip_head (c : ascii) (t : string) :
  Str.isspace c = false -> exists r, Str.rstrip (String c t) = String c r.
Proof.
  intros Ec. simpl. destruct (Str.rstrip t); [rewrite Ec|]; eauto.
Qed.

Lemma lstrip_strip (s : string) : Str.lstrip (Str.strip s) = Str.strip s.
Proof.
  unfold Str.strip. destruct (lstrip_head s) as [->|(c & t & -> & Ec)].
  - reflexivity.
  - destruct (rstrip_head c t Ec) as [r ->]. simpl. now rewrite Ec.
Qed.

(** [strip] leaves a stripped string as it is. *)
Lemma strip_idem (s : string) : Str.strip (Str.strip s) = Str.strip s.
Proof.
  unfold Str.strip at 1. rewrite lstrip_strip. unfold Str.strip.
  apply rstrip_idem.
Qed.

End StrFacts.

(** ** config/config_parser.py: the interests validator *)

Section InterestsFacts.

(** One iteration appends nothing or the stripped interest. *)
Lemma interests_step_cases (seen : gset string) (acc : list string) (x : string) :
  exists seen' k,
    Config.interests_step (seen, acc) x = (seen', acc ++ k)
    /\ (k = [] \/ k = [Str.strip x]).
Proof.
  unfold Config.interests_step. case_bool_decide.
  - exists seen, []. rewrite app_nil_r. auto.
  - eauto.
Qed.

(** What the loop appends: stripped entries of the input, in input order. *)
Lemma interests_loop (v : list string) (seen : gset string) (acc : list string) :
  exists kept,
    snd (fold_left Config.interests_step v (seen, acc)) = acc ++ kept
    /\ kept `sublist_of` map Str.strip v
    /\ Forall (fun e => Str.strip e = e) kept.
Proof.
  revert seen acc. induction v as [|x v IH]; intros seen acc; cbn [fold_left map].
  - exists []. rewrite app_nil_r. repeat split; constructor.
  - destruct (interests_step_cases seen acc x) as (seen' & k & -> & Hk).
    destruct (IH seen' (acc ++ k)) as (kept & E & Hs & Hf).
    exists (k ++ kept). rewrite E, <- app_assoc.
    destruct Hk as [-> | ->]; simpl; repeat split; auto.
    + now apply sublist_cons.
    + now apply sublist_skip.
    + constructor; auto. apply strip_idem.
Qed.

(** The validator returns what the loop collected. *)
Lemma validate_interests_loop (v r : list string) :
  Config.validate_interests v = Ok r ->
  v <> [] /\ r = snd (fold_left Config.interests_step v (∅, [])).
Proof.
  destruct v as [|x v]; [discriminate|]. unfold Config.validate_interests.
  intros Hv. split; [discriminate | congruence].
Qed.

(** Every interest of the validated list is trimmed. *)
Lemma validate_interests_trimmed (v r : list string) :
  Config.validate_interests v = Ok r -> Forall (fun e => Str.strip e = e) r.
Proof.
  intros (_ & ->)%validate_interests_loop.
  destruct (interests_loop v ∅ []) as (kept & -> & _ & Hf). exact Hf.
Qed.

(** The validated list keeps the order of the input. *)
Lemma validate_interests_order (v r : list string) :
  Config.validate_interests v = Ok r -> r `sublist_of` map Str.strip v.
Proof.
  intros (_ & ->)%validate_interests_loop.
  destruct (interests_loop v ∅ []) as (kept & -> & Hs & _). exact Hs.
Qed.

(** The first interest always survives: the result is never empty. *)
Lemma validate_interests_nonempty (v r : list string) :
  Config.validate_interests v = Ok r -> r <> [].
Proof.
  intros (Hne & ->)%validate_interests_loop.
  destruct v as [|x v]; [congruence|]. cbn [fold_left].
  destruct (interests_step_cases ∅ [] x) as (seen' & k & E & Hk).
  unfold Config.interests_step in E.
  rewrite bool_decide_eq_false_2 in E by set_solver.
  injection E as <- <-.
  destruct (interests_loop v ({[Str.lower x]} ∪ ∅) ([] ++ [Str.strip x]))
    as (kept & E & _).
  unfold Config.interests_step at 2.
  rewrite bool_decide_eq_false_2 by set_solver.
  rewrite E. simpl. discriminate.
Qed.

(** The scenario of the specification. *)
Example interests_scenario :
  Config.validate_interests ["AI"; "ai"; "Robotics"] = Ok ["AI"; "Robotics"].
Proof. vm_compute. reflexivity. Qed.

(** C6 (code defect). The duplicate test compares [interest.lower()] before
    trimming while the entry is stored after trimming: the file
    [interests: ["AI", " AI"]] loads, and the loaded list is ["AI"; "AI"],
    two entries that are equal (even without folding case). *)
Theorem validate_interests_keeps_untrimmed_duplicate :
  Config.validate_interests ["AI"; " AI"] = Ok ["AI"; "AI"]
  /\ Config.load_config (Examples.disk ["AI"; " AI"]) "interests.yaml"
     = Ok (Examples.default_config ["AI"; "AI"] "gpt-5-mini")
  /\ Str.lower (Str.strip "AI") = Str.lower (Str.strip " AI").
Proof. vm_compute. repeat split; reflexivity. Qed.

End InterestsFacts.

(** ** config/config_parser.py: saving and loading *)

Section RoundTrip.

Import Config.












(** C7 (code defect, the one of C6). The file [interests: ["AI", " AI"]]
    loads to a configuration whose interests are ["AI"; "AI"]; saving it
    (to a path that can be written) and loading the saved file gives
    interests ["AI"]: the round trip does not give the configuration
    back. *)
Theorem save_load_drops_duplicate_interest :
  let fs := Examples.disk ["AI"; " AI"] in
  let c := Examples.default_config ["AI"; "AI"] "gpt-5-mini" in
  let c' := Examples.default_config ["AI"] "gpt-5-mini" in
  load_config fs "interests.yaml" = Ok c
  /\ (exists fs',
        save_config (H := Samples.writable) fs c "saved.yaml" = Ok fs'
        /\ load_config fs' "saved.yaml" = Ok c')
  /\ c' <> c.
Proof.
  cbv zeta. split; [vm_compute; reflexivity|].
  split; [eexists; split; [reflexivity | vm_compute; reflexivity]|]. discriminate.
Qed.

End RoundTrip.

(** ** agents/states.py: what the schema of a story accepts *)

Section StoryFacts.
Context `{IntCoercion}.

Lemma required_Ok (name : string) (o : gmap string json) (v : json) :
  Pydantic.required name o = Ok v -> o !! name = Some v.
Proof. unfold Pydantic.required. destruct (o !! name); [congruence | discriminate]. Qed.

Lemma str_field_Ok (name : string) (o : gmap string json) (s : string) :
  Pydantic.str_field name o = Ok s <-> o !! name = Some (JStr s).
Proof.
  unfold Pydantic.str_field, Pydantic.required. split.
  - destruct (o !! name) as [[]|]; simpl; congruence.
  - intros ->. reflexivity.
Qed.

Lemma int_field_Ok (name : string) (o : gmap string json) (z : Z) :
  Pydantic.int_field name o = Ok z <->
  exists v, o !! name = Some v /\ int_validate v = Some z.
Proof.
  unfold Pydantic.int_field, Pydantic.required, Pydantic.as_int. split.
  - destruct (o !! name) as [v|]; simpl; [|discriminate].
    destruct (int_validate v) eqn:Ev; [|discriminate]. intros [= <-]. eauto.
  - intros (v & -> & Ev). simpl. now rewrite Ev.
Qed.

(** A validated story holds, field by field, what the object held. *)
Lemma of_dict_Ok (o : gmap string json) (x : NewsStory.t) :
  NewsStory.of_dict o = Ok x ->
  o !! "title" = Some (JStr (NewsStory.title x))
  /\ o !! "summary" = Some (JStr (NewsStory.summary x))
  /\ o !! "source" = Some (JStr (NewsStory.source x))
  /\ o !! "url" = Some (JStr (NewsStory.url x))
  /\ (exists v, o !! "score" = Some v /\ int_validate v = Some (NewsStory.score x))
  /\ o !! "timestamp" = Some (JStr (NewsStory.timestamp x))
  /\ o !! "topic" = Some (JStr (NewsStory.topic x)).
Proof.
  unfold NewsStory.of_dict. intros Hv. inv_bind Hv. injection Hv as <-.
  simpl. rewrite <- !str_field_Ok, <- int_field_Ok. tauto.
Qed.

Lemma of_dict_complete (o : gmap string json) (x : NewsStory.t) :
  NewsStory.of_dict o = Ok x -> NewsStory.complete o = true.
Proof.
  intros (H1 & H2 & H3 & H4 & (v & H5 & Hv) & H6 & H7)%of_dict_Ok.
  unfold NewsStory.complete, NewsStory.fields, NewsStory.has_field. simpl.
  rewrite H1, H2, H3, H4, H5, H6, H7, Hv. reflexivity.
Qed.

(** The schema raises nothing but validation errors. *)
Lemma str_field_Raise (name : string) (o : gmap string json) (e : exn) :
  Pydantic.str_field name o = Raise e -> exists msg, e = ValidationError msg.
Proof.
  unfold Pydantic.str_field, Pydantic.required.
  destruct (o !! name) as [[]|]; simpl; intros [= <-]; eauto.
Qed.

Lemma int_field_Raise (name : string) (o : gmap string json) (e : exn) :
  Pydantic.int_field name o = Raise e -> exists msg, e = ValidationError msg.
Proof.
  unfold Pydantic.int_field, Pydantic.required, Pydantic.as_int.
  destruct (o !! name) as [v|]; simpl; [destruct (int_validate v)|];
    intros [= <-]; eauto.
Qed.

Lemma list_field_Raise (name : string) (o : gmap string json) (e : exn) :
  Pydantic.list_field name o = Raise e -> exists msg, e = ValidationError msg.
Proof.
  unfold Pydantic.list_field, Pydantic.required.
  destruct (o !! name) as [[]|]; simpl; intros [= <-]; eauto.
Qed.

Lemma as_dict_Raise (v : json) (e : exn) :
  Pydantic.as_dict v = Raise e -> exists msg, e = ValidationError msg.
Proof. destruct v; simpl; intros [= <-]; eauto. Qed.

Lemma mapM_Raise_inv {A B} (f : A -> result B) (l : list A) (e : exn) :
  mapM f l = Raise e -> exists x, x ∈ l /\ f x = Raise e.
Proof.
  induction l as [|x l IH]; simpl; [discriminate|].
  destruct (f x) as [y|e1] eqn:Ex; simpl.
  - destruct (mapM f l) as [ys|e2]; simpl; [discriminate|].
    intros [= <-]. destruct IH as (x' & Hin & Hx'); [reflexivity|].
    exists x'. split; [now right | exact Hx'].
  - intros [= <-]. exists x. split; [left | exact Ex].
Qed.

End StoryFacts.

Section SchemaFacts.
Context `{IntCoercion}.

Lemma of_dict_Raise (o : gmap string json) (e : exn) :
  NewsStory.of_dict o = Raise e -> exists msg, e = ValidationError msg.
Proof.
  unfold NewsStory.of_dict. intros Hr.
  repeat match type of Hr with
    | bind ?m _ = Raise _ =>
        let E := fresh "E" in
        destruct m eqn:E; simpl in Hr;
        [| injection Hr as <-;
           first [ eapply str_field_Raise, E | eapply int_field_Raise, E ] ]
    end.
  discriminate.
Qed.

(** An object that omits or mistypes a field is rejected: no story is
    built from it. *)
Lemma incomplete_rejected (o : gmap string json) :
  NewsStory.complete o = false ->
  exists msg, NewsStory.of_dict o = Raise (ValidationError msg).
Proof.
  intros Hc. destruct (NewsStory.of_dict o) as [x|e] eqn:Ev.
  - apply of_dict_complete in Ev. congruence.
  - destruct (of_dict_Raise _ _ Ev) as [msg ->]. eauto.
Qed.

Lemma story_validate_Raise (v : json) (e : exn) :
  NewsStory.model_validate v = Raise e -> exists msg, e = ValidationError msg.
Proof.
  unfold NewsStory.model_validate. destruct v; simpl;
    try (intros [= <-]; eauto). apply of_dict_Raise.
Qed.

Lemma scout_output_Raise (v : json) (e : exn) :
  ScoutOutput.model_validate v = Raise e -> exists msg, e = ValidationError msg.
Proof.
  unfold ScoutOutput.model_validate. intros Hr.
  destruct (Pydantic.as_dict v) as [o|e1] eqn:E1; simpl in Hr;
    [| injection Hr as <-; eapply as_dict_Raise, E1].
  destruct (Pydantic.list_field _ o) as [l|e2] eqn:E2; simpl in Hr;
    [| injection Hr as <-; eapply list_field_Raise, E2].
  destruct (mapM _ l) as [ss|e3] eqn:E3; simpl in Hr.
  - destruct (Pydantic.str_field _ o) as [ex|e4] eqn:E4; simpl in Hr;
      [discriminate | injection Hr as <-; eapply str_field_Raise, E4].
  - injection Hr as <-. apply mapM_Raise_inv in E3 as (x & _ & Hx).
    eapply story_validate_Raise, Hx.
Qed.

(** The stories of a validated output are, one for one and in order, the
    story objects of the payload, each of them complete. *)
Lemma scout_output_Ok (v : json) (out : ScoutOutput.t) :
  ScoutOutput.model_validate v = Ok out ->
  Forall2 (fun j x => exists o, j = JObj o /\ NewsStory.of_dict o = Ok x)
          (ScoutOutput.story_objects v) (ScoutOutput.NewsStories out).
Proof.
  unfold ScoutOutput.model_validate. intros Hv. inv_bind Hv.
  injection Hv as <-. simpl.
  destruct v; try discriminate. simpl in E. injection E as ->.
  unfold Pydantic.list_field, Pydantic.required, ScoutOutput.story_objects in *.
  destruct (x !! "NewsStories") as [[]|]; try discriminate.
  simpl in E0. injection E0 as ->.
  apply mapM_Forall2 in E1. eapply Forall2_impl; [exact E1|].
  intros j s Hj. unfold NewsStory.model_validate in Hj.
  destruct j; try discriminate. simpl in Hj. eauto.
Qed.

(** A payload with a defective story object fails validation as a whole. *)
Lemma defective_rejected (v : json) :
  ScoutOutput.defective v ->
  exists msg, ScoutOutput.model_validate v = Raise (ValidationError msg).
Proof.
  intros (o & Hin & Hc).
  destruct (ScoutOutput.model_validate v) as [out|e] eqn:Ev.
  - apply scout_output_Ok in Ev.
    apply list_elem_of_lookup in Hin as [i Hi].
    destruct (Forall2_lookup_l _ _ _ _ _ Ev Hi) as (x & _ & o' & [= <-] & Ho).
    apply of_dict_complete in Ho. congruence.
  - destruct (scout_output_Raise _ _ Ev) as [msg ->]. eauto.
Qed.

(** Dumping a story and validating the dump gives the story back. *)
Lemma story_dump_validate (x : NewsStory.t) :
  NewsStory.model_validate (NewsStory.model_dump x) = Ok x.
Proof.
  destruct x as [ti su so ur sc ts tp].
  unfold NewsStory.model_validate, NewsStory.model_dump, NewsStory.of_dict,
    Pydantic.str_field, Pydantic.int_field, Pydantic.required.
  cbn [Pydantic.as_dict bind NewsStory.title NewsStory.summary NewsStory.source
       NewsStory.url NewsStory.score NewsStory.timestamp NewsStory.topic].
  repeat (rewrite lookup_insert_eq || rewrite lookup_insert_ne by done).
  cbn [bind Pydantic.as_str]. unfold Pydantic.as_int.
  rewrite int_validate_int. reflexivity.
Qed.

End SchemaFacts.

(** C8 (amended). The [score] of a story is validated as an integer and
    nothing more: for every integer [z], in the range 1..10 or not, the
    payload of a story scored [z] validates, and the story built keeps
    [z]. *)
Theorem story_score_unchecked `{IntCoercion} (x : NewsStory.t) (z : Z) :
  let scored :=
    {| NewsStory.title := NewsStory.title x;
       NewsStory.summary := NewsStory.summary x;
       NewsStory.source := NewsStory.source x;
       NewsStory.url := NewsStory.url x;
       NewsStory.score := z;
       NewsStory.timestamp := NewsStory.timestamp x;
       NewsStory.topic := NewsStory.topic x |} in
  exists y, NewsStory.model_validate (NewsStory.model_dump scored) = Ok y
            /\ NewsStory.score y = z.
Proof. intros scored. exists scored. split; [apply story_dump_validate | reflexivity]. Qed.

(** C8 (counterexample). A story scored 11 validates: not every accepted
    story has its score between 1 and 10. *)
Lemma story_score_out_of_range :
  ~ (forall (v : json) (x : NewsStory.t),
       NewsStory.model_validate (H := strict_coercion) v = Ok x ->
       1 <= NewsStory.score x <= 10).
Proof.
  intros Hall.
  specialize (Hall (NewsStory.model_dump Examples.story) Examples.story
                     (story_dump_validate Examples.story)).
  simpl in Hall. lia.
Qed.

(** ** agents/scout.py: the tool loop *)

Section ScoutLoop.
Context `{IntCoercion} `{Environment}.
Variable llm : ChatOpenAI.
Variable system_prompt : string.

Import Scout.

Abbreviation counter s := (default 0 (tool_iterations s)).

Lemma count_app (p : invocation -> bool) (a b : list invocation) :
  count p (a ++ b) = count p a + count p b.
Proof. unfold count. rewrite List.filter_app, length_app. lia. Qed.

Lemma count_nonneg (p : invocation -> bool) (a : list invocation) : 0 <= count p a.
Proof. unfold count. lia. Qed.

(** The three kinds of call partition a trace. *)
Lemma count_total (a : list invocation) :
  Z.of_nat (length a)
  = count is_agent_call a + count is_structured_call a + count is_plain_call a.
Proof.
  unfold count. induction a as [|[] a IH]; simpl in *; lia.
Qed.

Lemma count_tool_free (a : list invocation) :
  count is_tool_free a = count is_structured_call a + count is_plain_call a.
Proof.
  unfold count. induction a as [|[] a IH]; simpl in *; lia.
Qed.

(** The final step calls the model once, or twice when the first call
    raised. *)
Lemma final_step_calls (s : AgentState) :
  fst (final_step llm system_prompt s) = [structured_call]
  \/ fst (final_step llm system_prompt s) = [structured_call; plain_call].
Proof.
  unfold final_step, final_parse.
  destruct (with_structured_output _ _ _); simpl; auto.
Qed.

(** The calls of one node. *)
Lemma step_calls (cap : Z) (otherwise n : node) (s : AgentState) :
  match n with
  | agent => fst (step llm system_prompt cap otherwise n s) = [bound_call]
  | final => fst (step llm system_prompt cap otherwise n s) = [structured_call]
             \/ fst (step llm system_prompt cap otherwise n s)
                = [structured_call; plain_call]
  | _ => fst (step llm system_prompt cap otherwise n s) = []
  end.
Proof.
  destruct n; simpl; try reflexivity.
  pose proof (final_step_calls s) as Hf.
  destruct (final_step llm system_prompt s) as [calls r]. exact Hf.
Qed.

(** Where one node leads and what it does to the counter. *)
Lemma step_next (cap : Z) (otherwise n n' : node) (s s' : AgentState) :
  snd (step llm system_prompt cap otherwise n s) = Ok (n', s') ->
  match n with
  | agent => counter s' = counter s /\ (n' = tools \/ n' = otherwise)
  | tools => counter s' = counter s /\ n' = after_tools
  | after_tools =>
      counter s' = counter s + 1
      /\ n' = (if counter s' <? cap then agent else final)
  | final => n' = END
  | END => n' = END /\ s' = s
  end.
Proof.
  destruct n; simpl.
  - unfold agent_step. simpl. intros Hs. inv_bind Hs. injection Hs as <- <-.
    inv_bind E. injection E as <-. unfold tools_edge in E0. simpl in E0.
    destruct (last _); [|discriminate]. injection E0 as <-.
    split; [reflexivity|]. destruct (_ <? _)%nat; auto.
  - unfold tool_node. destruct (last (messages s)) as [[]|]; try discriminate.
    simpl. intros [= <- <-]. auto.
  - intros [= <- <-]. auto.
  - destruct (final_step llm system_prompt s) as [calls r] eqn:Ef. simpl.
    intros Hs. inv_bind Hs. now injection Hs as <- <-.
  - intros [= <- <-]. auto.
Qed.

(** With fuel for every visit the run ends, within the budgets. *)
Lemma run_bounded (cap : Z) (otherwise : node) :
  otherwise = final \/ otherwise = END ->
  forall (fuel : nat) (n : node) (s : AgentState),
    visits cap n (counter s) <= Z.of_nat fuel ->
    well_bounded cap otherwise n (counter s)
      (fst (run llm system_prompt cap otherwise fuel n s))
      (snd (run llm system_prompt cap otherwise fuel n s)).
Proof.
  intros Hother. induction fuel as [|fuel IH]; intros n s Hfuel.
  - destruct n; simpl in Hfuel; try lia.
    simpl. unfold well_bounded. simpl. repeat split; try discriminate; try reflexivity; try lia.
    intros _ _ Hn. congruence.
  - destruct (decide (n = END)) as [->|Hn].
    { simpl. unfold well_bounded. simpl.
      repeat split; try discriminate; try reflexivity; try lia. congruence. }
    assert (Hrun : run llm system_prompt cap otherwise (S fuel) n s
            = let '(calls, r) := step llm system_prompt cap otherwise n s in
              match r with
              | Raise e => (calls, Failed e)
              | Ok (n', s') =>
                  let '(calls', o) := run llm system_prompt cap otherwise fuel n' s' in
                  (calls ++ calls', o)
              end) by (destruct n; [reflexivity..|congruence]).
    rewrite Hrun. clear Hrun.
    pose proof (step_calls cap otherwise n s) as Hcalls.
    pose proof (fun n' s' => step_next cap otherwise n n' s s') as Hnext.
    destruct (step llm system_prompt cap otherwise n s) as [calls [[n' s']|e]].
    + specialize (Hnext n' s' eq_refl). simpl in Hcalls.
      assert (Hv : visits cap n' (counter s') <= Z.of_nat fuel).
      { destruct n; simpl in Hfuel, Hnext |- *; try congruence.
        - destruct Hnext as [-> [-> | ->]]; [simpl; lia|].
          destruct Hother as [-> | ->]; simpl; lia.
        - destruct Hnext as [-> ->]. simpl. lia.
        - destruct Hnext as [Hk ->]. rewrite Hk.
          destruct (counter s + 1 <? cap) eqn:Hc; simpl.
          + apply Z.ltb_lt in Hc. lia.
          + lia.
        - subst n'. simpl. lia. }
      specialize (IH n' s' Hv).
      destruct (run llm system_prompt cap otherwise fuel n' s') as [calls' o].
      simpl in IH |- *. destruct IH as (Ho & Ha & Hs & Hp & Hend & Hfin).
      unfold well_bounded. rewrite !count_app.
      destruct n; simpl in Hnext, Hcalls |- *; try congruence.
      * (* agent *)
        rewrite Hcalls. destruct Hnext as [Hk Hn'].
        change (count is_agent_call [bound_call]) with 1.
        change (count is_structured_call [bound_call]) with 0.
        change (count is_plain_call [bound_call]) with 0.
        repeat split; try congruence; try lia.
        -- rewrite Hk in Ha.
           destruct Hn' as [-> | ->]; [simpl in Ha; lia|].
           destruct Hother as [-> | ->]; simpl in Ha; lia.
        -- intros s'' Hs'' _. destruct Hn' as [-> | ->].
           ++ destruct (Hfin s'' Hs'') as [?|[? ?]]; [discriminate|lia|right; split; [assumption|lia]].
           ++ destruct Hother as [-> | ->].
              ** destruct (Hfin s'' Hs'') as [?|[? ?]]; [discriminate|lia|discriminate].
              ** right. rewrite (Hend eq_refl). split; reflexivity.
      * (* tools *)
        rewrite Hcalls. destruct Hnext as [Hk ->].
        change (count is_agent_call []) with 0.
        change (count is_structured_call []) with 0.
        change (count is_plain_call []) with 0.
        repeat split; try congruence; try lia.
        -- rewrite Hk in Ha. simpl in Ha. lia.
        -- intros s'' Hs'' _.
           destruct (Hfin s'' Hs'') as [?|[? ?]]; [discriminate|lia|right; split; [assumption|lia]].
      * (* after_tools *)
        rewrite Hcalls. destruct Hnext as [Hk ->].
        change (count is_agent_call []) with 0.
        change (count is_structured_call []) with 0.
        change (count is_plain_call []) with 0.
        rewrite Hk in *.
        repeat split; try congruence; try lia.
        -- destruct (counter s + 1 <? cap) eqn:Hc; simpl in Ha.
           ++ apply Z.ltb_lt in Hc. lia.
           ++ lia.
        -- intros s'' Hs'' _.
           assert (Hne : (if counter s + 1 <? cap then agent else final) <> END)
             by (destruct (_ <? _); discriminate).
           destruct (Hfin s'' Hs'' Hne) as [?|[? ?]]; [lia|right; split; [assumption|lia]].
      * (* final *)
        subst n'. rewrite (Hend eq_refl).
        destruct Hcalls as [-> | ->]; repeat split; try congruence;
          try (vm_compute; congruence); auto.
    + simpl in Hcalls |- *. unfold well_bounded.
      destruct n; simpl in Hcalls |- *; try congruence;
        try (destruct Hcalls as [-> | ->]); try rewrite Hcalls;
        repeat split; try congruence; try discriminate;
        try (vm_compute; congruence); try (unfold count; simpl; lia).
Qed.

End ScoutLoop.

Section ScoutEager.
Context `{IntCoercion} `{Environment}.
Variable llm : ChatOpenAI.
Variable system_prompt : string.

Import Scout.

(** The agent asks for a tool at every step. *)
Hypothesis eager :
  forall msgs, exists c call calls,
    bound_invoke llm msgs = Ok (AIMessage c (call :: calls)).

Lemma run_END (cap : Z) (otherwise : node) (fuel : nat) (s : AgentState) :
  run llm system_prompt cap otherwise fuel END s = ([], Finished s).
Proof. destruct fuel; reflexivity. Qed.

Lemma eager_agent_step (cap : Z) (otherwise : node) (s : AgentState) :
  exists s',
    step llm system_prompt cap otherwise agent s = ([bound_call], Ok (tools, s'))
    /\ tool_iterations s' = tool_iterations s
    /\ exists c calls, last (messages s') = Some (AIMessage c calls).
Proof.
  simpl. unfold agent_step.
  destruct (eager (SystemMessage system_prompt :: messages s))
    as (c & call & calls & ->).
  simpl. unfold tools_edge. simpl. rewrite last_snoc. simpl.
  eexists. split; [reflexivity|]. simpl. rewrite last_snoc. eauto.
Qed.

(** Against an eager agent the run makes every agent call of its budget
    and reaches the final step. *)
Lemma run_eager (cap : Z) (otherwise : node) (fuel : nat) (n : node) (s : AgentState) :
  visits cap n (default 0 (tool_iterations s)) <= Z.of_nat fuel ->
  n <> END ->
  (n = tools -> exists c calls, last (messages s) = Some (AIMessage c calls)) ->
  count is_agent_call (fst (run llm system_prompt cap otherwise fuel n s))
  = agent_budget cap n (default 0 (tool_iterations s))
  /\ count is_structured_call (fst (run llm system_prompt cap otherwise fuel n s)) = 1.
Proof.
  revert n s. induction fuel as [|fuel IH]; intros n s Hfuel Hn Hlast.
  - destruct n; simpl in Hfuel; try lia. congruence.
  - destruct n; try congruence.
    + (* agent *)
      destruct (eager_agent_step cap otherwise s) as (s' & Hstep & Hk & Hl).
      change (run llm system_prompt cap otherwise (S fuel) agent s)
        with (let '(calls, r) := step llm system_prompt cap otherwise agent s in
              match r with
              | Raise e => (calls, Failed e)
              | Ok (n', s') =>
                  let '(calls', o) := run llm system_prompt cap otherwise fuel n' s' in
                  (calls ++ calls', o)
              end).
      rewrite Hstep. cbv beta iota zeta. specialize (IH tools s').
      destruct (run llm system_prompt cap otherwise fuel tools s') as [calls' o].
      cbn [fst] in *. rewrite Hk in IH. simpl in Hfuel.
      destruct IH as [Ha Hs]; [simpl; lia | discriminate | auto |].
      rewrite !count_app, Ha, Hs. simpl agent_budget.
      change (count is_agent_call [bound_call]) with 1.
      change (count is_structured_call [bound_call]) with 0. lia.
    + (* tools *)
      destruct (Hlast eq_refl) as (c & calls & Hl).
      change (run llm system_prompt cap otherwise (S fuel) tools s)
        with (let '(calls, r) := step llm system_prompt cap otherwise tools s in
              match r with
              | Raise e => (calls, Failed e)
              | Ok (n', s') =>
                  let '(calls', o) := run llm system_prompt cap otherwise fuel n' s' in
                  (calls ++ calls', o)
              end).
      simpl step. unfold tool_node. rewrite Hl. simpl bind. cbv beta iota.
      match goal with
      | |- context [run llm system_prompt cap otherwise fuel after_tools ?s'] =>
          specialize (IH after_tools s');
          destruct (run llm system_prompt cap otherwise fuel after_tools s')
            as [calls' o]
      end.
      simpl in IH, Hfuel |- *.
      destruct IH as [Ha Hs]; [lia | discriminate | discriminate |].
      split; assumption.
    + (* after_tools *)
      change (run llm system_prompt cap otherwise (S fuel) after_tools s)
        with (let '(calls', o) :=
                run llm system_prompt cap otherwise fuel
                    (after_tools_edge cap (after_tools_step s))
                    (after_tools_step s) in
              ([] ++ calls', o)).
      specialize (IH (after_tools_edge cap (after_tools_step s)) (after_tools_step s)).
      destruct (run llm system_prompt cap otherwise fuel _ (after_tools_step s))
        as [calls' o].
      unfold after_tools_edge in IH. simpl in IH, Hfuel |- *.
      destruct (default 0 (tool_iterations s) + 1 <? cap) eqn:Hc.
      * apply Z.ltb_lt in Hc. simpl in IH.
        destruct IH as [Ha Hs]; [lia | discriminate | discriminate |].
        split; [lia | assumption].
      * apply Z.ltb_ge in Hc. simpl in IH.
        destruct IH as [Ha Hs]; [lia | discriminate | discriminate |].
        split; [lia | assumption].
    + (* final *)
      change (run llm system_prompt cap otherwise (S fuel) final s)
        with (let '(calls, r) := step llm system_prompt cap otherwise final s in
              match r with
              | Raise e => (calls, Failed e)
              | Ok (n', s') =>
                  let '(calls', o) := run llm system_prompt cap otherwise fuel n' s' in
                  (calls ++ calls', o)
              end).
      pose proof (step_calls llm system_prompt cap otherwise final s) as Hcalls.
      pose proof (fun n' s' => step_next llm system_prompt cap otherwise final n' s s')
        as Hnext.
      destruct (step llm system_prompt cap otherwise final s) as [calls [[n' s']|e]].
      * specialize (Hnext n' s' eq_refl). simpl in Hnext. subst n'.
        rewrite run_END. simpl in Hcalls |- *. rewrite app_nil_r.
        destruct Hcalls as [-> | ->]; split; reflexivity.
      * simpl in Hcalls |- *. destruct Hcalls as [-> | ->]; split; reflexivity.
Qed.

End ScoutEager.

(** ** agents/scout.py: the shape of a run *)

Section ScoutShape.
Context `{IntCoercion} `{Environment}.
Variable llm : ChatOpenAI.
Variable system_prompt : string.

Import Scout.

(** The structured call returned: the final step makes that one call and
    adds the stories of its output. *)
Lemma final_step_direct (s : AgentState) (parsed : ScoutOutput.t) :
  with_structured_output llm ScoutOutput.model_validate
    (SystemMessage system_prompt :: messages s) = Ok parsed ->
  final_step llm system_prompt s
  = ([structured_call], Ok (add_stories s (ScoutOutput.NewsStories parsed))).
Proof. intros Hs. unfold final_step, final_parse. rewrite Hs. reflexivity. Qed.

(** The structured call raised: the final step calls the model once more
    and its result is the result of the fallback. *)
Lemma final_step_fallback (s : AgentState) (e : exn) :
  with_structured_output llm ScoutOutput.model_validate
    (SystemMessage system_prompt :: messages s) = Raise e ->
  final_step llm system_prompt s
  = ([structured_call; plain_call],
     do parsed <- final_fallback llm (SystemMessage system_prompt :: messages s);
     Ok (add_stories s (ScoutOutput.NewsStories parsed))).
Proof. intros Hs. unfold final_step, final_parse. rewrite Hs. reflexivity. Qed.

(** What the fallback returns was validated from the JSON of the plain
    reply. *)
Lemma final_fallback_Ok (msgs : list BaseMessage) (parsed : ScoutOutput.t) :
  final_fallback llm msgs = Ok parsed ->
  exists raw payload,
    invoke llm msgs = Ok raw
    /\ json_loads (candidate_of (content_of raw)) = Some payload
    /\ ScoutOutput.model_validate payload = Ok parsed.
Proof.
  unfold final_fallback. intros Hf. inv_bind Hf.
  destruct (json_loads _) as [data|] eqn:Ej; [|discriminate].
  destruct (ScoutOutput.model_validate data) as [out|[]] eqn:Ed;
    try discriminate. injection Hf as <-. eauto.
Qed.

(** When the final step returns, the stories it adds are those of the
    answer it read. *)
Lemma final_step_answer (s s' : AgentState) :
  snd (final_step llm system_prompt s) = Ok s' ->
  exists payload parsed,
    final_answer llm (SystemMessage system_prompt :: messages s) payload parsed
    /\ s' = add_stories s (ScoutOutput.NewsStories parsed).
Proof.
  destruct (with_structured_output llm ScoutOutput.model_validate
              (SystemMessage system_prompt :: messages s)) as [parsed|e] eqn:Es.
  - rewrite (final_step_direct s parsed Es). simpl. intros [= <-].
    unfold with_structured_output in Es. inv_bind Es.
    exists x, parsed. split; [|reflexivity]. split; [exact Es | now left].
  - rewrite (final_step_fallback s e Es). simpl. intros Hf. inv_bind Hf.
    injection Hf as <-.
    apply final_fallback_Ok in E as (raw & payload & Hr & Hj & Hv).
    exists payload, x. split; [|reflexivity]. split; [exact Hv|]. right. eauto.
Qed.

(** The stories of a validated answer are, one for one and in order, what
    its story objects hold, and none of these objects is defective. *)
Lemma final_answer_stories (msgs : list BaseMessage) (payload : json)
    (parsed : ScoutOutput.t) :
  final_answer llm msgs payload parsed ->
  Forall2 (fun j x => exists o, j = JObj o
                                /\ NewsStory.complete o = true
                                /\ NewsStory.read_from o x)
          (ScoutOutput.story_objects payload) (ScoutOutput.NewsStories parsed)
  /\ ~ ScoutOutput.defective payload.
Proof.
  intros [Hv _]. split.
  - apply scout_output_Ok in Hv. eapply Forall2_impl; [exact Hv|].
    intros j x (o & -> & Ho). exists o. split; [reflexivity|]. split.
    + eapply of_dict_complete, Ho.
    + apply of_dict_Ok, Ho.
  - intros Hd. apply defective_rejected in Hd as [msg Hd]. congruence.
Qed.

Lemma run_unfold (cap : Z) (otherwise : node) (fuel : nat) (n : node)
    (s : AgentState) :
  n <> END ->
  run llm system_prompt cap otherwise (S fuel) n s
  = let '(calls, r) := step llm system_prompt cap otherwise n s in
    match r with
    | Raise e => (calls, Failed e)
    | Ok (n', s') =>
        let '(calls', o) := run llm system_prompt cap otherwise fuel n' s' in
        (calls ++ calls', o)
    end.
Proof. intros Hn. destruct n; [reflexivity..|congruence]. Qed.

(** Before the final step a node adds messages at most: the stories
    stay. *)
Lemma step_keeps (cap : Z) (otherwise n n' : node) (s s' : AgentState) :
  n <> final ->
  snd (step llm system_prompt cap otherwise n s) = Ok (n', s') ->
  messages s `prefix_of` messages s' /\ NewsStories s' = NewsStories s.
Proof.
  intros Hn. destruct n; simpl; try congruence.
  - unfold agent_step. simpl. intros Hs. inv_bind Hs. injection Hs as <- <-.
    inv_bind E. injection E as <-. simpl. split; [now apply prefix_app_r | reflexivity].
  - unfold tool_node. destruct (last (messages s)) as [[]|]; try discriminate.
    simpl. intros [= <- <-]. simpl. split; [now apply prefix_app_r | reflexivity].
  - intros [= <- <-]. split; reflexivity.
  - intros [= <- <-]. split; reflexivity.
Qed.

(** A run is a row of agent calls, then, if it gets there, the final
    step on the state the loop has reached; the final step gives the
    outcome. *)
Lemma run_shape (cap : Z) (otherwise : node) (fuel : nat) (n : node)
    (s : AgentState) :
  exists k : nat,
    (fst (run llm system_prompt cap otherwise fuel n s) = repeat bound_call k
     /\ forall s', snd (run llm system_prompt cap otherwise fuel n s) = Finished s' ->
                   NewsStories s' = NewsStories s)
    \/ exists sf,
         messages s `prefix_of` messages sf
         /\ NewsStories sf = NewsStories s
         /\ fst (run llm system_prompt cap otherwise fuel n s)
            = repeat bound_call k ++ fst (final_step llm system_prompt sf)
         /\ snd (run llm system_prompt cap otherwise fuel n s)
            = match snd (final_step llm system_prompt sf) with
              | Ok s' => Finished s'
              | Raise e => Failed e
              end.
Proof.
  revert n s. induction fuel as [|fuel IH]; intros n s.
  - exists 0%nat. left. destruct n; simpl; split; try reflexivity;
      try discriminate. now intros s' [= <-].
  - destruct (decide (n = END)) as [->|Hn].
    { exists 0%nat. left. simpl. split; [reflexivity|]. now intros s' [= <-]. }
    rewrite run_unfold by exact Hn.
    destruct (decide (n = final)) as [->|Hf].
    { exists 0%nat. right. exists s. split; [reflexivity|]. split; [reflexivity|].
      simpl. destruct (final_step llm system_prompt s) as [calls [s'|e]]; simpl.
      - replace (run llm system_prompt cap otherwise fuel END s')
          with (@nil invocation, Finished s') by (destruct fuel; reflexivity).
        simpl. now rewrite app_nil_r.
      - split; reflexivity. }
    pose proof (step_calls llm system_prompt cap otherwise n s) as Hcalls.
    pose proof (fun n' s' => step_keeps cap otherwise n n' s s' Hf) as Hkeep.
    assert (Hc : exists j : nat,
               fst (step llm system_prompt cap otherwise n s) = repeat bound_call j).
    { destruct n; try congruence;
        [exists 1%nat | exists 0%nat | exists 0%nat]; exact Hcalls. }
    clear Hcalls. destruct Hc as [j Hj].
    destruct (step llm system_prompt cap otherwise n s) as [calls [[n1 s1]|e]].
    + simpl in Hj. subst calls. destruct (Hkeep n1 s1 eq_refl) as [Hm Hst].
      destruct (IH n1 s1) as [k [[Htr Hfin] | (sf & Hpre & Hsf & Htr & Ho)]];
        destruct (run llm system_prompt cap otherwise fuel n1 s1) as [calls' o];
        simpl in *; exists (j + k)%nat.
      * left. split; [now rewrite Htr, repeat_app|].
        intros s' Hs'. rewrite (Hfin s' Hs'). exact Hst.
      * right. exists sf. split; [etrans; eauto|]. split; [congruence|].
        split; [|exact Ho]. now rewrite Htr, repeat_app, app_assoc.
    + simpl in Hj. subst calls. exists j. left. simpl.
      split; [reflexivity | discriminate].
Qed.

Lemma count_repeat_bound (k : nat) :
  count is_agent_call (repeat bound_call k) = Z.of_nat k
  /\ count is_structured_call (repeat bound_call k) = 0
  /\ count is_plain_call (repeat bound_call k) = 0.
Proof.
  unfold count. induction k as [|k IH]; simpl; [auto|].
  destruct IH as (Ha & Hs & Hp). repeat split; try assumption. lia.
Qed.

End ScoutShape.

(** What a finished scout returns: no story when its run ended without the
    final step; otherwise the stories the schema made of the answer the
    final step read on the messages of the returned state. *)
Lemma scout_node_stories `{IntCoercion} `{Environment}
    (state : Scout.ScoutState) (s : Scout.AgentState) :
  snd (Scout.scout_node state) = Scout.Finished s ->
  let task := Scout.AssignedTask state in
  let msgs := SystemMessage (SCOUT_PROMPT (ResearchTask.topic task)
                                          (ResearchTask.additional_info task))
              :: Scout.messages s in
  (Scout.NewsStories s = []
   /\ count is_structured_call (fst (Scout.scout_node state)) = 0)
  \/ exists payload parsed,
       Scout.final_answer (new_ChatOpenAI (Scout.model_name state)) msgs
         payload parsed
       /\ Scout.NewsStories s = ScoutOutput.NewsStories parsed.
Proof.
  intros Hrun task msgs. unfold Scout.scout_node in Hrun |- *. cbv zeta in Hrun.
  destruct (run_shape (new_ChatOpenAI (Scout.model_name state))
              (SCOUT_PROMPT (ResearchTask.topic task)
                            (ResearchTask.additional_info task))
              Scout.MAX_TOOL_ITERATIONS Scout.tools_condition_otherwise
              (Scout.fuel_for Scout.MAX_TOOL_ITERATIONS) Scout.agent
              Scout.initial_state)
    as [k [[Htr Hfin] | (sf & _ & Hsf & _ & Ho)]].
  - left. split; [apply (Hfin s Hrun)|].
    fold task. rewrite Htr. apply count_repeat_bound.
  - right. fold task in Hrun. rewrite Ho in Hrun.
    destruct (snd (Scout.final_step _ _ sf)) as [s'|e] eqn:Ef; [|discriminate].
    injection Hrun as ->.
    apply final_step_answer in Ef as (payload & parsed & Ha & ->).
    exists payload, parsed. split; [exact Ha|].
    simpl. rewrite Hsf. reflexivity.
Qed.

(** C1 (amended). Whatever the agent answers (a tool call on every step,
    none, or an exception), and whether the branch of the agent edge for
    "no tool call" leads to [final] or to [END], the loop ends once the
    fuel covers [3 * cap + 4] node visits: the agent is called at most
    [max 1 cap] times, hence at most [cap + 1] times; the final step runs at
    most once; it makes one structured call and, only after that call
    raised, one plain call; the whole run makes at most [max 1 cap + 2]
    model calls (5 for the cap of 3); the calls of the final step are
    tool-free. Against an agent that asks for a tool on every step the
    agent is called exactly [max 1 cap] times and the final step runs
    exactly once. The calls come in this order: [k] agent calls, with
    [k <= max 1 cap], then, if the run reaches the final step, on the state
    [sf] the loop has reached, the structured call alone when it returns
    (the run then finishes with the stories of its output added, after at
    most [max 1 cap + 1] calls), or the structured call and the plain call
    when the structured call raises (the outcome of the run is then that of
    the fallback). *)
Theorem scout_loop_bounded `{IntCoercion} `{Environment}
    (llm : ChatOpenAI) (system_prompt : string) (cap : Z)
    (otherwise : Scout.node) (fuel : nat) (s : Scout.AgentState) :
  0 <= cap ->
  otherwise = Scout.final \/ otherwise = Scout.END ->
  Scout.tool_iterations s = None ->
  (Scout.fuel_for cap <= fuel)%nat ->
  let tr := fst (Scout.run llm system_prompt cap otherwise fuel Scout.agent s) in
  let o := snd (Scout.run llm system_prompt cap otherwise fuel Scout.agent s) in
  o <> Scout.OutOfFuel
  /\ count is_agent_call tr <= Z.max 1 cap <= cap + 1
  /\ count is_structured_call tr <= 1
  /\ count is_plain_call tr <= count is_structured_call tr
  /\ Z.of_nat (length tr) <= Z.max 1 cap + 2
  /\ count is_structured_call tr <= count is_tool_free tr
  /\ (forall s', o = Scout.Finished s' ->
        count is_structured_call tr = 1
        \/ (otherwise = Scout.END /\ count is_structured_call tr = 0))
  /\ ((forall msgs, exists c call calls,
          bound_invoke llm msgs = Ok (AIMessage c (call :: calls))) ->
      count is_agent_call tr = Z.max 1 cap
      /\ count is_structured_call tr = 1
      /\ 1 <= count is_tool_free tr)
  /\ exists k : nat,
       Z.of_nat k <= Z.max 1 cap
       /\ (tr = repeat bound_call k
           \/ exists sf,
                Scout.messages s `prefix_of` Scout.messages sf
                /\ let msgs := SystemMessage system_prompt :: Scout.messages sf in
                   (exists parsed,
                       with_structured_output llm ScoutOutput.model_validate msgs
                       = Ok parsed
                       /\ tr = repeat bound_call k ++ [structured_call]
                       /\ Z.of_nat (length tr) <= Z.max 1 cap + 1
                       /\ o = Scout.Finished
                                (Scout.add_stories sf
                                   (ScoutOutput.NewsStories parsed)))
                   \/ (exists e,
                         with_structured_output llm ScoutOutput.model_validate msgs
                         = Raise e
                         /\ tr = repeat bound_call k
                                 ++ [structured_call; plain_call]
                         /\ o = match Scout.final_fallback llm msgs with
                                | Ok parsed =>
                                    Scout.Finished
                                      (Scout.add_stories sf
                                         (ScoutOutput.NewsStories parsed))
                                | Raise e' => Scout.Failed e'
                                end)).
Proof.
  intros Hcap Hother Hk Hfuel tr o.
  assert (Hv : Scout.visits cap Scout.agent (default 0 (Scout.tool_iterations s))
               <= Z.of_nat fuel).
  { rewrite Hk. unfold Scout.fuel_for in Hfuel. simpl. lia. }
  destruct (run_bounded llm system_prompt cap otherwise Hother fuel Scout.agent s Hv)
    as (Ho & Ha & Hs & Hp & _ & Hfin).
  fold tr in Ha, Hs, Hp, Hfin. fold o in Ho, Hfin.
  rewrite Hk in Ha. simpl in Ha. rewrite Z.sub_0_r in Ha.
  pose proof (count_total tr) as Ht.
  pose proof (count_tool_free tr) as Hf.
  pose proof (count_nonneg is_plain_call tr) as Hp0.
  assert (Heager : (forall msgs, exists c call calls,
                       bound_invoke llm msgs = Ok (AIMessage c (call :: calls))) ->
                   count is_agent_call tr = Z.max 1 cap
                   /\ count is_structured_call tr = 1
                   /\ 1 <= count is_tool_free tr).
  { intros He.
    pose proof (run_eager llm system_prompt He cap otherwise fuel Scout.agent s Hv
                  ltac:(discriminate) ltac:(discriminate)) as [Hea Hes].
    fold tr in Hea, Hes. rewrite Hk in Hea. simpl in Hea. lia. }
  assert (Hfin' : forall s', o = Scout.Finished s' ->
                    count is_structured_call tr = 1
                    \/ (otherwise = Scout.END /\ count is_structured_call tr = 0))
    by (intros s' Hs'; apply (Hfin s' Hs'); discriminate).
  assert (Hshape : exists k : nat,
       Z.of_nat k <= Z.max 1 cap
       /\ (tr = repeat bound_call k
           \/ exists sf,
                Scout.messages s `prefix_of` Scout.messages sf
                /\ let msgs := SystemMessage system_prompt :: Scout.messages sf in
                   (exists parsed,
                       with_structured_output llm ScoutOutput.model_validate msgs
                       = Ok parsed
                       /\ tr = repeat bound_call k ++ [structured_call]
                       /\ Z.of_nat (length tr) <= Z.max 1 cap + 1
                       /\ o = Scout.Finished
                                (Scout.add_stories sf
                                   (ScoutOutput.NewsStories parsed)))
                   \/ (exists e,
                         with_structured_output llm ScoutOutput.model_validate msgs
                         = Raise e
                         /\ tr = repeat bound_call k
                                 ++ [structured_call; plain_call]
                         /\ o = match Scout.final_fallback llm msgs with
                                | Ok parsed =>
                                    Scout.Finished
                                      (Scout.add_stories sf
                                         (ScoutOutput.NewsStories parsed))
                                | Raise e' => Scout.Failed e'
                                end))).
  { destruct (run_shape llm system_prompt cap otherwise fuel Scout.agent s)
      as [k [[Htr _] | (sf & Hpre & _ & Htr & Hout)]];
      fold tr in Htr; exists k.
    - split; [|left; exact Htr].
      rewrite Htr in Ha. now rewrite (proj1 (count_repeat_bound k)) in Ha.
    - fold o in Hout.
      destruct (with_structured_output llm ScoutOutput.model_validate
                  (SystemMessage system_prompt :: Scout.messages sf))
        as [parsed|e] eqn:Es.
      + rewrite (final_step_direct llm system_prompt sf parsed Es) in Htr, Hout.
        cbn [fst snd] in Htr, Hout.
        assert (Hk' : Z.of_nat k <= Z.max 1 cap).
        { rewrite Htr, count_app in Ha.
          rewrite (proj1 (count_repeat_bound k)) in Ha.
          change (count is_agent_call [structured_call]) with 0 in Ha. lia. }
        split; [exact Hk'|]. right. exists sf. split; [exact Hpre|].
        cbv zeta. left. exists parsed. repeat apply conj; auto.
        rewrite Htr, length_app, repeat_length. simpl. lia.
      + rewrite (final_step_fallback llm system_prompt sf e Es) in Htr, Hout.
        cbn [fst snd] in Htr, Hout.
        assert (Hk' : Z.of_nat k <= Z.max 1 cap).
        { rewrite Htr, count_app in Ha.
          rewrite (proj1 (count_repeat_bound k)) in Ha.
          change (count is_agent_call [structured_call; plain_call]) with 0 in Ha.
          lia. }
        split; [exact Hk'|]. right. exists sf. split; [exact Hpre|].
        cbv zeta. right. exists e. repeat apply conj; auto.
        rewrite Hout.
        destruct (Scout.final_fallback llm
                    (SystemMessage system_prompt :: Scout.messages sf));
          reflexivity. }
  repeat apply conj; try lia; assumption.
Qed.

(** The theorem at the cap of the source, for a model that asks for a tool
    on every step and whose structured call raises. *)
Lemma scout_loop_bounded_witness :
  let llm := Examples.eager_unstructured_client in
  let tr := fst (Scout.run (H0 := Examples.eager_unstructured) llm "prompt" 3
                           Scout.END 13 Scout.agent Scout.initial_state) in
  count is_agent_call tr <= Z.max 1 3 <= 3 + 1
  /\ Z.of_nat (length tr) <= Z.max 1 3 + 2
  /\ count is_agent_call tr = Z.max 1 3
  /\ count is_structured_call tr = 1.
Proof.
  intros llm tr.
  destruct (scout_loop_bounded (H0 := Examples.eager_unstructured) llm "prompt" 3
              Scout.END 13 Scout.initial_state)
    as (_ & Ha & _ & _ & Ht & _ & _ & Heager & _).
  - lia.
  - right. reflexivity.
  - reflexivity.
  - vm_compute. lia.
  - destruct Heager as (Hea & Hes & _).
    + intros msgs. exists "thinking", Examples.search_call, []. reflexivity.
    + split; [exact Ha|]. split; [exact Ht|]. split; [exact Hea | exact Hes].
Defined.

(** The stage itself: [scout_node] always ends, after at most three agent
    calls and at most five model calls. *)
Lemma scout_node_bounded `{IntCoercion} `{Environment} (state : Scout.ScoutState) :
  snd (Scout.scout_node state) <> Scout.OutOfFuel
  /\ count is_agent_call (fst (Scout.scout_node state)) <= 3
  /\ Z.of_nat (length (fst (Scout.scout_node state))) <= 5.
Proof.
  unfold Scout.scout_node.
  set (llm := new_ChatOpenAI _). set (sp := SCOUT_PROMPT _ _).
  destruct (run_bounded llm sp Scout.MAX_TOOL_ITERATIONS
              Scout.tools_condition_otherwise (or_intror eq_refl)
              (Scout.fuel_for Scout.MAX_TOOL_ITERATIONS) Scout.agent
              Scout.initial_state)
    as (Ho & Ha & Hs & Hp & _ & _); [vm_compute; discriminate|].
  change (Scout.agent_budget _ _ _) with 3 in Ha.
  set (r := Scout.run _ _ _ _ _ _ _) in *.
  pose proof (count_total (fst r)) as Ht.
  repeat split; [exact Ho | lia | lia].
Qed.

(** C1 (counterexample). The model asks for a tool on every agent step and
    its structured call raises: the stage calls the model five times (three
    agent calls, the structured call, the plain call of the fallback) and
    returns: five model calls, not four. *)
Lemma scout_five_model_calls :
  let r := Scout.scout_node (H0 := Examples.eager_unstructured)
             (Examples.scout_state None) in
  fst r = [bound_call; bound_call; bound_call; structured_call; plain_call]
  /\ (exists s, snd r = Scout.Finished s)
  /\ ~ Z.of_nat (length (fst r)) <= 4.
Proof.
  cbv zeta. split; [vm_compute; reflexivity|]. split.
  - eexists. vm_compute. reflexivity.
  - vm_compute. intros Hle. apply Hle. reflexivity.
Qed.

(** ** agents/scout.py: the final step and the stories it returns *)

Section ScoutStories.
Context `{IntCoercion} `{Environment}.
Variable llm : ChatOpenAI.
Variable system_prompt : string.

Import Scout.

(** Only the final step touches the stories. *)
Lemma step_stories (cap : Z) (otherwise n n' : node) (s s' : AgentState) :
  snd (step llm system_prompt cap otherwise n s) = Ok (n', s') ->
  match n with
  | final =>
      n' = END /\ exists parsed,
        snd (final_parse llm (SystemMessage system_prompt :: messages s))
        = Ok parsed
        /\ NewsStories s' = NewsStories s ++ ScoutOutput.NewsStories parsed
  | _ => NewsStories s' = NewsStories s
  end.
Proof.
  destruct n; simpl.
  - unfold agent_step. simpl. intros Hs. inv_bind Hs. injection Hs as <- <-.
    inv_bind E. now injection E as <-.
  - unfold tool_node. destruct (last (messages s)) as [[]|]; try discriminate.
    simpl. now intros [= <- <-].
  - now intros [= <- <-].
  - unfold final_step.
    destruct (final_parse llm (SystemMessage system_prompt :: messages s))
      as [calls r]. simpl. intros Hs. inv_bind Hs. injection Hs as <- <-.
    inv_bind E. injection E as <-. simpl. eauto.
  - now intros [= <- <-].
Qed.

End ScoutStories.

Lemma missing_topic_incomplete `{IntCoercion} (o : gmap string json) :
  o !! "topic" = None -> NewsStory.complete o = false.
Proof.
  intros Ho. unfold NewsStory.complete, NewsStory.fields. simpl.
  unfold NewsStory.has_field at 7. rewrite Ho.
  now rewrite !andb_false_r.
Qed.

(** C3 (amended). The stories a scout run returns are the stories the
    schema built from the story objects the model answered, unchanged, as
    many and in the same order: when the run went through the final step,
    the returned list is, one for one, the reading of the story objects of
    the answer the final step got on the messages of the returned state
    (the reply to its structured call or, that call having raised, the
    JSON of the plain reply), each story holding under each of its seven
    fields what its object holds; in particular the topic of each returned
    story is the string under the ["topic"] key of its object, whatever the
    topic of the assigned task. A run that ended without the final step
    returns no story. An object without a ["topic"] key is rejected by the
    schema, not completed from the task. *)
Theorem scout_topic_from_model `{IntCoercion} `{Environment}
    (state : Scout.ScoutState) (s : Scout.AgentState) :
  snd (Scout.scout_node state) = Scout.Finished s ->
  let task := Scout.AssignedTask state in
  let msgs := SystemMessage (SCOUT_PROMPT (ResearchTask.topic task)
                                          (ResearchTask.additional_info task))
              :: Scout.messages s in
  ((Scout.NewsStories s = []
    /\ count is_structured_call (fst (Scout.scout_node state)) = 0)
   \/ exists payload parsed,
        Scout.final_answer (new_ChatOpenAI (Scout.model_name state)) msgs
          payload parsed
        /\ Scout.NewsStories s = ScoutOutput.NewsStories parsed
        /\ Forall2 (fun j x => exists o, j = JObj o /\ NewsStory.read_from o x)
                   (ScoutOutput.story_objects payload) (Scout.NewsStories s))
  /\ (forall o : gmap string json,
        o !! "topic" = None ->
        exists msg, NewsStory.of_dict o = Raise (ValidationError msg)).
Proof.
  intros Hrun task msgs. split.
  - destruct (scout_node_stories state s Hrun)
      as [Hnone | (payload & parsed & Ha & Hs)]; [left; exact Hnone|].
    right. exists payload, parsed. split; [exact Ha|]. split; [exact Hs|].
    rewrite Hs.
    destruct (final_answer_stories _ _ _ _ Ha) as [Hall _].
    eapply Forall2_impl; [exact Hall|].
    intros j x (o & -> & _ & Hr). eauto.
  - intros o Ho. apply incomplete_rejected, missing_topic_incomplete, Ho.
Qed.

(** The theorem on a run whose model answers a story about "Hardware" to
    the task about "AI safety". *)
Lemma scout_topic_from_model_witness :
  exists s,
    snd (Scout.scout_node (H0 := Examples.eager_off_topic)
           (Examples.scout_state None)) = Scout.Finished s
    /\ ((Scout.NewsStories s = []
         /\ count is_structured_call
              (fst (Scout.scout_node (H0 := Examples.eager_off_topic)
                      (Examples.scout_state None))) = 0)
        \/ exists payload parsed,
             @Scout.final_answer strict_coercion Examples.eager_off_topic
               Examples.eager_off_topic_client
               (SystemMessage
                  (SCOUT_PROMPT (Environment := Examples.eager_off_topic)
                     "AI safety" "reader works on alignment")
                :: Scout.messages s) payload parsed
             /\ Scout.NewsStories s = ScoutOutput.NewsStories parsed
             /\ Forall2 (fun j x => exists o, j = JObj o
                                              /\ NewsStory.read_from o x)
                        (ScoutOutput.story_objects payload)
                        (Scout.NewsStories s)).
Proof.
  eexists. split; [vm_compute; reflexivity|].
  eapply (scout_topic_from_model (H0 := Examples.eager_off_topic)
            (Examples.scout_state None)).
  vm_compute. reflexivity.
Defined.

(** C3 (counterexample). The task is about "AI safety", the model answers
    a story whose topic is "Hardware": the stage returns that story with
    the topic "Hardware". *)
Lemma scout_returns_off_topic_story :
  ~ (forall (E : Environment) (state : Scout.ScoutState) (s : Scout.AgentState),
       snd (Scout.scout_node (H := strict_coercion) (H0 := E) state)
       = Scout.Finished s ->
       Forall (fun x => NewsStory.topic x
                        = ResearchTask.topic (Scout.AssignedTask state))
              (Scout.NewsStories s)).
Proof.
  intros Hall.
  pose proof (Hall Examples.eager_off_topic (Examples.scout_state None)) as Hc.
  vm_compute in Hc. specialize (Hc _ eq_refl).
  inversion Hc as [|x l Hx Hl]. discriminate Hx.
Qed.

(** C10 (amended). In the final extraction pass no story is built from a
    story object that omits one of the seven fields or holds under one a
    value its type does not take, and no field is filled with a default:
    - a structured reply with such an object fails the schema; the step
      does not raise then: it catches the error, calls the model once more
      without structure, and its result is the result of that fallback;
    - when the JSON read on the fallback has such an object, the step
      raises [ValueError "Scout output failed validation"];
    - whenever the step returns, the stories it adds are, one for one and
      in order, the reading of the story objects of the answer it read, each
      object carrying all seven fields, each story holding what its object
      holds;
    - the same holds of the stories a finished run of the loop has added. *)
Theorem final_step_builds_no_partial_story `{IntCoercion} `{Environment}
    (llm : ChatOpenAI) (system_prompt : string) (s : Scout.AgentState) :
  let msgs := SystemMessage system_prompt :: Scout.messages s in
  (forall payload,
     structured_reply llm msgs = Ok payload -> ScoutOutput.defective payload ->
     (exists msg,
        with_structured_output llm ScoutOutput.model_validate msgs
        = Raise (ValidationError msg))
     /\ Scout.final_step llm system_prompt s
        = ([structured_call; plain_call],
           do parsed <- Scout.final_fallback llm msgs;
           Ok (Scout.add_stories s (ScoutOutput.NewsStories parsed))))
  /\ (forall e raw data,
        with_structured_output llm ScoutOutput.model_validate msgs = Raise e ->
        invoke llm msgs = Ok raw ->
        json_loads (Scout.candidate_of (content_of raw)) = Some data ->
        ScoutOutput.defective data ->
        snd (Scout.final_step llm system_prompt s)
        = Raise (ValueError "Scout output failed validation"))
  /\ (forall s',
        snd (Scout.final_step llm system_prompt s) = Ok s' ->
        exists payload parsed,
          Scout.final_answer llm msgs payload parsed
          /\ ~ ScoutOutput.defective payload
          /\ s' = Scout.add_stories s (ScoutOutput.NewsStories parsed)
          /\ Forall2 (fun j x => exists o, j = JObj o
                                           /\ NewsStory.complete o = true
                                           /\ NewsStory.read_from o x)
                     (ScoutOutput.story_objects payload)
                     (ScoutOutput.NewsStories parsed))
  /\ (forall cap otherwise fuel s',
        snd (Scout.run llm system_prompt cap otherwise fuel Scout.agent s)
        = Scout.Finished s' ->
        Scout.NewsStories s' = Scout.NewsStories s
        \/ exists payload parsed,
             Scout.final_answer llm
               (SystemMessage system_prompt :: Scout.messages s') payload parsed
             /\ ~ ScoutOutput.defective payload
             /\ Scout.NewsStories s'
                = Scout.NewsStories s ++ ScoutOutput.NewsStories parsed
             /\ Forall2 (fun j x => exists o, j = JObj o
                                              /\ NewsStory.complete o = true
                                              /\ NewsStory.read_from o x)
                        (ScoutOutput.story_objects payload)
                        (ScoutOutput.NewsStories parsed)).
Proof.
  intros msgs. repeat apply conj.
  - intros payload Hs Hd.
    destruct (defective_rejected payload Hd) as [msg Hv].
    assert (Hw : with_structured_output llm ScoutOutput.model_validate msgs
                 = Raise (ValidationError msg))
      by (unfold with_structured_output; rewrite Hs; exact Hv).
    split; [eauto|]. apply (final_step_fallback llm system_prompt s _ Hw).
  - intros e raw data Hs Hr Hj Hd.
    rewrite (final_step_fallback llm system_prompt s e Hs). fold msgs.
    unfold Scout.final_fallback. cbn [snd]. rewrite Hr. simpl. rewrite Hj.
    destruct (defective_rejected data Hd) as [msg ->]. reflexivity.
  - intros s' Hf.
    apply final_step_answer in Hf as (payload & parsed & Ha & ->).
    destruct (final_answer_stories _ _ _ _ Ha) as [Hall Hnd].
    exists payload, parsed.
    split; [exact Ha|]. split; [exact Hnd|]. split; [reflexivity | exact Hall].
  - intros cap otherwise fuel s' Hrun.
    destruct (run_shape llm system_prompt cap otherwise fuel Scout.agent s)
      as [k [[_ Hfin] | (sf & _ & Hsf & _ & Ho)]]; [left; now apply Hfin|].
    right. rewrite Ho in Hrun.
    destruct (snd (Scout.final_step llm system_prompt sf)) as [s1|e] eqn:Ef;
      [|discriminate].
    injection Hrun as ->.
    apply final_step_answer in Ef as (payload & parsed & Ha & ->).
    destruct (final_answer_stories _ _ _ _ Ha) as [Hall Hnd].
    exists payload, parsed.
    split; [exact Ha|]. split; [exact Hnd|]. split; [|exact Hall].
    simpl. now rewrite Hsf.
Qed.

(** The theorem on two answers that leave the topic of a story out: as the
    structured reply, which sends the step to its fallback, and as the text
    of the fallback, which makes the step raise. *)
Lemma final_step_builds_no_partial_story_witness :
  fst (@Scout.final_step strict_coercion Examples.topicless_then_empty
         Examples.topicless_then_empty_client "prompt" Scout.initial_state)
  = [structured_call; plain_call]
  /\ snd (@Scout.final_step strict_coercion Examples.topicless_fallback
            Examples.topicless_fallback_client "prompt" Scout.initial_state)
     = Raise (ValueError "Scout output failed validation").
Proof.
  assert (Hd : forall rest : gmap string json,
             @ScoutOutput.defective strict_coercion
               (JObj (<["NewsStories" := JArr [Examples.story_without_topic]]> rest))).
  { intros rest. eexists. split.
    - unfold ScoutOutput.story_objects. rewrite lookup_insert_eq.
      apply list_elem_of_lookup. exists 0%nat. reflexivity.
    - vm_compute. reflexivity. }
  split.
  - destruct (@final_step_builds_no_partial_story strict_coercion
                Examples.topicless_then_empty
                Examples.topicless_then_empty_client "prompt"
                Scout.initial_state) as (Hdirect & _).
    destruct (Hdirect (Examples.payload [Examples.story_without_topic] []))
      as [_ Hstep]; [reflexivity | apply Hd |].
    now rewrite Hstep.
  - destruct (@final_step_builds_no_partial_story strict_coercion
                Examples.topicless_fallback
                Examples.topicless_fallback_client "prompt"
                Scout.initial_state) as (_ & Hfallback & _).
    apply (Hfallback ModelError
             (AIMessage (Examples.fenced Examples.topicless_output_text) [])
             (JObj (<["NewsStories" := JArr [Examples.story_without_topic]]>
                    (<["Explanation" := JStr "none"]> ∅))));
      [reflexivity | reflexivity | vm_compute; reflexivity | apply Hd].
Defined.

(** C10 (counterexample). The structured reply carries a story without
    topic, the plain reply of the fallback is a well-formed output without
    stories: the final step does not raise, it returns. *)
Lemma final_step_returns_after_defective_reply :
  ~ (forall (E : Environment) (llm : ChatOpenAI) (system_prompt : string)
            (s : Scout.AgentState) (payload : json),
       structured_reply llm (SystemMessage system_prompt :: Scout.messages s)
       = Ok payload ->
       ScoutOutput.defective (H := strict_coercion) payload ->
       exists e,
         snd (Scout.final_step (H := strict_coercion) (H0 := E)
                llm system_prompt s) = Raise e).
Proof.
  intros Hall.
  destruct (Hall Examples.topicless_then_empty
              Examples.topicless_then_empty_client "prompt" Scout.initial_state
              (Examples.payload [Examples.story_without_topic] []))
    as [e He].
  - reflexivity.
  - eexists. split.
    + unfold ScoutOutput.story_objects, Examples.payload.
      rewrite lookup_insert_eq. apply list_elem_of_lookup. exists 0%nat.
      reflexivity.
    + vm_compute. reflexivity.
  - vm_compute in He. discriminate He.
Qed.

(** ** agents/planner.py *)

Lemma research_task_eta (t : ResearchTask.t) :
  {| ResearchTask.topic := ResearchTask.topic t;
     ResearchTask.additional_info := ResearchTask.additional_info t |} = t.
Proof. now destruct t. Qed.

(** C5 (amended). The planner emits the tasks of the model's answer, all of
    them and in order: the emitted list has one task per record of the
    ["ScoutTasks"] array the model returned, whatever [max_tasks] is
    ([max_tasks] only enters the prompt). *)
Theorem planner_emits_every_model_task `{Environment}
    (state state' : Planner.PlannerState) :
  Planner.planner_node state = Ok state' ->
  let config := Planner.config state in
  let llm := new_ChatOpenAI (Config.planner (Config.models config)) in
  let prompt := PLANNER_PROMPT (Config.interests config)
                  (Config.user_profile config) today (Config.max_tasks config) in
  exists o l,
    structured_reply llm [SystemMessage prompt] = Ok (JObj o)
    /\ o !! "ScoutTasks" = Some (JArr l)
    /\ Forall2 (fun j t => ResearchTask.model_validate j = Ok t)
               l (Planner.ScoutTasks state')
    /\ length (Planner.ScoutTasks state') = length l.
Proof.
  intros Hp. cbv zeta. unfold Planner.planner_node, with_structured_output in Hp.
  inv_bind Hp. injection Hp as <-. inv_bind E.
  unfold PlannerOutput.model_validate in E. inv_bind E. injection E as <-.
  destruct x0 as [| | | | | |o]; try discriminate. injection E1 as <-.
  unfold Pydantic.list_field, Pydantic.required in E2.
  destruct (o !! "ScoutTasks") as [[]|] eqn:Eo; try discriminate.
  injection E2 as <-. exists o, l. simpl.
  repeat split; auto.
  - now apply mapM_Forall2.
  - now apply mapM_length in E3.
Qed.

(** The theorem on a model that returns two tasks to a configuration whose
    [max_tasks] is 1. *)
Lemma planner_emits_every_model_task_witness :
  let state := Examples.planner_state (Examples.default_config ["AI"] "gpt-5-mini") in
  exists state',
    Planner.planner_node (H := Examples.two_tasks) state = Ok state'
    /\ exists (o : gmap string json) (l : list json),
         o !! "ScoutTasks" = Some (JArr l)
         /\ length (Planner.ScoutTasks state') = length l.
Proof.
  intros state. eexists. split; [vm_compute; reflexivity|].
  destruct (planner_emits_every_model_task (H := Examples.two_tasks) state _ eq_refl)
    as (o & l & _ & Ho & _ & Hl).
  exists o, l. split; [exact Ho | exact Hl].
Defined.

(** C5 (counterexample). [max_tasks] is 1 and the model returns two tasks:
    the planner emits both. *)
Lemma planner_emits_more_than_max_tasks :
  ~ (forall (E : Environment) (state state' : Planner.PlannerState),
       Planner.planner_node (H := E) state = Ok state' ->
       Z.of_nat (length (Planner.ScoutTasks state'))
       <= Config.max_tasks (Planner.config state)).
Proof.
  intros Hall.
  pose proof (Hall Examples.two_tasks
                (Examples.planner_state (Examples.default_config ["AI"] "gpt-5-mini")))
    as Hc.
  vm_compute in Hc. specialize (Hc _ eq_refl). apply Hc. reflexivity.
Qed.

(** ** agents/evaluator.py *)

Section EvaluatorFacts.
Context `{IntCoercion} `{Environment}.

Import Evaluator.

Lemma run_S (fuel : nat) (state : EvaluatorState) :
  run (S fuel) state
  = match llm_node state with
    | Raise e => ([], Failed e)
    | Ok s1 =>
        match router_node s1 with
        | end_ => ([Evaluated s1], Finished s1)
        | Sends payloads =>
            match scout_round payloads s1 with
            | Finished s2 =>
                let s3 := clear_tasks_node s2 in
                let '(tr, o) := run fuel s3 in
                (Evaluated s1 :: Scouted payloads s2 :: Cleared s3 :: tr, o)
            | o => ([Evaluated s1], o)
            end
        end
    end.
Proof. reflexivity. Qed.

(** An evaluation pass stores the model's answer: the stories are added,
    the task list is replaced by the list the model proposed. *)
Lemma llm_node_Ok (state s1 : EvaluatorState) :
  llm_node state = Ok s1 ->
  exists msgs out,
    with_structured_output
      (new_ChatOpenAI (Config.evaluator (Config.models (config state))))
      EvaluatorOutput.model_validate msgs = Ok out
    /\ InvestigatorTasks s1 = EvaluatorOutput.InvestigatorTasks out
    /\ NewsStories s1 = NewsStories state ++ EvaluatorOutput.NewsStories out
    /\ followup_cycles s1 = followup_cycles state
    /\ config s1 = config state.
Proof.
  unfold llm_node. intros Hl. inv_bind Hl. injection Hl as <-.
  eexists _, x. split; [exact E|]. simpl. auto.
Qed.

Lemma scout_round_keeps (payloads : list Scout.ScoutState) (state s2 : EvaluatorState) :
  scout_round payloads state = Finished s2 ->
  followup_cycles s2 = followup_cycles state
  /\ InvestigatorTasks s2 = InvestigatorTasks state
  /\ config s2 = config state.
Proof.
  revert state. induction payloads as [|p ps IH]; intros state; simpl.
  - intros [= <-]. auto.
  - destruct (snd (Scout.scout_node p)); try discriminate.
    intros Hr. apply IH in Hr. simpl in Hr. exact Hr.
Qed.

(** The router sends one payload per task of the state, in order, and no
    payload carries the configuration. *)
Lemma router_node_Sends (state : EvaluatorState) (payloads : list Scout.ScoutState) :
  router_node state = Sends payloads ->
  map Scout.AssignedTask payloads = InvestigatorTasks state
  /\ Forall (fun p => Scout.config p = None) payloads
  /\ InvestigatorTasks state <> []
  /\ cycles state < 1.
Proof.
  unfold router_node.
  destruct (0 <? length (InvestigatorTasks state))%nat eqn:Hl; [|discriminate].
  destruct (cycles state <? 1) eqn:Hc; [|discriminate].
  simpl. intros [= <-]. repeat split.
  - rewrite map_map. simpl. erewrite map_ext; [apply map_id|].
    intros t. apply research_task_eta.
  - apply Forall_forall. intros p (t & -> & _)%list_elem_of_fmap. reflexivity.
  - intros Hnil. rewrite Hnil in Hl. discriminate.
  - now apply Z.ltb_lt.
Qed.

Lemma router_node_dispatch (state : EvaluatorState) :
  InvestigatorTasks state <> [] -> cycles state < 1 ->
  exists payloads, router_node state = Sends payloads.
Proof.
  intros Hne Hc. unfold router_node.
  destruct (InvestigatorTasks state) as [|t ts]; [congruence|].
  apply Z.ltb_lt in Hc. rewrite Hc. simpl. eauto.
Qed.

Lemma router_node_end (state : EvaluatorState) :
  1 <= cycles state -> router_node state = end_.
Proof.
  intros Hc. unfold router_node.
  apply Z.ltb_ge in Hc. rewrite Hc. now rewrite andb_false_r.
Qed.

Lemma clear_tasks_cycles (state : EvaluatorState) :
  followup_cycles (clear_tasks_node state) = Some (cycles state + 1)
  /\ InvestigatorTasks (clear_tasks_node state) = [].
Proof. split; reflexivity. Qed.

Lemma nondecreasing_cons (x y : Z) (l : list Z) :
  x <= y -> nondecreasing (y :: l) -> nondecreasing (x :: y :: l).
Proof. intros Hxy Hl. split; assumption. Qed.

(** Whatever the model and the scouts do, [followup_cycles] never goes
    down and never goes above 1 in a run that starts at 1 or below. *)
Lemma run_cycles (fuel : nat) (state : EvaluatorState) :
  cycles state <= 1 ->
  nondecreasing (cycle_history state (fst (run fuel state)))
  /\ Forall (fun c => c <= 1) (cycle_history state (fst (run fuel state))).
Proof.
  revert state. induction fuel as [|fuel IH]; intros state Hc.
  - simpl. unfold cycle_history. simpl. split; [exact I|]. repeat constructor. exact Hc.
  - rewrite run_S. destruct (llm_node state) as [s1|e] eqn:El.
    2:{ unfold cycle_history. simpl. split; [exact I|]. repeat constructor. exact Hc. }
    apply llm_node_Ok in El as (_ & _ & _ & _ & _ & Hk1 & _).
    assert (Hc1 : cycles s1 = cycles state) by (unfold cycles; now rewrite Hk1).
    destruct (router_node s1) as [payloads|] eqn:Er.
    2:{ unfold cycle_history. simpl. rewrite Hc1.
        split; [split; [lia | exact I]|]. repeat constructor; exact Hc. }
    apply router_node_Sends in Er as (_ & _ & _ & Hlt).
    destruct (scout_round payloads s1) as [s2| |] eqn:Es.
    2,3: unfold cycle_history; simpl; rewrite Hc1;
         (split; [split; [lia | exact I]|]); repeat constructor; exact Hc.
    apply scout_round_keeps in Es as (Hk2 & _ & _).
    assert (Hc2 : cycles s2 = cycles state)
      by (unfold cycles in *; rewrite Hk2; exact Hc1).
    assert (Hc3 : cycles (clear_tasks_node s2) = cycles state + 1)
      by (unfold cycles at 1; simpl; now rewrite Hc2).
    specialize (IH (clear_tasks_node s2)). rewrite Hc3 in IH.
    destruct IH as [Hnd Hle]; [lia|].
    cbv zeta. destruct (run fuel (clear_tasks_node s2)) as [tr o].
    unfold cycle_history in *. cbn [fst map state_after] in *.
    rewrite Hc1, Hc2, Hc3. rewrite Hc3 in Hnd, Hle.
    split.
    + do 3 (apply nondecreasing_cons; [lia|]). exact Hnd.
    + do 3 (apply Forall_cons; split; [lia|]). exact Hle.
Qed.

End EvaluatorFacts.

(** C2. From a state whose [followup_cycles] is 0, against a model that
    proposes exactly one follow-up task at every evaluation (the scout it
    triggers returning), the stage makes two evaluation passes and one
    scouting round of one scout in between, then stops with
    [followup_cycles] equal to 1; along the run [followup_cycles] never
    decreases and never exceeds 1. The scouting round is the run of
    [scout_node] on the task [t] the model proposed in the first pass (and
    on no configuration): the stories and the messages that scout returns
    are added to the state of the stage, [clear_tasks_node] runs on that
    state, and the second pass on its result ends the run. *)
Theorem evaluator_one_followup_round `{IntCoercion} `{Environment}
    (fuel : nat) (s0 : Evaluator.EvaluatorState) :
  Evaluator.cycles s0 = 0 ->
  (2 <= fuel)%nat ->
  (forall msgs, exists out,
      with_structured_output
        (new_ChatOpenAI (Config.evaluator (Config.models (Evaluator.config s0))))
        EvaluatorOutput.model_validate msgs = Ok out
      /\ length (EvaluatorOutput.InvestigatorTasks out) = 1%nat) ->
  (forall p, exists a, snd (Scout.scout_node p) = Scout.Finished a) ->
  exists tr s,
    Evaluator.run fuel s0 = (tr, Evaluator.Finished s)
    /\ Evaluator.followup_cycles s = Some 1
    /\ (exists p s2, List.filter Evaluator.is_scouted tr = [Evaluator.Scouted [p] s2])
    /\ length (List.filter Evaluator.is_evaluated tr) = 2%nat
    /\ Evaluator.nondecreasing (Evaluator.cycle_history s0 tr)
    /\ Forall (fun c => c <= 1) (Evaluator.cycle_history s0 tr)
    /\ exists s1 t a msgs out,
         Evaluator.llm_node s0 = Ok s1
         /\ with_structured_output
              (new_ChatOpenAI
                 (Config.evaluator (Config.models (Evaluator.config s0))))
              EvaluatorOutput.model_validate msgs = Ok out
         /\ EvaluatorOutput.InvestigatorTasks out = [t]
         /\ Evaluator.InvestigatorTasks s1 = [t]
         /\ let p := {| Scout.AssignedTask := t; Scout.config := None |} in
            let s2 :=
              {| Evaluator.config := Evaluator.config s1;
                 Evaluator.NewsStories :=
                   Evaluator.NewsStories s1 ++ Scout.NewsStories a;
                 Evaluator.InvestigatorTasks := Evaluator.InvestigatorTasks s1;
                 Evaluator.followup_cycles := Evaluator.followup_cycles s1;
                 Evaluator.messages :=
                   Evaluator.messages s1 ++ Scout.messages a |} in
            let s3 := Evaluator.clear_tasks_node s2 in
            snd (Scout.scout_node p) = Scout.Finished a
            /\ Evaluator.llm_node s3 = Ok s
            /\ tr = [Evaluator.Evaluated s1; Evaluator.Scouted [p] s2;
                     Evaluator.Cleared s3; Evaluator.Evaluated s].
Proof.
  intros Hc0 Hfuel Hmodel Hscout.
  assert (Hpass : forall st, Evaluator.config st = Evaluator.config s0 ->
             exists s1,
               Evaluator.llm_node st = Ok s1
               /\ length (Evaluator.InvestigatorTasks s1) = 1%nat
               /\ Evaluator.followup_cycles s1 = Evaluator.followup_cycles st
               /\ Evaluator.config s1 = Evaluator.config s0).
  { intros st Hcfg. unfold Evaluator.llm_node. rewrite Hcfg.
    match goal with
    | |- context [with_structured_output ?l ?v ?m] =>
        destruct (Hmodel m) as (out & -> & Hlen)
    end.
    simpl. eexists. split; [reflexivity|]. simpl. auto. }
  destruct fuel as [|[|fuel]]; try lia.
  destruct (Hpass s0 eq_refl) as (s1 & El1 & Hlen1 & Hk1 & Hcfg1).
  assert (Hc1 : Evaluator.cycles s1 = 0)
    by (unfold Evaluator.cycles in *; now rewrite Hk1).
  destruct (router_node_dispatch s1) as [payloads Hr];
    [destruct (Evaluator.InvestigatorTasks s1); [discriminate | congruence] | lia |].
  pose proof Hr as (Hmap & Hnone & _)%router_node_Sends.
  destruct (Evaluator.InvestigatorTasks s1) as [|t [|t' ts]] eqn:Ht1;
    try discriminate.
  assert (Hone : payloads = [{| Scout.AssignedTask := t; Scout.config := None |}]).
  { destruct payloads as [|[t0 c0] [|q ps]]; try discriminate.
    simpl in Hmap. injection Hmap as ->.
    apply Forall_inv in Hnone. simpl in Hnone. now subst c0. }
  subst payloads.
  set (p := {| Scout.AssignedTask := t; Scout.config := None |}) in *.
  destruct (Hscout p) as [a Ha].
  set (s2 := {| Evaluator.config := Evaluator.config s1;
                Evaluator.NewsStories :=
                  Evaluator.NewsStories s1 ++ Scout.NewsStories a;
                Evaluator.InvestigatorTasks := Evaluator.InvestigatorTasks s1;
                Evaluator.followup_cycles := Evaluator.followup_cycles s1;
                Evaluator.messages :=
                  Evaluator.messages s1 ++ Scout.messages a |}).
  assert (Hs2 : Evaluator.scout_round [p] s1 = Evaluator.Finished s2)
    by (simpl; rewrite Ha; reflexivity).
  set (s3 := Evaluator.clear_tasks_node s2).
  assert (Hc3 : Evaluator.followup_cycles s3 = Some 1).
  { unfold s3, s2. simpl. unfold Evaluator.cycles. simpl.
    unfold Evaluator.cycles in Hc1. now rewrite Hc1. }
  assert (Hcfg3 : Evaluator.config s3 = Evaluator.config s0)
    by (unfold s3, s2; simpl; congruence).
  destruct (Hpass s3 Hcfg3) as (s4 & El4 & _ & Hk4 & _).
  assert (Hend : Evaluator.router_node s4 = Evaluator.end_).
  { apply router_node_end. unfold Evaluator.cycles. rewrite Hk4, Hc3. simpl. lia. }
  assert (Hrun : Evaluator.run (S (S fuel)) s0
                 = ([Evaluator.Evaluated s1; Evaluator.Scouted [p] s2;
                     Evaluator.Cleared s3; Evaluator.Evaluated s4],
                    Evaluator.Finished s4)).
  { rewrite run_S, El1. cbv beta iota. rewrite Hr. cbv beta iota.
    rewrite Hs2. cbv beta iota zeta. fold s3.
    rewrite run_S, El4. cbv beta iota. rewrite Hend. reflexivity. }
  pose proof (run_cycles (S (S fuel)) s0) as Hmono. rewrite Hrun in Hmono.
  destruct Hmono as [Hnd Hle]; [lia|].
  pose proof El1 as (msgs & out & Hw & Hout & _)%llm_node_Ok.
  eexists _, s4. split; [exact Hrun|]. split; [congruence|].
  split; [exists p, s2; reflexivity|]. split; [reflexivity|].
  split; [exact Hnd|]. split; [exact Hle|].
  exists s1, t, a, msgs, out. split; [exact El1|]. split; [exact Hw|].
  split; [congruence|]. split; [exact Ht1|].
  cbv zeta. fold p. fold s2. fold s3.
  split; [exact Ha|]. split; [exact El4 | reflexivity].
Qed.

(** The theorem on the stage as the pipeline runs it, against a model that
    proposes one task at every pass. *)
Lemma evaluator_one_followup_round_witness :
  exists tr s,
    Evaluator.run (H := strict_coercion) (H0 := Examples.one_followup) 3
      (Examples.evaluator_state (Examples.default_config ["AI"] "gpt-4o") [])
    = (tr, Evaluator.Finished s)
    /\ Evaluator.followup_cycles s = Some 1.
Proof.
  destruct (evaluator_one_followup_round (H := strict_coercion)
              (H0 := Examples.one_followup) 3
              (Examples.evaluator_state (Examples.default_config ["AI"] "gpt-4o") []))
    as (tr & s & Hrun & Hk & _).
  - reflexivity.
  - lia.
  - intros msgs. eexists. split; [vm_compute; reflexivity | reflexivity].
  - intros p. eexists. vm_compute. reflexivity.
  - exists tr, s. split; [exact Hrun | exact Hk].
Defined.

(** C4 (amended). After an evaluation pass the investigator-task list of
    the state is the list the model proposed, whole and in order; while
    [followup_cycles] is below 1 the router sends one scout per task of
    that list; [clear_tasks_node] empties the list. *)
Theorem evaluator_keeps_every_proposed_task `{IntCoercion} `{Environment}
    (state s1 : Evaluator.EvaluatorState) :
  Evaluator.llm_node state = Ok s1 ->
  (exists msgs out,
      with_structured_output
        (new_ChatOpenAI (Config.evaluator (Config.models (Evaluator.config state))))
        EvaluatorOutput.model_validate msgs = Ok out
      /\ Evaluator.InvestigatorTasks s1 = EvaluatorOutput.InvestigatorTasks out)
  /\ (Evaluator.InvestigatorTasks s1 <> [] -> Evaluator.cycles s1 < 1 ->
      exists payloads,
        Evaluator.router_node s1 = Evaluator.Sends payloads
        /\ map Scout.AssignedTask payloads = Evaluator.InvestigatorTasks s1)
  /\ Evaluator.InvestigatorTasks (Evaluator.clear_tasks_node s1) = [].
Proof.
  intros Hl. repeat split.
  - apply llm_node_Ok in Hl as (msgs & out & Hv & Ht & _). eauto.
  - intros Hne Hc. destruct (router_node_dispatch s1 Hne Hc) as [payloads Hr].
    exists payloads. split; [exact Hr|]. now apply router_node_Sends in Hr.
Qed.

(** The theorem on a model that proposes two tasks in one pass. *)
Lemma evaluator_keeps_every_proposed_task_witness :
  let state := Examples.evaluator_state (Examples.default_config ["AI"] "gpt-4o") [] in
  exists s1 payloads,
    Evaluator.llm_node (H := strict_coercion) (H0 := Examples.two_tasks) state = Ok s1
    /\ Evaluator.router_node s1 = Evaluator.Sends payloads
    /\ map Scout.AssignedTask payloads = Evaluator.InvestigatorTasks s1.
Proof.
  intros state. eexists.
  destruct (evaluator_keeps_every_proposed_task (H := strict_coercion)
              (H0 := Examples.two_tasks) state _ eq_refl)
    as (_ & Hsend & _).
  destruct Hsend as (payloads & Hr & Hmap).
  - vm_compute. discriminate.
  - vm_compute. reflexivity.
  - exists payloads. split; [vm_compute; reflexivity|]. split; [exact Hr | exact Hmap].
Defined.

(** C4 (counterexample). The model proposes two follow-up tasks in one
    pass: the state then holds both, and the router sends a scout for
    each. *)
Lemma evaluator_holds_two_tasks :
  ~ (forall (E : Environment) (state s1 : Evaluator.EvaluatorState),
       Evaluator.llm_node (H := strict_coercion) (H0 := E) state = Ok s1 ->
       (length (Evaluator.InvestigatorTasks s1) <= 1)%nat
       /\ forall payloads, Evaluator.router_node s1 = Evaluator.Sends payloads ->
                           (length payloads <= 1)%nat).
Proof.
  intros Hall.
  pose proof (Hall Examples.two_tasks
                (Examples.evaluator_state
                   (Examples.default_config ["AI"] "gpt-4o") [])) as Hc.
  vm_compute in Hc. destruct (Hc _ eq_refl) as [Hlen _]. lia.
Qed.

(** ** The configuration on its way to the scouts *)

(** The scouts the orchestrator sends get the configuration and use its
    scout model. *)
Lemma planned_scouts_use_configured_model (state : Planner.PlannerState) :
  Forall (fun p => Scout.config p = Some (Planner.config state)
                   /\ Scout.model_name p
                      = Config.scout (Config.models (Planner.config state)))
         (Orchestrator.generate_scout_tasks state).
Proof.
  apply Forall_forall. intros p (t & -> & _)%list_elem_of_fmap. split; reflexivity.
Qed.

(** The scouts the evaluator sends get no configuration and use the
    default model, whatever the configuration of the evaluator says. *)
Lemma followup_scouts_use_default_model
    (state : Evaluator.EvaluatorState) (payloads : list Scout.ScoutState) :
  Evaluator.router_node state = Evaluator.Sends payloads ->
  Forall (fun p => Scout.model_name p = "gpt-5-mini") payloads.
Proof.
  intros (_ & Hnone & _)%router_node_Sends.
  eapply Forall_impl; [exact Hnone|]. intros p Hp. unfold Scout.model_name.
  now rewrite Hp.
Qed.

(** C9 (code defect). The configuration names "gpt-4o" as the scout model.
    The scout the orchestrator sends for a planned task carries the
    configuration and uses "gpt-4o"; the scout the evaluator's router sends
    for a follow-up task carries no configuration and uses the default
    "gpt-5-mini". *)
Theorem followup_scout_misses_configuration :
  let c := Examples.default_config ["AI"] "gpt-4o" in
  let planned := {| Planner.config := c; Planner.ScoutTasks := [Examples.task1];
                    Planner.NewsStories := []; Planner.Report := "" |} in
  map Scout.model_name (Orchestrator.generate_scout_tasks planned) = ["gpt-4o"]
  /\ exists payloads,
       Evaluator.router_node (Examples.evaluator_state c [Examples.task1])
       = Evaluator.Sends payloads
       /\ map Scout.config payloads = [None]
       /\ map Scout.model_name payloads = ["gpt-5-mini"].
Proof.
  cbv zeta. split; [reflexivity|]. eexists. split; [reflexivity|].
  split; reflexivity.
Qed.

(** ** The agent that asks for no tool *)

(** Under [tools_condition] the run of an agent that asks for no tool ends
    at [END] after its one agent call: the final step does not run and the
    state holds no story. *)
Example no_tool_agent_ends_without_final :
  Scout.scout_node (H := strict_coercion) (H0 := Examples.one_followup)
    (Examples.scout_state None)
  = ([bound_call],
     Scout.Finished {| Scout.messages := [AIMessage "thinking" []];
                       Scout.tool_iterations := None;
                       Scout.NewsStories := [] |}).
Proof. vm_compute. reflexivity. Qed.

(** Were the edge to lead to [final], as the comment above it in the source
    says, the same agent would be followed by the final step. *)
Example no_tool_agent_with_edge_to_final :
  fst (Scout.run (H := strict_coercion) (H0 := Examples.one_followup)
         (new_ChatOpenAI (Environment := Examples.one_followup) "gpt-5-mini")
         "prompt" Scout.MAX_TOOL_ITERATIONS Scout.final
         (Scout.fuel_for Scout.MAX_TOOL_ITERATIONS) Scout.agent Scout.initial_state)
  = [bound_call; structured_call].
Proof. vm_compute. reflexivity. Qed.

(** ** The evaluator graph always ends *)

Section EvaluatorTermination.
Context `{IntCoercion} `{Environment}.

Import Evaluator.

Lemma scout_round_ends (payloads : list Scout.ScoutState) (state : EvaluatorState) :
  scout_round payloads state <> OutOfFuel.
Proof.
  revert state. induction payloads as [|p ps IH]; intros state; simpl.
  - discriminate.
  - destruct (scout_node_bounded p) as (Hp & _).
    destruct (snd (Scout.scout_node p)); [apply IH | discriminate | congruence].
Qed.

(** Two evaluation passes are all a run needs when it starts with a
    counter that is not negative: the stage never runs out of fuel. *)
Lemma evaluator_run_ends (fuel : nat) (state : EvaluatorState) :
  0 <= cycles state -> (2 <= fuel)%nat -> snd (run fuel state) <> OutOfFuel.
Proof.
  intros Hc Hfuel. destruct fuel as [|[|fuel]]; try lia.
  rewrite run_S. destruct (llm_node state) as [s1|e] eqn:El1; [|discriminate].
  apply llm_node_Ok in El1 as (_ & _ & _ & _ & _ & Hk1 & _).
  destruct (router_node s1) as [payloads|]; [|discriminate].
  pose proof (scout_round_ends payloads s1) as Hround.
  destruct (scout_round payloads s1) as [s2| |] eqn:Es2;
    [|discriminate | congruence].
  apply scout_round_keeps in Es2 as (Hk2 & _ & _).
  cbv zeta. rewrite run_S.
  destruct (llm_node (clear_tasks_node s2)) as [s4|e] eqn:El4; [|discriminate].
  apply llm_node_Ok in El4 as (_ & _ & _ & _ & _ & Hk4 & _).
  rewrite (router_node_end s4); [discriminate|].
  unfold cycles in *. rewrite Hk4. simpl. unfold cycles. rewrite Hk2, Hk1. lia.
Qed.

(** The stage as the pipeline runs it. *)
Lemma evaluator_node_ends (p : Planner.PlannerState) :
  snd (evaluator_node p) <> OutOfFuel.
Proof. apply evaluator_run_ends; [reflexivity | lia]. Qed.

End EvaluatorTermination.

(** * Further properties of the code *)

(** ** config/config_parser.py: what the interests validator keeps *)

Section InterestsKeys.

Lemma isspace_lower_char (c : ascii) :
  Str.isspace (Str.lower_char c) = Str.isspace c.
Proof.
  destruct c as [[] [] [] [] [] [] [] []]; vm_compute; reflexivity.
Qed.

Lemma lower_lstrip (s : string) : Str.lower (Str.lstrip s) = Str.lstrip (Str.lower s).
Proof.
  induction s as [|c s IH]; simpl; [reflexivity|].
  rewrite isspace_lower_char. destruct (Str.isspace c); [exact IH | reflexivity].
Qed.

Lemma lower_rstrip (s : string) : Str.lower (Str.rstrip s) = Str.rstrip (Str.lower s).
Proof.
  induction s as [|c s IH]; simpl; [reflexivity|].
  rewrite <- IH, isspace_lower_char.
  destruct (Str.rstrip s) as [|d r]; simpl; [|reflexivity].
  destruct (Str.isspace c); reflexivity.
Qed.

(** Folding case and trimming commute. *)
Lemma lower_strip (s : string) : Str.lower (Str.strip s) = Str.strip (Str.lower s).
Proof. unfold Str.strip. now rewrite lower_rstrip, lower_lstrip. Qed.

(** The entries the loop keeps: a sub-list [ks] of the input without two
    equal keys, none of them seen before, covering the key of every
    input entry that was not seen before. *)
Lemma interests_loop_keys (v : list string) (seen : gset string) (acc : list string) :
  exists ks,
    snd (fold_left Config.interests_step v (seen, acc)) = acc ++ map Str.strip ks
    /\ ks `sublist_of` v
    /\ NoDup (map Str.lower ks)
    /\ (forall k, k ∈ ks -> Str.lower k ∉ seen)
    /\ (forall x, x ∈ v ->
          Str.lower x ∈ seen \/ exists k, k ∈ ks /\ Str.lower k = Str.lower x).
Proof.
  revert seen acc. induction v as [|x v IH]; intros seen acc; cbn [fold_left].
  - exists []. simpl. rewrite app_nil_r. repeat split.
    + constructor.
    + constructor.
    + intros k Hk. inversion Hk.
    + intros y Hy. inversion Hy.
  - unfold Config.interests_step at 2. case_bool_decide as Hseen.
    + destruct (IH seen acc) as (ks & E & Hsub & Hnd & Hfresh & Hcov).
      exists ks. repeat split; auto.
      * now apply sublist_cons.
      * intros y [->|Hy]%elem_of_cons; [now left | now apply Hcov].
    + destruct (IH ({[Str.lower x]} ∪ seen) (acc ++ [Str.strip x]))
        as (ks & E & Hsub & Hnd & Hfresh & Hcov).
      exists (x :: ks). rewrite E, <- app_assoc. repeat split; auto.
      * now apply sublist_skip.
      * simpl. constructor; [|exact Hnd].
        intros (k & Hk & Hin)%list_elem_of_fmap.
        apply (Hfresh k Hin). rewrite <- Hk. set_solver.
      * intros k [->|Hk]%elem_of_cons; [exact Hseen|].
        specialize (Hfresh k Hk). set_solver.
      * intros y [->|Hy]%elem_of_cons.
        -- right. exists x. split; [left | reflexivity].
        -- destruct (Hcov y Hy) as [Hin | (k & Hk & Hlow)].
           ++ apply elem_of_union in Hin as [Hin | Hin].
              ** apply elem_of_singleton in Hin. right. exists x.
                 split; [left | congruence].
              ** now left.
           ++ right. exists k. split; [now right | exact Hlow].
Qed.

(** On a list of stripped entries without two equal keys, none seen
    before, the loop appends every entry. *)
Lemma interests_loop_clean (r : list string) (seen : gset string) (acc : list string) :
  NoDup (map Str.lower r) ->
  (forall x, x ∈ r -> Str.lower x ∉ seen) ->
  Forall (fun e => Str.strip e = e) r ->
  snd (fold_left Config.interests_step r (seen, acc)) = acc ++ r.
Proof.
  revert seen acc. induction r as [|x r IH]; intros seen acc Hnd Hfresh Hstr;
    cbn [fold_left].
  - simpl. now rewrite app_nil_r.
  - unfold Config.interests_step at 2.
    rewrite bool_decide_eq_false_2 by (apply Hfresh; left).
    simpl in Hnd. apply NoDup_cons in Hnd as [Hx Hnd].
    apply Forall_cons in Hstr as [Hsx Hstr].
    rewrite IH; auto.
    + rewrite Hsx, <- app_assoc. reflexivity.
    + intros y Hy Hin. apply elem_of_union in Hin as [Hin | Hin].
      * apply elem_of_singleton in Hin. apply Hx.
        apply list_elem_of_fmap. exists y. split; [congruence | exact Hy].
      * apply (Hfresh y); [now right | exact Hin].
Qed.

Lemma validate_interests_clean (r : list string) :
  r <> [] -> NoDup (map Str.lower r) -> Forall (fun e => Str.strip e = e) r ->
  Config.validate_interests r = Ok r.
Proof.
  intros Hne Hnd Hstr. destruct r as [|x r]; [congruence|].
  unfold Config.validate_interests.
  rewrite interests_loop_clean; auto. intros y _. set_solver.
Qed.

(** A sub-list of stripped entries is made of stripped entries, and is its
    own image under [strip]. *)
Lemma map_strip_id (ks : list string) :
  Forall (fun e => Str.strip e = e) ks -> map Str.strip ks = ks.
Proof.
  induction 1 as [|k ks Hk _ IH]; simpl; [reflexivity|]. now rewrite Hk, IH.
Qed.

Lemma sublist_Forall {A} (P : A -> Prop) (l k : list A) :
  l `sublist_of` k -> Forall P k -> Forall P l.
Proof.
  intros Hsub Hk. apply Forall_forall. intros x Hx.
  eapply Forall_forall in Hk; [exact Hk|]. eapply sublist_subseteq; eauto.
Qed.

End InterestsKeys.

(** X3. No interest is lost: every entry of the input has, in the validated
    list, an entry equal to it once both are trimmed and folded to lower
    case; the validated list is never longer than the input. *)
Theorem validate_interests_covers_input (v r : list string) :
  Config.validate_interests v = Ok r ->
  (forall x, x ∈ v ->
     exists y, y ∈ r /\ Str.lower y = Str.lower (Str.strip x))
  /\ (length r <= length v)%nat.
Proof.
  intros (_ & ->)%validate_interests_loop.
  destruct (interests_loop_keys v ∅ []) as (ks & -> & Hsub & _ & _ & Hcov).
  simpl. split.
  - intros x Hx. destruct (Hcov x Hx) as [Hin | (k & Hk & Hlow)]; [set_solver|].
    exists (Str.strip k). split.
    + apply list_elem_of_fmap. eauto.
    + now rewrite !lower_strip, Hlow.
  - rewrite length_map. now apply sublist_length.
Qed.

Lemma validate_interests_covers_input_witness :
  exists y, y ∈ ["AI"; "Robotics"]
            /\ Str.lower y = Str.lower (Str.strip "ai").
Proof.
  destruct (validate_interests_covers_input ["AI"; "ai"; "Robotics"]
              ["AI"; "Robotics"]) as [Hcov _].
  - vm_compute. reflexivity.
  - apply (Hcov "ai"). right. left.
Defined.

(** X4. When no entry of the input has surrounding whitespace, the
    validated list is a sub-list of the input in which no two entries are
    equal up to case. *)
Theorem validate_interests_dedups_trimmed_input (v r : list string) :
  Forall (fun e => Str.strip e = e) v ->
  Config.validate_interests v = Ok r ->
  NoDup (map Str.lower r) /\ r `sublist_of` v.
Proof.
  intros Hstr (_ & ->)%validate_interests_loop.
  destruct (interests_loop_keys v ∅ []) as (ks & -> & Hsub & Hnd & _).
  simpl. rewrite map_strip_id by (eapply sublist_Forall; eauto). auto.
Qed.

Lemma validate_interests_dedups_trimmed_input_witness :
  NoDup (map Str.lower ["AI"; "Robotics"])
  /\ ["AI"; "Robotics"] `sublist_of` ["AI"; "ai"; "Robotics"; "robotics"].
Proof.
  apply (validate_interests_dedups_trimmed_input
           ["AI"; "ai"; "Robotics"; "robotics"]).
  - repeat constructor.
  - vm_compute. reflexivity.
Defined.

(** X5. On an input without surrounding whitespace the validator is
    idempotent: validating its result changes nothing. *)
Theorem validate_interests_idempotent_on_trimmed (v r : list string) :
  Forall (fun e => Str.strip e = e) v ->
  Config.validate_interests v = Ok r ->
  Config.validate_interests r = Ok r.
Proof.
  intros Hstr Hv. pose proof (validate_interests_nonempty v r Hv) as Hne.
  apply validate_interests_loop in Hv as (_ & ->).
  destruct (interests_loop_keys v ∅ []) as (ks & E & Hsub & Hnd & _).
  rewrite E in Hne |- *. simpl in Hne |- *.
  assert (Hks : Forall (fun e => Str.strip e = e) ks)
    by (eapply sublist_Forall; eauto).
  rewrite map_strip_id in Hne |- * by exact Hks.
  now apply validate_interests_clean.
Qed.

Lemma validate_interests_idempotent_on_trimmed_witness :
  Config.validate_interests ["AI"; "Robotics"] = Ok ["AI"; "Robotics"].
Proof.
  apply (validate_interests_idempotent_on_trimmed ["AI"; "ai"; "Robotics"]).
  - repeat constructor.
  - vm_compute. reflexivity.
Defined.

(** ** config/config_parser.py: what a loaded configuration satisfies *)

Section LoadedConfig.

Import Config.

Lemma load_config_Ok (fs : files) (p : string) (c : ThinkleConfig) :
  load_config fs p = Ok c ->
  exists raw, fs !! p = Some (Mapping raw) /\ mk_ThinkleConfig raw = Ok c.
Proof.
  unfold load_config. destruct (fs !! p) as [[| | | |raw]|]; try discriminate.
  unfold try_except. destruct (mk_ThinkleConfig raw) eqn:Em; [|discriminate].
  intros [= <-]. eauto.
Qed.

Lemma loaded_interests (a : ThinkleArgs) (c : ThinkleConfig) :
  mk_ThinkleConfig a = Ok c ->
  exists v, validate_interests v = Ok (interests c).
Proof.
  unfold mk_ThinkleConfig. intros Hm. inv_bind Hm. injection Hm as <-.
  simpl. eauto.
Qed.

End LoadedConfig.



Section ConfigFields.

Import Config.

Lemma check_inv (b : bool) (msg : string) (u : unit) : check b msg = Ok u -> b = true.
Proof. destruct b; [reflexivity | discriminate]. Qed.

Lemma literal_inv (allowed : list string) (s t : string) :
  literal allowed s = Ok t -> t = s /\ s ∈ allowed.
Proof.
  unfold literal. case_bool_decide as Hin; [|discriminate].
  intros [= <-]. auto.
Qed.

(** What [ThinkleConfig] is built from: every field is the value given, or
    its default when the key is absent, and passed every check. *)
Lemma mk_ThinkleConfig_fields (a : ThinkleArgs) (c : ThinkleConfig) :
  mk_ThinkleConfig a = Ok c ->
  let n := default no_NewsletterArgs (a_newsletter a) in
  let k := default no_ContentArgs (a_content a) in
  let r := default no_RedditArgs (a_reddit k) in
  let y := default no_YouTubeArgs (a_youtube k) in
  let o := default no_OutputArgs (a_output a) in
  a_extra a = []
  /\ max_tasks c = default 1 (a_max_tasks a)
  /\ (0 <? max_tasks c) && (max_tasks c <=? 10) = true
  /\ max_stories (newsletter c) = default 10 (a_max_stories n)
  /\ (0 <? max_stories (newsletter c)) && (max_stories (newsletter c) <=? 50) = true
  /\ tone (newsletter c) = default "witty" (a_tone n)
  /\ tone (newsletter c) ∈ ["professional"; "witty"; "casual"; "academic"]
  /\ frequency (newsletter c) = default "weekly" (a_frequency n)
  /\ frequency (newsletter c) ∈ ["daily"; "weekly"]
  /\ format (output c) = default "markdown" (a_format o)
  /\ format (output c) ∈ ["markdown"; "pdf"; "html"]
  /\ include_academic (content c) = default true (a_include_academic k)
  /\ include_reddit (content c) = default true (a_include_reddit k)
  /\ include_youtube (content c) = default true (a_include_youtube k)
  /\ include_news (content c) = default true (a_include_news k)
  /\ existsb id [include_academic (content c); include_reddit (content c);
                 include_youtube (content c); include_news (content c)] = true
  /\ min_upvotes (reddit (content c)) = default 100 (a_min_upvotes r)
  /\ (0 <=? min_upvotes (reddit (content c))) = true
  /\ max_age_hours (reddit (content c)) = default 48 (a_max_age_hours r)
  /\ (0 <? max_age_hours (reddit (content c))) = true
  /\ min_views (youtube (content c)) = default 10000 (a_min_views y)
  /\ (0 <=? min_views (youtube (content c))) = true
  /\ max_duration_minutes (youtube (content c))
     = default 60 (a_max_duration_minutes y)
  /\ (0 <? max_duration_minutes (youtube (content c))) = true.
Proof.
  unfold mk_ThinkleConfig. intros Hm. inv_bind Hm. injection Hm as <-.
  cbv zeta.
  unfold mk_NewsletterSettings, mk_OutputSettings, mk_ContentSettings,
    mk_RedditSettings, mk_YouTubeSettings in *.
  repeat match goal with
    | H : bind _ _ = Ok _ |- _ => inv_bind H
    | H : check _ _ = Ok _ |- _ => apply check_inv in H
    | H : literal _ _ = Ok _ |- _ => apply literal_inv in H as [-> ?]
    | H : validate_at_least_one_source _ = Ok _ |- _ =>
        unfold validate_at_least_one_source in H;
        destruct (negb _) eqn:Hany in H; [discriminate|];
        apply negb_false_iff in Hany
    | H : @Ok ?A _ = Ok ?x |- _ => is_var x; injection H as <-
    end.
  match goal with H : bool_decide _ = true |- _ => apply bool_decide_eq_true in H end.
  cbn [max_tasks newsletter content output max_stories tone frequency format
       include_academic include_reddit include_youtube include_news reddit
       youtube min_upvotes max_age_hours min_views max_duration_minutes] in *.
  repeat apply conj; try reflexivity; assumption.
Qed.

End ConfigFields.

(** X7. Every configuration [load_config] returns is within the numeric
    bounds of the schema and has at least one interest. *)
Theorem loaded_config_within_bounds (fs : Config.files) (p : string)
    (c : Config.ThinkleConfig) :
  Config.load_config fs p = Ok c ->
  Config.interests c <> []
  /\ 1 <= Config.max_stories (Config.newsletter c) <= 50
  /\ 1 <= Config.max_tasks c <= 10
  /\ 0 <= Config.min_upvotes (Config.reddit (Config.content c))
  /\ 0 < Config.max_age_hours (Config.reddit (Config.content c))
  /\ 0 <= Config.min_views (Config.youtube (Config.content c))
  /\ 0 < Config.max_duration_minutes (Config.youtube (Config.content c)).
Proof.
  intros (raw & _ & Hm)%load_config_Ok.
  pose proof (loaded_interests raw c Hm) as (v & Hv).
  apply validate_interests_nonempty in Hv.
  apply mk_ThinkleConfig_fields in Hm. cbv zeta in Hm.
  destruct Hm as (_ & _ & Ht & _ & Hs & _ & _ & _ & _ & _ & _ & _ & _ & _ & _ & _
                  & _ & Hu & _ & Ha & _ & Hw & _ & Hd).
  apply andb_true_iff in Ht as [Ht1 Ht2]. apply andb_true_iff in Hs as [Hs1 Hs2].
  apply Z.ltb_lt in Ht1, Hs1, Ha, Hd. apply Z.leb_le in Ht2, Hs2, Hu, Hw.
  repeat apply conj; try lia. exact Hv.
Qed.

Lemma loaded_config_within_bounds_witness :
  1 <= Config.max_tasks (Examples.default_config ["AI"; "AI"] "gpt-5-mini") <= 10.
Proof.
  apply (loaded_config_within_bounds (Examples.disk ["AI"; " AI"]) "interests.yaml").
  vm_compute. reflexivity.
Defined.

(** X8. Every configuration [load_config] returns has at least one of the
    four content sources switched on, and its tone, frequency and output
    format are among the allowed literals. *)
Theorem loaded_config_choices (fs : Config.files) (p : string)
    (c : Config.ThinkleConfig) :
  Config.load_config fs p = Ok c ->
  (Config.include_academic (Config.content c) = true
   \/ Config.include_reddit (Config.content c) = true
   \/ Config.include_youtube (Config.content c) = true
   \/ Config.include_news (Config.content c) = true)
  /\ Config.tone (Config.newsletter c)
       ∈ ["professional"; "witty"; "casual"; "academic"]
  /\ Config.frequency (Config.newsletter c) ∈ ["daily"; "weekly"]
  /\ Config.format (Config.output c) ∈ ["markdown"; "pdf"; "html"].
Proof.
  intros (raw & _ & Hm)%load_config_Ok.
  apply mk_ThinkleConfig_fields in Hm. cbv zeta in Hm.
  destruct Hm as (_ & _ & _ & _ & _ & _ & Ht & _ & Hf & _ & Ho & _ & _ & _ & _
                  & Hany & _).
  repeat apply conj; try assumption.
  simpl in Hany. unfold id in Hany.
  destruct (Config.include_academic _), (Config.include_reddit _),
    (Config.include_youtube _), (Config.include_news _); auto; discriminate.
Qed.

Lemma loaded_config_choices_witness :
  Config.tone (Config.newsletter (Examples.default_config ["AI"; "AI"] "gpt-5-mini"))
    ∈ ["professional"; "witty"; "casual"; "academic"].
Proof.
  apply (loaded_config_choices (Examples.disk ["AI"; " AI"]) "interests.yaml").
  vm_compute. reflexivity.
Defined.



(** X10. Each of these alone makes [load_config] raise a [ValueError]: the
    four content sources all switched off, [max_stories] outside 1..50,
    [max_tasks] outside 1..10, a reddit [max_age_hours] or a youtube
    [max_duration_minutes] that is not positive, a key that is no field of
    the configuration. *)
Theorem load_config_rejects (fs : Config.files) (p : string)
    (raw : Config.ThinkleArgs) :
  fs !! p = Some (Config.Mapping raw) ->
  let n := default Config.no_NewsletterArgs (Config.a_newsletter raw) in
  let k := default Config.no_ContentArgs (Config.a_content raw) in
  let r := default Config.no_RedditArgs (Config.a_reddit k) in
  let y := default Config.no_YouTubeArgs (Config.a_youtube k) in
  (Config.a_include_academic k = Some false
   /\ Config.a_include_reddit k = Some false
   /\ Config.a_include_youtube k = Some false
   /\ Config.a_include_news k = Some false)
  \/ (exists m, Config.a_max_stories n = Some m /\ ~ 1 <= m <= 50)
  \/ (exists m, Config.a_max_tasks raw = Some m /\ ~ 1 <= m <= 10)
  \/ (exists m, Config.a_max_age_hours r = Some m /\ m <= 0)
  \/ (exists m, Config.a_max_duration_minutes y = Some m /\ m <= 0)
  \/ Config.a_extra raw <> [] ->
  Config.load_config fs p = Raise (ValueError "Configuration validation failed").
Proof.
  intros Hf n k r y Hbad. unfold Config.load_config. rewrite Hf.
  unfold try_except.
  destruct (Config.mk_ThinkleConfig raw) as [c|e] eqn:Em; [|reflexivity].
  exfalso. apply mk_ThinkleConfig_fields in Em. cbv zeta in Em.
  fold n k r y in Em.
  destruct Em as (Hx & Ht & Htb & Hs & Hsb & _ & _ & _ & _ & _ & _ & H1 & H2 & H3
                  & H4 & Hany & _ & _ & Ha & Hab & _ & _ & Hd & Hdb).
  apply andb_true_iff in Htb as [Ht1 Ht2]. apply andb_true_iff in Hsb as [Hs1 Hs2].
  apply Z.ltb_lt in Ht1, Hs1, Hab, Hdb. apply Z.leb_le in Ht2, Hs2.
  destruct Hbad as [(B1 & B2 & B3 & B4) | [(m & Hm & Hr) | [(m & Hm & Hr)
                    | [(m & Hm & Hr) | [(m & Hm & Hr) | Hextra]]]]].
  - rewrite B1 in H1. rewrite B2 in H2. rewrite B3 in H3. rewrite B4 in H4.
    simpl in H1, H2, H3, H4. rewrite H1, H2, H3, H4 in Hany. discriminate.
  - rewrite Hm in Hs. simpl in Hs. lia.
  - rewrite Hm in Ht. simpl in Ht. lia.
  - rewrite Hm in Ha. simpl in Ha. lia.
  - rewrite Hm in Hd. simpl in Hd. lia.
  - contradiction.
Qed.

Lemma load_config_rejects_witness :
  Config.load_config Samples.no_source_disk "interests.yaml"
  = Raise (ValueError "Configuration validation failed").
Proof.
  apply (load_config_rejects Samples.no_source_disk "interests.yaml"
                             Samples.no_source_args).
  - reflexivity.
  - left. repeat split; reflexivity.
Defined.

(** ** config/config_parser.py: the [ConfigParser] object *)

(** X11. A parser serves the configuration of its last successful load: a
    new parser has none ([get_config] raises [RuntimeError]); after a
    successful [load_config], [get_config] returns what was loaded; a
    [load_config] or [reload_config] that raises leaves the parser as it
    was, so a configuration loaded before is still served. *)
Theorem parser_serves_last_loaded (root : string) (path : option string)
    (fs1 fs2 : Config.files) (self1 self2 : ConfigParser.t)
    (c : Config.ThinkleConfig) (e : exn) :
  ConfigParser.load_config fs1 (ConfigParser.init root path) = (Ok c, self1) ->
  ConfigParser.reload_config fs2 self1 = (Raise e, self2) ->
  (exists msg, ConfigParser.get_config (ConfigParser.init root path)
               = ConfigParser.RuntimeError msg)
  /\ ConfigParser.get_config self1 = ConfigParser.Got c
  /\ self2 = self1
  /\ ConfigParser.get_config self2 = ConfigParser.Got c
  /\ ConfigParser.config_path self2
     = ConfigParser.config_path (ConfigParser.init root path).
Proof.
  unfold ConfigParser.reload_config, ConfigParser.load_config.
  destruct (Config.load_config fs1 _) as [c1|e1]; [|discriminate].
  intros [= <- <-]. cbn [ConfigParser.config_path].
  destruct (Config.load_config fs2 _) as [c2|e2]; [discriminate|].
  intros [= <- <-]. repeat split. eexists. reflexivity.
Qed.

Lemma parser_serves_last_loaded_witness :
  let c := Examples.default_config ["AI"] "gpt-5-mini" in
  let self := {| ConfigParser.config_path := "interests.yaml";
                 ConfigParser._config := Some c |} in
  ConfigParser.get_config self = ConfigParser.Got c.
Proof.
  intros c self.
  destruct (parser_serves_last_loaded "/srv" (Some "interests.yaml")
              (Examples.disk ["AI"]) ∅ self self c FileNotFoundError)
    as (_ & _ & _ & Hget & _).
  - vm_compute. reflexivity.
  - vm_compute. reflexivity.
  - exact Hget.
Defined.



(** ** agents/scout.py: the text scraping of the fallback *)

Section Scraping.

Import Scout.

Lemma substring_0_ge (s : string) (n : nat) :
  (String.length s <= n)%nat -> String.substring 0 n s = s.
Proof.
  revert n. induction s as [|c s IH]; intros [|n] Hn; simpl in *;
    try reflexivity; try lia.
  f_equal. apply IH. lia.
Qed.

Lemma substring_0_app (s t : string) :
  String.substring 0 (String.length s) (s +:+ t) = s.
Proof. induction s as [|c s IH]; simpl; [now destruct t | now rewrite IH]. Qed.

Lemma substring_skip (pre s : string) (n : nat) :
  String.substring (String.length pre) n (pre +:+ s) = String.substring 0 n s.
Proof. induction pre as [|c pre IH]; simpl; [reflexivity | exact IH]. Qed.

Lemma length_app_string (s t : string) :
  String.length (s +:+ t) = (String.length s + String.length t)%nat.
Proof. induction s as [|c s IH]; simpl; [reflexivity | now rewrite IH]. Qed.

Lemma app_cons_string (c : ascii) (s t : string) :
  String c s +:+ t = String c (s +:+ t).
Proof. reflexivity. Qed.

Lemma app_assoc_string (s t u : string) : (s +:+ t) +:+ u = s +:+ (t +:+ u).
Proof.
  induction s as [|c s IH]; [reflexivity|].
  rewrite !app_cons_string. now f_equal.
Qed.

Lemma find_cons_None (c d : ascii) (s : string) :
  find c (String d s) = None -> Ascii.eqb c d = false /\ find c s = None.
Proof.
  simpl. destruct (Ascii.eqb c d); [discriminate|].
  destruct (find c s); [discriminate | auto].
Qed.

Lemma find_app_None (c : ascii) (s t : string) :
  find c s = None -> find c t = None -> find c (s +:+ t) = None.
Proof.
  intros Hs Ht. induction s as [|d s IH]; simpl; [exact Ht|].
  apply find_cons_None in Hs as [-> Hs]. now rewrite IH.
Qed.

(** The first occurrence of [c] after a text without [c]. *)
Lemma find_app_first (c : ascii) (pre s : string) :
  find c pre = None -> find c (pre +:+ String c s) = Some (String.length pre).
Proof.
  intros Hpre. induction pre as [|d pre IH]; simpl.
  - now rewrite Ascii.eqb_refl.
  - apply find_cons_None in Hpre as [-> Hpre]. now rewrite IH.
Qed.

Lemma rfind_None (c : ascii) (s : string) : find c s = None -> rfind c s = None.
Proof.
  induction s as [|d s IH]; simpl; [reflexivity|].
  intros [Hd Hs]%find_cons_None. now rewrite IH, Hd.
Qed.

(** The last occurrence of [c] before a text without [c]. *)
Lemma rfind_app_last (c : ascii) (s post : string) :
  find c post = None -> rfind c (s +:+ String c post) = Some (String.length s).
Proof.
  intros Hpost. induction s as [|d s IH]; simpl.
  - now rewrite (rfind_None c post Hpost), Ascii.eqb_refl.
  - now rewrite IH.
Qed.

Lemma prefix_cons_ne (a b : ascii) (s t : string) :
  Ascii.eqb a b = false -> String.prefix (String a s) (String b t) = false.
Proof.
  intros Hab. cbn [String.prefix].
  destruct (ascii_dec a b) as [->|_]; [|reflexivity].
  rewrite Ascii.eqb_refl in Hab. discriminate.
Qed.

Lemma prefix_app (s t : string) : String.prefix s (s +:+ t) = true.
Proof.
  induction s as [|c s IH]; [now destruct t|].
  rewrite app_cons_string. cbn [String.prefix].
  destruct (ascii_dec c c) as [_|Hne]; [exact IH | congruence].
Qed.

Lemma partition_unfold (pat s : string) :
  partition pat s
  = if String.prefix pat s
    then Some (EmptyString,
               String.substring (String.length pat) (String.length s) s)
    else match s with
         | EmptyString => None
         | String c s' =>
             match partition pat s' with
             | Some (b, a) => Some (String c b, a)
             | None => None
             end
         end.
Proof. destruct s; reflexivity. Qed.

(** A text without a backtick holds no fence. *)
Lemma partition_fence_None (s : string) :
  find "`" s = None -> partition fence s = None.
Proof.
  induction s as [|d s IH]; [reflexivity|].
  intros [Hd Hs]%find_cons_None. rewrite partition_unfold.
  unfold fence at 1. rewrite (prefix_cons_ne _ _ _ _ Hd). now rewrite IH.
Qed.

(** The first fence after a text without a backtick splits there. *)
Lemma partition_fence_app (pre rest : string) :
  find "`" pre = None ->
  partition fence (pre +:+ fence +:+ rest) = Some (pre, rest).
Proof.
  intros Hpre. induction pre as [|d pre IH].
  - change ("" +:+ fence +:+ rest) with (fence +:+ rest).
    rewrite partition_unfold, prefix_app, substring_skip, substring_0_ge;
      [reflexivity|]. rewrite length_app_string. lia.
  - apply find_cons_None in Hpre as [Hd Hpre].
    rewrite app_cons_string, partition_unfold.
    unfold fence at 1. rewrite (prefix_cons_ne _ _ _ _ Hd). now rewrite IH.
Qed.

Lemma space_not_tick (c : ascii) : Str.isspace c = true -> Ascii.eqb "`" c = false.
Proof.
  intros Hc. destruct (Ascii.eqb "`" c) eqn:E; [|reflexivity].
  apply Ascii.eqb_eq in E as <-. vm_compute in Hc. discriminate.
Qed.

Lemma space_not_j (c : ascii) : Str.isspace c = true -> Str.lower_char c <> "j"%char.
Proof.
  destruct c as [[] [] [] [] [] [] [] []]; vm_compute; intros; discriminate.
Qed.

Lemma lstrip_cons_space (c : ascii) (ws : string) :
  Str.lstrip (String c ws) = EmptyString ->
  Str.isspace c = true /\ Str.lstrip ws = EmptyString.
Proof. simpl. destruct (Str.isspace c); [auto | discriminate]. Qed.

Lemma lstrip_spaces_app (ws s : string) :
  Str.lstrip ws = EmptyString -> Str.lstrip (ws +:+ s) = Str.lstrip s.
Proof.
  induction ws as [|c ws IH]; [reflexivity|].
  intros [Hc Hws]%lstrip_cons_space. rewrite app_cons_string. simpl.
  rewrite Hc. auto.
Qed.

Lemma spaces_no_tick (ws : string) :
  Str.lstrip ws = EmptyString -> find "`" ws = None.
Proof.
  induction ws as [|c ws IH]; [reflexivity|].
  intros [Hc Hws]%lstrip_cons_space. cbn [find].
  now rewrite (space_not_tick c Hc), IH.
Qed.

Lemma rstrip_spaces (ws : string) :
  Str.lstrip ws = EmptyString -> Str.rstrip ws = EmptyString.
Proof.
  induction ws as [|c ws IH]; [reflexivity|].
  intros [Hc Hws]%lstrip_cons_space. simpl. now rewrite IH, Hc.
Qed.

Lemma rstrip_app_spaces (s ws : string) :
  Str.lstrip ws = EmptyString -> Str.rstrip (s +:+ ws) = Str.rstrip s.
Proof.
  intros Hws. induction s as [|c s IH].
  - now apply rstrip_spaces.
  - rewrite app_cons_string. simpl. now rewrite IH.
Qed.

Lemma rstrip_end (s : string) (c : ascii) :
  Str.isspace c = false ->
  Str.rstrip (s +:+ String c EmptyString) = s +:+ String c EmptyString.
Proof.
  intros Hc. induction s as [|d s IH].
  - simpl. now rewrite Hc.
  - rewrite app_cons_string. simpl. rewrite IH.
    destruct s; reflexivity.
Qed.

Lemma lower_length (s : string) : String.length (Str.lower s) = String.length s.
Proof. induction s as [|c s IH]; simpl; [reflexivity | now rewrite IH]. Qed.

(** The tag of the fence is skipped, in any case. *)
Lemma skip_json_tag (tag r : string) :
  Str.lower tag = "json" -> skip_json (tag +:+ r) = r.
Proof.
  intros Htag. pose proof (lower_length tag) as Hlen. rewrite Htag in Hlen.
  unfold skip_json.
  change 4%nat with (String.length "json"). rewrite Hlen.
  rewrite substring_0_app, Htag, substring_skip.
  change (String.prefix "json" "json") with true. cbv iota.
  apply substring_0_ge. rewrite length_app_string. lia.
Qed.

(** A text that does not start with a "j" has no tag to skip. *)
Lemma skip_json_none (c : ascii) (r : string) :
  Str.lower_char c <> "j"%char -> skip_json (String c r) = String c r.
Proof.
  intros Hc. unfold skip_json.
  assert (Hp : String.prefix "json" (Str.lower (String.substring 0 4 (String c r)))
               = false).
  { cbn [String.substring Str.lower]. apply prefix_cons_ne.
    destruct (Ascii.eqb "j" (Str.lower_char c)) eqn:E; [|reflexivity].
    apply Ascii.eqb_eq in E. congruence. }
  now rewrite Hp.
Qed.

End Scraping.

Section ScrapingObjects.

Import Scout.

(** The text of a JSON object: an opening brace, a body, a closing
    brace. *)
Lemma object_text (mid : string) :
  "{" +:+ mid +:+ "}" = String "{" (mid +:+ "}").
Proof. reflexivity. Qed.

(** The braces of an object text that stands alone select all of it. *)
Lemma braces_select_object (mid : string) :
  match find "{" (String "{" (mid +:+ "}")),
        rfind "}" (String "{" (mid +:+ "}")) with
  | Some start, Some end_ =>
      if (start <? end_)%nat
      then String.substring start (end_ + 1 - start) (String "{" (mid +:+ "}"))
      else String "{" (mid +:+ "}")
  | _, _ => String "{" (mid +:+ "}")
  end = String "{" (mid +:+ "}").
Proof.
  change (find "{" (String "{" (mid +:+ "}"))) with (Some 0%nat).
  change (String "{" (mid +:+ "}")) with (String "{" mid +:+ String "}" "") at 1.
  rewrite (rfind_app_last "}" (String "{" mid) "" eq_refl).
  cbn [String.length]. change (0 <? S (String.length mid))%nat with true.
  cbv iota. apply substring_0_ge.
  cbn [String.length]. rewrite length_app_string. simpl. lia.
Qed.

End ScrapingObjects.

(** X13. The fallback recovers an object from a fenced block: when the
    reply is some prose without backticks, a fence with or without a
    [json] tag (in any case), whitespace, an object text without
    backticks, whitespace, the closing fence and anything after it, the
    candidate handed to the JSON parser is exactly the object text. *)
Theorem fenced_object_recovered (pre tag ws mid ws' post : string) :
  Scout.find "`" pre = None ->
  tag = "" \/ Str.lower tag = "json" ->
  Str.lstrip ws = "" ->
  Str.lstrip ws' = "" ->
  Scout.find "`" mid = None ->
  Scout.candidate_of
    (pre +:+ "```" +:+ tag +:+ ws +:+ ("{" +:+ mid +:+ "}") +:+ ws'
         +:+ "```" +:+ post)
  = "{" +:+ mid +:+ "}".
Proof.
  intros Hpre Htag Hws Hws' Hmid. rewrite object_text.
  set (j := String "{" (mid +:+ "}")).
  assert (Hj : Scout.find "`" j = None).
  { unfold j. cbn [Scout.find]. change (Ascii.eqb "`" "{") with false. cbv iota.
    now rewrite (find_app_None "`" mid "}" Hmid eq_refl). }
  unfold Scout.candidate_of, Scout.fence_match.
  change "```" with Scout.fence.
  rewrite (partition_fence_app pre _ Hpre).
  assert (Hskip : Scout.skip_json (tag +:+ ws +:+ j +:+ ws' +:+ Scout.fence +:+ post)
                  = ws +:+ j +:+ ws' +:+ Scout.fence +:+ post).
  { destruct Htag as [-> | Htag]; [|now apply skip_json_tag].
    change ("" +:+ ws +:+ j +:+ ws' +:+ Scout.fence +:+ post)
      with (ws +:+ j +:+ ws' +:+ Scout.fence +:+ post).
    destruct ws as [|c ws].
    - apply skip_json_none. vm_compute. discriminate.
    - apply lstrip_cons_space in Hws as [Hc _]. rewrite app_cons_string.
      now apply skip_json_none, space_not_j. }
  rewrite Hskip, (lstrip_spaces_app ws _ Hws).
  assert (Hl : Str.lstrip (j +:+ ws' +:+ Scout.fence +:+ post)
               = (j +:+ ws') +:+ Scout.fence +:+ post).
  { rewrite app_assoc_string. reflexivity. }
  rewrite Hl, partition_fence_app
    by (apply find_app_None; [exact Hj | now apply spaces_no_tick]).
  assert (Hstrip : Str.strip (j +:+ ws') = j).
  { unfold Str.strip.
    change (Str.lstrip (j +:+ ws')) with (j +:+ ws').
    rewrite (rstrip_app_spaces j ws' Hws').
    change j with (String "{" mid +:+ String "}" ""). now apply rstrip_end. }
  rewrite Hstrip. apply braces_select_object.
Qed.

Lemma fenced_object_recovered_witness :
  Scout.candidate_of
    ("Here you go: " +:+ "```" +:+ "JSON" +:+ " " +:+ ("{" +:+ "1: 2" +:+ "}")
       +:+ " " +:+ "```" +:+ " Thanks.")
  = "{" +:+ "1: 2" +:+ "}".
Proof.
  apply (fenced_object_recovered "Here you go: " "JSON" " " "1: 2" " " " Thanks.").
  - reflexivity.
  - right. reflexivity.
  - reflexivity.
  - reflexivity.
  - reflexivity.
Defined.

(** X14. Without a fence, the fallback cuts from the first opening brace
    to the last closing brace: for a reply without backticks made of prose
    without "{", an object text, and prose without "}", the candidate is
    exactly the object text. *)
Theorem bare_object_recovered (pre mid post : string) :
  Scout.find "`" pre = None -> Scout.find "`" mid = None ->
  Scout.find "`" post = None ->
  Scout.find "{" pre = None -> Scout.find "}" post = None ->
  Scout.candidate_of (pre +:+ ("{" +:+ mid +:+ "}") +:+ post)
  = "{" +:+ mid +:+ "}".
Proof.
  intros Hpre Hmid Hpost Hopen Hclose. rewrite object_text.
  unfold Scout.candidate_of, Scout.fence_match.
  rewrite partition_fence_None.
  2:{ apply find_app_None; [exact Hpre|]. rewrite app_cons_string.
      cbn [Scout.find]. change (Ascii.eqb "`" "{") with false. cbv iota.
      now rewrite (find_app_None "`" (mid +:+ "}") post
                     (find_app_None "`" mid "}" Hmid eq_refl) Hpost). }
  rewrite app_cons_string, (find_app_first "{" pre _ Hopen).
  assert (Hshape : pre +:+ String "{" ((mid +:+ "}") +:+ post)
                   = (pre +:+ String "{" mid) +:+ String "}" post).
  { rewrite !app_assoc_string, app_cons_string. reflexivity. }
  rewrite Hshape, (rfind_app_last "}" _ post Hclose), <- Hshape.
  rewrite length_app_string. cbn [String.length].
  assert (Hlt : (String.length pre <? String.length pre + S (String.length mid))%nat
                = true) by (apply Nat.ltb_lt; lia).
  rewrite Hlt.
  replace (String.length pre + S (String.length mid) + 1 - String.length pre)%nat
    with (String.length (String "{" (mid +:+ "}")))
    by (cbn [String.length]; rewrite length_app_string; simpl; lia).
  rewrite substring_skip.
  change (String "{" ((mid +:+ "}") +:+ post))
    with (String "{" (mid +:+ "}") +:+ post).
  apply substring_0_app.
Qed.

Lemma bare_object_recovered_witness :
  Scout.candidate_of ("Sure: " +:+ ("{" +:+ "1: {2: 3}" +:+ "}") +:+ " done")
  = "{" +:+ "1: {2: 3}" +:+ "}".
Proof.
  apply (bare_object_recovered "Sure: " "1: {2: 3}" " done"); reflexivity.
Defined.

(** ** agents/scout.py: how the final step fails, what a run keeps *)

(** X15. When the final step raises, the structured call had raised
    before, the model was called a second time without structure, and the
    error is one of three: the error of that plain call, [ValueError
    "Scout output was not valid JSON"] when the candidate text is no JSON,
    or [ValueError "Scout output failed validation"] when the JSON does not
    fit the schema. *)
Theorem final_step_errors `{IntCoercion} `{Environment}
    (llm : ChatOpenAI) (system_prompt : string) (s : Scout.AgentState) (e : exn) :
  snd (Scout.final_step llm system_prompt s) = Raise e ->
  let msgs := SystemMessage system_prompt :: Scout.messages s in
  (exists e0, with_structured_output llm ScoutOutput.model_validate msgs = Raise e0)
  /\ fst (Scout.final_step llm system_prompt s) = [structured_call; plain_call]
  /\ (invoke llm msgs = Raise e
      \/ exists raw,
           invoke llm msgs = Ok raw
           /\ ((json_loads (Scout.candidate_of (content_of raw)) = None
                /\ e = ValueError "Scout output was not valid JSON")
               \/ (exists data e1,
                     json_loads (Scout.candidate_of (content_of raw)) = Some data
                     /\ ScoutOutput.model_validate data = Raise e1
                     /\ e = ValueError "Scout output failed validation"))).
Proof.
  intros Hf msgs. unfold Scout.final_step, Scout.final_parse in Hf |- *.
  fold msgs in Hf |- *.
  destruct (with_structured_output llm ScoutOutput.model_validate msgs)
    as [parsed|e0]; [discriminate|].
  simpl in Hf |- *. split; [eauto|]. split; [reflexivity|].
  unfold Scout.final_fallback in Hf.
  destruct (invoke llm msgs) as [raw|e1]; simpl in Hf; [|left; congruence].
  right. exists raw. split; [reflexivity|].
  destruct (json_loads _) as [data|]; simpl in Hf; [|left; split; congruence].
  right. exists data.
  destruct (ScoutOutput.model_validate data) as [parsed|e1] eqn:Ev;
    [discriminate|].
  destruct (scout_output_Raise data e1 Ev) as [msg ->]. simpl in Hf.
  exists (ValidationError msg). repeat split; congruence.
Qed.

Lemma final_step_errors_witness :
  fst (@Scout.final_step strict_coercion Examples.topicless_fallback
         Examples.topicless_fallback_client "prompt" Scout.initial_state)
  = [structured_call; plain_call].
Proof.
  destruct (@final_step_errors strict_coercion Examples.topicless_fallback
              Examples.topicless_fallback_client "prompt" Scout.initial_state
              (ValueError "Scout output failed validation"))
    as (_ & Hcalls & _).
  - vm_compute. reflexivity.
  - exact Hcalls.
Defined.

Section ScoutHistory.
Context `{IntCoercion} `{Environment}.
Variable llm : ChatOpenAI.
Variable system_prompt : string.

Import Scout.

(** One node only adds to the messages. *)
Lemma step_messages (cap : Z) (otherwise n n' : node) (s s' : AgentState) :
  snd (step llm system_prompt cap otherwise n s) = Ok (n', s') ->
  messages s `prefix_of` messages s'.
Proof.
  destruct n; simpl.
  - unfold agent_step. simpl. intros Hs. inv_bind Hs. injection Hs as <- <-.
    inv_bind E. injection E as <-. simpl. now apply prefix_app_r.
  - unfold tool_node. destruct (last (messages s)) as [[]|]; try discriminate.
    simpl. intros [= <- <-]. simpl. now apply prefix_app_r.
  - now intros [= <- <-].
  - unfold final_step.
    destruct (final_parse llm (SystemMessage system_prompt :: messages s))
      as [calls r]. simpl. intros Hs. inv_bind Hs. injection Hs as <- <-.
    inv_bind E. now injection E as <-.
  - now intros [= <- <-].
Qed.

Lemma final_keeps_counter (cap : Z) (otherwise n' : node) (s s' : AgentState) :
  snd (step llm system_prompt cap otherwise final s) = Ok (n', s') ->
  tool_iterations s' = tool_iterations s.
Proof.
  simpl. unfold final_step.
  destruct (final_parse llm (SystemMessage system_prompt :: messages s))
    as [calls r]. simpl. intros Hs. inv_bind Hs. injection Hs as <- <-.
  inv_bind E. now injection E as <-.
Qed.

(** A finished run has only added to the messages and to the stories, and
    its counter has moved up, by one round of tools or up to the cap. *)
Lemma run_history (cap : Z) (otherwise : node) (fuel : nat) (n : node)
    (s s' : AgentState) :
  snd (run llm system_prompt cap otherwise fuel n s) = Finished s' ->
  messages s `prefix_of` messages s'
  /\ NewsStories s `prefix_of` NewsStories s'
  /\ default 0 (tool_iterations s) <= default 0 (tool_iterations s')
     <= match n with
        | final | END => default 0 (tool_iterations s)
        | _ => Z.max (default 0 (tool_iterations s) + 1) cap
        end.
Proof.
  revert n s. induction fuel as [|fuel IH]; intros n s.
  - destruct n; simpl; try discriminate. intros [= <-].
    repeat split; try reflexivity; lia.
  - destruct (decide (n = END)) as [->|Hn].
    { simpl. intros [= <-]. repeat split; try reflexivity; lia. }
    assert (Hrun : run llm system_prompt cap otherwise (S fuel) n s
            = let '(calls, r) := step llm system_prompt cap otherwise n s in
              match r with
              | Raise e => (calls, Failed e)
              | Ok (n', s') =>
                  let '(calls', o) := run llm system_prompt cap otherwise fuel n' s' in
                  (calls ++ calls', o)
              end) by (destruct n; [reflexivity..|congruence]).
    rewrite Hrun. clear Hrun.
    pose proof (fun n' s' => step_messages cap otherwise n n' s s') as Hmsg.
    pose proof (fun n' s' => step_stories llm system_prompt cap otherwise n n' s s')
      as Hst.
    pose proof (fun n' s' => step_next llm system_prompt cap otherwise n n' s s')
      as Hnx.
    pose proof (fun n' s' => final_keeps_counter cap otherwise n' s s') as Hfc.
    destruct (step llm system_prompt cap otherwise n s) as [calls [[n1 s1]|e]] eqn:Est;
      [|discriminate].
    specialize (Hmsg n1 s1 eq_refl). specialize (Hst n1 s1 eq_refl).
    specialize (Hnx n1 s1 eq_refl). specialize (IH n1 s1).
    destruct (run llm system_prompt cap otherwise fuel n1 s1) as [calls' o].
    simpl in IH |- *. intros Ho. destruct (IH Ho) as (Hm & Hs & Hk1 & Hk2).
    split; [etrans; eauto|]. split.
    { etrans; [|exact Hs]. destruct n; try (rewrite Hst; reflexivity).
      destruct Hst as (_ & parsed & _ & ->). now apply prefix_app_r. }
    destruct n; simpl in Hnx; try congruence.
    + destruct Hnx as [Hk Hn1]. rewrite Hk in *.
      destruct Hn1 as [-> | ->]; [lia|]. destruct otherwise; lia.
    + destruct Hnx as [Hk ->]. rewrite Hk in *. lia.
    + destruct Hnx as [Hk ->]. rewrite Hk in *.
      destruct (default 0 (tool_iterations s) + 1 <? cap) eqn:Hc.
      * apply Z.ltb_lt in Hc. lia.
      * lia.
    + subst n1. rewrite (Hfc END s1) in Hk1, Hk2 by (now rewrite Est). lia.
Qed.

End ScoutHistory.

(** X16. The scout loop only ever appends: in a finished run, from any node
    and state, the messages and the stories of the starting state are a
    prefix of those of the final state. *)
Theorem scout_run_appends_only `{IntCoercion} `{Environment}
    (llm : ChatOpenAI) (system_prompt : string) (cap : Z)
    (otherwise : Scout.node) (fuel : nat) (n : Scout.node)
    (s s' : Scout.AgentState) :
  snd (Scout.run llm system_prompt cap otherwise fuel n s) = Scout.Finished s' ->
  Scout.messages s `prefix_of` Scout.messages s'
  /\ Scout.NewsStories s `prefix_of` Scout.NewsStories s'.
Proof.
  intros Hrun. destruct (run_history llm system_prompt cap otherwise fuel n s s' Hrun)
    as (Hm & Hs & _). auto.
Qed.

Lemma scout_run_appends_only_witness :
  exists s',
    snd (@Scout.run strict_coercion Examples.eager_off_topic
           Examples.eager_off_topic_client "prompt" 3 Scout.END 13
           Scout.agent Samples.midway) = Scout.Finished s'
    /\ Scout.messages Samples.midway `prefix_of` Scout.messages s'.
Proof.
  eexists. split; [vm_compute; reflexivity|].
  eapply (@scout_run_appends_only strict_coercion Examples.eager_off_topic
            Examples.eager_off_topic_client "prompt" 3 Scout.END 13
            Scout.agent Samples.midway).
  vm_compute. reflexivity.
Defined.

(** X17. A scout runs at most three rounds of tools: when [scout_node]
    finishes, the counter [tool_iterations] of its state is between 0 and
    3. *)
Theorem scout_tool_rounds_bounded `{IntCoercion} `{Environment}
    (state : Scout.ScoutState) (s : Scout.AgentState) :
  snd (Scout.scout_node state) = Scout.Finished s ->
  0 <= default 0 (Scout.tool_iterations s) <= 3.
Proof.
  unfold Scout.scout_node. intros Hrun.
  apply run_history in Hrun as (_ & _ & Hk). simpl in Hk.
  unfold Scout.MAX_TOOL_ITERATIONS in Hk. lia.
Qed.

Lemma scout_tool_rounds_bounded_witness :
  exists s,
    snd (@Scout.scout_node strict_coercion Examples.eager_off_topic
           (Examples.scout_state None)) = Scout.Finished s
    /\ 0 <= default 0 (Scout.tool_iterations s) <= 3.
Proof.
  eexists. split; [vm_compute; reflexivity|].
  apply (@scout_tool_rounds_bounded strict_coercion Examples.eager_off_topic
           (Examples.scout_state None)).
  vm_compute. reflexivity.
Defined.

(** ** agents/evaluator.py: what every run of the stage keeps *)

Section EvaluatorRuns.
Context `{IntCoercion} `{Environment}.

Import Evaluator.

Lemma scout_round_stories (payloads : list Scout.ScoutState) (state s2 : EvaluatorState) :
  scout_round payloads state = Finished s2 ->
  NewsStories state `prefix_of` NewsStories s2
  /\ messages state `prefix_of` messages s2.
Proof.
  revert state. induction payloads as [|p ps IH]; intros state; simpl.
  - intros [= <-]. split; reflexivity.
  - destruct (snd (Scout.scout_node p)); try discriminate.
    intros Hr. apply IH in Hr as [Hs Hm]. simpl in Hs, Hm. split.
    + etrans; [|exact Hs]. now apply prefix_app_r.
    + etrans; [|exact Hm]. now apply prefix_app_r.
Qed.

Lemma llm_node_messages (state s1 : EvaluatorState) :
  llm_node state = Ok s1 -> messages s1 = messages state.
Proof. unfold llm_node. intros Hl. inv_bind Hl. now injection Hl as <-. Qed.

(** Along a run: every state keeps the configuration and has only added to
    the stories and the messages it started with; a finished run ends on
    an evaluation; the scouting rounds are at most [1 - followup_cycles]
    and each is preceded by an evaluation. *)
Lemma run_facts (fuel : nat) (state : EvaluatorState) :
  Forall (fun e => NewsStories state `prefix_of` NewsStories (state_after e)
                   /\ messages state `prefix_of` messages (state_after e)
                   /\ config (state_after e) = config state)
         (fst (run fuel state))
  /\ (forall s, snd (run fuel state) = Finished s ->
        last (fst (run fuel state)) = Some (Evaluated s))
  /\ (length (List.filter is_scouted (fst (run fuel state)))
      <= Z.to_nat (1 - cycles state))%nat
  /\ (length (List.filter is_evaluated (fst (run fuel state)))
      <= length (List.filter is_scouted (fst (run fuel state))) + 1)%nat.
Proof.
  revert state. induction fuel as [|fuel IH]; intros state.
  - simpl. repeat split; try constructor; try lia. discriminate.
  - rewrite run_S. destruct (llm_node state) as [s1|e] eqn:El.
    2:{ simpl. repeat split; try constructor; try lia. discriminate. }
    pose proof (llm_node_messages state s1 El) as Hmsg1.
    apply llm_node_Ok in El as (_ & out & _ & _ & Hst1 & Hk1 & Hcfg1).
    assert (Hp1 : NewsStories state `prefix_of` NewsStories s1)
      by (rewrite Hst1; now apply prefix_app_r).
    assert (Hm1 : messages state `prefix_of` messages s1) by now rewrite Hmsg1.
    assert (Hfirst : Forall (fun e =>
                NewsStories state `prefix_of` NewsStories (state_after e)
                /\ messages state `prefix_of` messages (state_after e)
                /\ config (state_after e) = config state) [Evaluated s1])
      by (repeat constructor; assumption).
    destruct (router_node s1) as [payloads|] eqn:Er.
    2:{ simpl. repeat split; try assumption; try lia. now intros s [= <-]. }
    apply router_node_Sends in Er as (_ & _ & _ & Hlt).
    assert (Hc1 : cycles s1 = cycles state) by (unfold cycles; now rewrite Hk1).
    destruct (scout_round payloads s1) as [s2| |] eqn:Es.
    2,3: simpl; repeat split; try assumption; try lia; discriminate.
    pose proof (scout_round_stories payloads s1 s2 Es) as [Hp2 Hm2].
    apply scout_round_keeps in Es as (Hk2 & _ & Hcfg2).
    set (s3 := clear_tasks_node s2).
    assert (Hc3 : cycles s3 = cycles state + 1).
    { unfold s3, cycles at 1. simpl. unfold cycles. rewrite Hk2.
      unfold cycles in Hc1. now rewrite Hc1. }
    destruct (IH s3) as (Hall & Hlast & Hsc & Hev).
    cbv zeta. fold s3. destruct (run fuel s3) as [tr o].
    cbn [fst snd] in *. rewrite Hc3 in Hsc.
    assert (Hm3 : messages state `prefix_of` messages s3).
    { etrans; [exact Hm1|]. etrans; [exact Hm2|]. unfold s3. simpl.
      now apply prefix_app_r. }
    assert (Hp3 : NewsStories state `prefix_of` NewsStories s3)
      by (etrans; [exact Hp1 | exact Hp2]).
    assert (Hcfg3 : config s3 = config state) by (unfold s3; simpl; congruence).
    split; [|split; [|split]].
    + constructor; [exact (conj Hp1 (conj Hm1 Hcfg1))|].
      constructor.
      { simpl. split; [etrans; [exact Hp1 | exact Hp2]|].
        split; [etrans; [exact Hm1 | exact Hm2] | congruence]. }
      constructor; [exact (conj Hp3 (conj Hm3 Hcfg3))|].
      eapply Forall_impl; [exact Hall|]. simpl.
      intros e (Ha & Hb & Hc).
      split; [etrans; [exact Hp3 | exact Ha]|].
      split; [etrans; [exact Hm3 | exact Hb] | congruence].
    + intros s Hs. rewrite !last_cons, (Hlast s Hs). reflexivity.
    + simpl. lia.
    + simpl. lia.
Qed.

End EvaluatorRuns.

(** X18. Whatever the model and the scouts answer, a run of the evaluator
    that starts with a counter that is not negative ends within two
    evaluation passes and one scouting round. *)
Theorem evaluator_at_most_two_passes `{IntCoercion} `{Environment}
    (fuel : nat) (state : Evaluator.EvaluatorState) :
  0 <= Evaluator.cycles state ->
  (2 <= fuel)%nat ->
  snd (Evaluator.run fuel state) <> Evaluator.OutOfFuel
  /\ (length (List.filter Evaluator.is_evaluated (fst (Evaluator.run fuel state)))
      <= 2)%nat
  /\ (length (List.filter Evaluator.is_scouted (fst (Evaluator.run fuel state)))
      <= 1)%nat.
Proof.
  intros Hc Hfuel. split; [now apply evaluator_run_ends|].
  destruct (run_facts fuel state) as (_ & _ & Hsc & Hev). lia.
Qed.

Lemma evaluator_at_most_two_passes_witness :
  let r := @Evaluator.run strict_coercion Examples.two_tasks 3
             (Examples.evaluator_state
                (Examples.default_config ["AI"] "gpt-4o") []) in
  snd r <> Evaluator.OutOfFuel
  /\ (length (List.filter Evaluator.is_evaluated (fst r)) <= 2)%nat
  /\ (length (List.filter Evaluator.is_scouted (fst r)) <= 1)%nat.
Proof.
  intros r.
  apply (@evaluator_at_most_two_passes strict_coercion Examples.two_tasks 3).
  - vm_compute. discriminate.
  - lia.
Defined.

(** X19. The evaluator only adds to the story collection: when a run
    finishes, the stories (and the messages) it started with are a prefix
    of those of the final state, by the additive reducer of
    [EvaluatorState], and the configuration is the one it started with. *)
Theorem evaluator_only_adds_stories `{IntCoercion} `{Environment}
    (fuel : nat) (state s : Evaluator.EvaluatorState) :
  snd (Evaluator.run fuel state) = Evaluator.Finished s ->
  Evaluator.NewsStories state `prefix_of` Evaluator.NewsStories s
  /\ Evaluator.messages state `prefix_of` Evaluator.messages s
  /\ Evaluator.config s = Evaluator.config state.
Proof.
  intros Hrun. destruct (run_facts fuel state) as (Hall & Hlast & _).
  specialize (Hlast s Hrun). apply last_Some_elem_of in Hlast.
  eapply Forall_forall in Hall; [|exact Hlast]. exact Hall.
Qed.

Lemma evaluator_only_adds_stories_witness :
  exists s,
    snd (@Evaluator.run strict_coercion Examples.one_followup 3
           (Examples.evaluator_state (Examples.default_config ["AI"] "gpt-4o") []))
    = Evaluator.Finished s
    /\ Evaluator.config s = Examples.default_config ["AI"] "gpt-4o".
Proof.
  eexists. split; [vm_compute; reflexivity|].
  eapply (@evaluator_only_adds_stories strict_coercion Examples.one_followup 3
            (Examples.evaluator_state (Examples.default_config ["AI"] "gpt-4o") [])).
  vm_compute. reflexivity.
Defined.

Lemma nondecreasing_lower (x : Z) (l : list Z) :
  Evaluator.nondecreasing (x :: l) -> Forall (fun c => x <= c) (x :: l).
Proof.
  revert x. induction l as [|y l IH]; intros x Hnd.
  - repeat constructor. lia.
  - destruct Hnd as [Hxy Hnd]. constructor; [lia|].
    eapply Forall_impl; [apply IH, Hnd|]. simpl. intros c Hc. lia.
Qed.

(** X20. Inside the pipeline, whatever the model and the scouts answer,
    [followup_cycles] starts at 0, never decreases along the run of the
    evaluator and stays between 0 and 1. *)
Theorem evaluator_node_cycles `{IntCoercion} `{Environment}
    (p : Planner.PlannerState) :
  let history := Evaluator.cycle_history (Evaluator.initial_state p)
                   (fst (Evaluator.evaluator_node p)) in
  Evaluator.nondecreasing history /\ Forall (fun c => 0 <= c <= 1) history.
Proof.
  intros history. unfold history, Evaluator.evaluator_node.
  destruct (run_cycles 3 (Evaluator.initial_state p)) as [Hnd Hle];
    [vm_compute; discriminate|].
  split; [exact Hnd|].
  pose proof (nondecreasing_lower _ _ Hnd) as Hlo.
  apply Forall_forall. intros c Hc.
  eapply Forall_forall in Hlo; [|exact Hc]. eapply Forall_forall in Hle; [|exact Hc].
  change (Evaluator.cycles (Evaluator.initial_state p)) with 0 in Hlo. lia.
Qed.

(** ** agents/states.py: the schemas *)

(** X21. What [model_dump] writes, [model_validate] reads back: for every
    story and every research task, validating the dump gives the record
    again. *)
Theorem dump_validate_round_trip `{IntCoercion}
    (x : NewsStory.t) (t : ResearchTask.t) :
  NewsStory.model_validate (NewsStory.model_dump x) = Ok x
  /\ ResearchTask.model_validate (ResearchTask.model_dump t) = Ok t.
Proof.
  split; [apply story_dump_validate|].
  destruct t as [tp ai].
  unfold ResearchTask.model_validate, ResearchTask.model_dump,
    Pydantic.str_field, Pydantic.required.
  cbn [Pydantic.as_dict bind ResearchTask.topic ResearchTask.additional_info].
  repeat (rewrite lookup_insert_eq || rewrite lookup_insert_ne by done).
  reflexivity.
Qed.

Section StoryAcceptance.
Context `{IntCoercion}.

Lemma has_str_field (o : gmap string json) (name : string) :
  String.eqb name "score" = false ->
  NewsStory.has_field o name = true -> exists s, o !! name = Some (JStr s).
Proof.
  unfold NewsStory.has_field. intros ->.
  destruct (o !! name) as [[]|]; try discriminate. eauto.
Qed.

Lemma has_score_field (o : gmap string json) :
  NewsStory.has_field o "score" = true ->
  exists v z, o !! "score" = Some v /\ int_validate v = Some z.
Proof.
  unfold NewsStory.has_field. destruct (o !! "score") as [v|]; [|discriminate].
  change (String.eqb "score" "score") with true. cbv iota.
  destruct (int_validate v) as [z|] eqn:Hz; [|discriminate]. eauto.
Qed.

End StoryAcceptance.

(** X22. The schema of a story accepts an object exactly when the object
    carries the seven fields, the six strings as JSON strings and the
    score as a value the integer coercion accepts; keys beyond the seven
    play no part. *)
Theorem story_accepted_iff_complete `{IntCoercion} (o : gmap string json) :
  (exists x, NewsStory.model_validate (JObj o) = Ok x)
  <-> NewsStory.complete o = true.
Proof.
  unfold NewsStory.model_validate. simpl. split.
  - intros [x Hx]. eapply of_dict_complete, Hx.
  - unfold NewsStory.complete, NewsStory.fields. cbn [forallb].
    rewrite !andb_true_iff.
    intros (H1 & H2 & H3 & H4 & H5 & H6 & H7 & _).
    apply has_str_field in H1 as [ti H1]; [|reflexivity].
    apply has_str_field in H2 as [su H2]; [|reflexivity].
    apply has_str_field in H3 as [so H3]; [|reflexivity].
    apply has_str_field in H4 as [ur H4]; [|reflexivity].
    apply has_score_field in H5 as (v & z & H5 & Hz).
    apply has_str_field in H6 as [ts H6]; [|reflexivity].
    apply has_str_field in H7 as [tp H7]; [|reflexivity].
    eexists. unfold NewsStory.of_dict.
    rewrite (proj2 (str_field_Ok "title" o ti) H1),
      (proj2 (str_field_Ok "summary" o su) H2),
      (proj2 (str_field_Ok "source" o so) H3),
      (proj2 (str_field_Ok "url" o ur) H4),
      (proj2 (int_field_Ok "score" o z) (ex_intro _ v (conj H5 Hz))),
      (proj2 (str_field_Ok "timestamp" o ts) H6),
      (proj2 (str_field_Ok "topic" o tp) H7).
    reflexivity.
Qed.

(** ** agents/planner.py with generate_newsletter.py *)

(** X23. From the planner to the scouts: the planner changes nothing of
    the state but the task list, and the orchestrator then sends one scout
    per planned task, in order, each carrying the configuration the
    planner was given and hence running on its scout model. *)
Theorem planned_scouts_follow_plan `{Environment}
    (state state' : Planner.PlannerState) :
  Planner.planner_node state = Ok state' ->
  Planner.config state' = Planner.config state
  /\ Planner.NewsStories state' = Planner.NewsStories state
  /\ Planner.Report state' = Planner.Report state
  /\ map Scout.AssignedTask (Orchestrator.generate_scout_tasks state')
     = Planner.ScoutTasks state'
  /\ Forall (fun p => Scout.config p = Some (Planner.config state)
                      /\ Scout.model_name p
                         = Config.scout (Config.models (Planner.config state)))
            (Orchestrator.generate_scout_tasks state').
Proof.
  unfold Planner.planner_node. intros Hp. inv_bind Hp. injection Hp as <-.
  cbn [Planner.config Planner.NewsStories Planner.Report].
  repeat apply conj; try reflexivity.
  - unfold Orchestrator.generate_scout_tasks. rewrite map_map. apply map_id.
  - apply Forall_forall. intros p (t & -> & _)%list_elem_of_fmap.
    split; reflexivity.
Qed.

Lemma planned_scouts_follow_plan_witness :
  exists state',
    Planner.planner_node (H := Examples.two_tasks)
      (Examples.planner_state (Examples.default_config ["AI"] "gpt-4o")) = Ok state'
    /\ map Scout.AssignedTask (Orchestrator.generate_scout_tasks state')
       = Planner.ScoutTasks state'.
Proof.
  eexists. split; [vm_compute; reflexivity|].
  eapply (planned_scouts_follow_plan (H := Examples.two_tasks)
            (Examples.planner_state (Examples.default_config ["AI"] "gpt-4o"))).
  vm_compute. reflexivity.
Defined.

(** ** config/config_parser.py: the shape of a validated interest list *)

(** X1. The validator accepts exactly the non-empty lists. *)
Theorem validate_interests_accepts_nonempty (v : list string) :
  (exists r, Config.validate_interests v = Ok r) <-> v <> [].
Proof.
  split.
  - intros [r Hr]. now apply validate_interests_loop in Hr.
  - destruct v as [|x v]; [congruence|]. intros _.
    unfold Config.validate_interests. eauto.
Qed.

(** X2. What the validator returns is never empty, holds only trimmed
    entries, and is a sub-list of the trimmed input: the first entry
    always survives, nothing is reordered, nothing is invented. *)
Theorem validate_interests_output_shape (v r : list string) :
  Config.validate_interests v = Ok r ->
  r <> []
  /\ Forall (fun e => Str.strip e = e) r
  /\ r `sublist_of` map Str.strip v
  /\ head r = head (map Str.strip v).
Proof.
  intros Hv.
  pose proof (validate_interests_nonempty v r Hv) as Hne.
  pose proof (validate_interests_trimmed v r Hv) as Htr.
  pose proof (validate_interests_order v r Hv) as Hord.
  repeat apply conj; auto.
  apply validate_interests_loop in Hv as (Hv & ->).
  destruct v as [|x v]; [congruence|]. cbn [fold_left map head].
  unfold Config.interests_step at 2.
  rewrite bool_decide_eq_false_2 by set_solver.
  destruct (interests_loop v ({[Str.lower x]} ∪ ∅) ([] ++ [Str.strip x]))
    as (kept & -> & _).
  reflexivity.
Qed.

Lemma validate_interests_output_shape_witness :
  ["AI"; "Robotics"] <> []
  /\ Forall (fun e => Str.strip e = e) ["AI"; "Robotics"]
  /\ ["AI"; "Robotics"] `sublist_of` map Str.strip [" AI "; "Robotics"; "robotics"]
  /\ head ["AI"; "Robotics"] = head (map Str.strip [" AI "; "Robotics"; "robotics"]).
Proof.
  apply (validate_interests_output_shape [" AI "; "Robotics"; "robotics"]).
  vm_compute. reflexivity.
Defined.

(** ** tools/basic_tools.py: the Reddit search *)

Section RedditFacts.

Import Tools.
Context `{Requests}.

Lemma entry_dom (post : gmap string json) : dom (entry post) = entry_keys.
Proof.
  unfold entry, entry_keys. rewrite !dom_insert_L, dom_empty_L. set_solver.
Qed.

Lemma entry_url (post : gmap string json) :
  entry post !! "url"
  = Some (JStr ("https://www.reddit.com"
                +:+ format_value (default (JStr "") (post !! "permalink")))).
Proof.
  unfold entry. rewrite lookup_insert_ne by done. now rewrite lookup_insert_eq.
Qed.

(** The comprehension succeeds exactly on lists of objects, with one
    entry per object. *)
Lemma entries_objects (posts : list (gmap string json)) :
  entries (map JObj posts) = Returned (map entry posts).
Proof.
  induction posts as [|p posts IH]; simpl; [reflexivity|]. now rewrite IH.
Qed.

Lemma entries_Returned (posts : list json) (es : list (gmap string json)) :
  entries posts = Returned es ->
  exists os, posts = map JObj os /\ es = map entry os.
Proof.
  revert es. induction posts as [|p posts IH]; intros es; simpl.
  - intros [= <-]. exists []. auto.
  - destruct p as [| | | | | |o]; try discriminate.
    destruct (entries posts) as [es'|] eqn:E; [|discriminate].
    intros [= <-]. destruct (IH es' eq_refl) as (os & -> & ->).
    exists (o :: os). auto.
Qed.

Lemma entries_bad (posts : list json) :
  Exists (fun p => forall o, p <> JObj o) posts ->
  entries posts = Raised AttributeError.
Proof.
  induction 1 as [p posts Hp | p posts _ IH]; simpl.
  - destruct p; try reflexivity. now destruct (Hp o).
  - rewrite IH. now destruct p.
Qed.

Lemma comprehension_Returned (data : json) (es : list (gmap string json)) :
  comprehension data = Returned es -> exists os, es = map entry os.
Proof.
  destruct data as [| | | |s|posts|o]; simpl; try discriminate.
  - destruct (String.eqb s ""); [|discriminate]. intros [= <-]. now exists [].
  - intros (os & _ & ->)%entries_Returned. eauto.
  - case_bool_decide; [|discriminate]. intros [= <-]. now exists [].
Qed.

Lemma reddit_search_Returned (query subreddit : string) (limit : Z)
    (es : list (gmap string json)) :
  reddit_search query subreddit limit = Returned es ->
  exists os, es = map entry os.
Proof.
  unfold reddit_search. cbv zeta.
  destruct (requests_get _ _) as [r|]; [|discriminate].
  destruct (raise_for_status r); [|discriminate].
  destruct (body r) as [[| | | | | |o]|]; try discriminate.
  apply comprehension_Returned.
Qed.

End RedditFacts.

(** X24. Whatever the API answers, every dictionary [reddit_search] returns
    has exactly the five keys title, url, score, subreddit and created_utc,
    and its url is a string that starts with the address of Reddit. *)
Theorem reddit_search_entries_shape `{Tools.Requests}
    (query subreddit : string) (limit : Z) (es : list (gmap string json)) :
  Tools.reddit_search query subreddit limit = Tools.Returned es ->
  Forall (fun e => dom e = Tools.entry_keys
                   /\ exists rest,
                        e !! "url" = Some (JStr ("https://www.reddit.com" +:+ rest)))
         es.
Proof.
  intros (os & ->)%reddit_search_Returned.
  apply Forall_forall. intros e (o & -> & _)%list_elem_of_fmap.
  split; [apply entry_dom|]. rewrite entry_url. eauto.
Qed.

Lemma reddit_search_entries_shape_witness :
  exists es,
    Tools.reddit_search (H := Samples.api 200 (Some Samples.two_posts))
      "rocket" "all" 5 = Tools.Returned es
    /\ Forall (fun e => dom e = Tools.entry_keys
                        /\ exists rest,
                             e !! "url"
                             = Some (JStr ("https://www.reddit.com" +:+ rest)))
              es.
Proof.
  eexists. split; [vm_compute; reflexivity|].
  eapply (reddit_search_entries_shape
            (H := Samples.api 200 (Some Samples.two_posts)) "rocket" "all" 5).
  vm_compute. reflexivity.
Defined.

(** X25. When the API answers outside the 4xx and 5xx statuses with an
    object whose data is a list of objects, [reddit_search] returns one
    entry per post, in order, however many the limit asked for; the url of
    a post that has a string permalink is the address of Reddit followed
    by that permalink. *)
Theorem reddit_search_one_entry_per_post `{Tools.Requests}
    (query subreddit : string) (limit : Z) (r : Tools.Response)
    (o : gmap string json) (posts : list (gmap string json)) :
  (forall url params, Tools.requests_get url params = Tools.Returned r) ->
  (Tools.status_code r < 400 \/ 600 <= Tools.status_code r) ->
  Tools.body r = Some (JObj o) ->
  o !! "data" = Some (JArr (map JObj posts)) ->
  exists es,
    Tools.reddit_search query subreddit limit = Tools.Returned es
    /\ length es = length posts
    /\ Forall2 (fun post e =>
                  forall s, post !! "permalink" = Some (JStr s) ->
                    e !! "url" = Some (JStr ("https://www.reddit.com" +:+ s)))
               posts es.
Proof.
  intros Hget Hst Hbody Hdata. exists (map Tools.entry posts).
  repeat apply conj.
  - unfold Tools.reddit_search. cbv zeta. rewrite Hget.
    unfold Tools.raise_for_status.
    replace ((400 <=? Tools.status_code r) && (Tools.status_code r <? 600))
      with false by (symmetry; apply andb_false_iff; lia).
    rewrite Hbody, Hdata. cbn [from_option id]. apply entries_objects.
  - apply length_map.
  - apply Forall2_fmap_r, Forall_Forall2_diag, Forall_forall.
    intros post _ s Hs. rewrite entry_url, Hs. cbn [from_option id].
    now rewrite Tools.format_value_str.
Qed.

Lemma reddit_search_one_entry_per_post_witness :
  exists es,
    Tools.reddit_search (H := Samples.api 200 (Some Samples.two_posts))
      "rocket" "all" 1 = Tools.Returned es
    /\ length es = 2%nat
    /\ Forall2 (fun post e =>
                  forall s, post !! "permalink" = Some (JStr s) ->
                    e !! "url" = Some (JStr ("https://www.reddit.com" +:+ s)))
               [Samples.full_post; Samples.bare_post] es.
Proof.
  eapply (reddit_search_one_entry_per_post
            (H := Samples.api 200 (Some Samples.two_posts)) "rocket" "all" 1
            {| Tools.status_code := 200; Tools.body := Some Samples.two_posts |}
            {[ "data" := JArr [JObj Samples.full_post; JObj Samples.bare_post] ]}
            [Samples.full_post; Samples.bare_post]).
  - reflexivity.
  - simpl. lia.
  - reflexivity.
  - vm_compute. reflexivity.
Defined.

(** X26. A 4xx or 5xx status makes [reddit_search] raise the HTTP error of
    that status, whatever the body holds. *)
Theorem reddit_search_http_error `{Tools.Requests}
    (query subreddit : string) (limit : Z) (r : Tools.Response) :
  (forall url params, Tools.requests_get url params = Tools.Returned r) ->
  400 <= Tools.status_code r < 600 ->
  Tools.reddit_search query subreddit limit
  = Tools.Raised (Tools.HTTPError (Tools.status_code r)).
Proof.
  intros Hget Hst. unfold Tools.reddit_search. cbv zeta. rewrite Hget.
  unfold Tools.raise_for_status.
  replace ((400 <=? Tools.status_code r) && (Tools.status_code r <? 600))
    with true by (symmetry; apply andb_true_iff; lia).
  reflexivity.
Qed.

Lemma reddit_search_http_error_witness :
  Tools.reddit_search (H := Samples.api 429 (Some Samples.two_posts))
    "rocket" "all" 5
  = Tools.Raised (Tools.HTTPError 429).
Proof.
  apply (reddit_search_http_error
           (H := Samples.api 429 (Some Samples.two_posts)) "rocket" "all" 5
           {| Tools.status_code := 429; Tools.body := Some Samples.two_posts |}).
  - reflexivity.
  - simpl. lia.
Defined.

(** X27. An answer that is an object without a data key gives the empty
    list, not an error. *)
Theorem reddit_search_without_data `{Tools.Requests}
    (query subreddit : string) (limit : Z) (r : Tools.Response)
    (o : gmap string json) :
  (forall url params, Tools.requests_get url params = Tools.Returned r) ->
  (Tools.status_code r < 400 \/ 600 <= Tools.status_code r) ->
  Tools.body r = Some (JObj o) ->
  o !! "data" = None ->
  Tools.reddit_search query subreddit limit = Tools.Returned [].
Proof.
  intros Hget Hst Hbody Hdata. unfold Tools.reddit_search. cbv zeta.
  rewrite Hget. unfold Tools.raise_for_status.
  replace ((400 <=? Tools.status_code r) && (Tools.status_code r <? 600))
    with false by (symmetry; apply andb_false_iff; lia).
  rewrite Hbody, Hdata. reflexivity.
Qed.

Lemma reddit_search_without_data_witness :
  Tools.reddit_search (H := Samples.api 200 (Some (JObj ∅))) "rocket" "all" 5
  = Tools.Returned [].
Proof.
  apply (reddit_search_without_data
           (H := Samples.api 200 (Some (JObj ∅))) "rocket" "all" 5
           {| Tools.status_code := 200; Tools.body := Some (JObj ∅) |} ∅).
  - reflexivity.
  - simpl. lia.
  - reflexivity.
  - reflexivity.
Defined.

(** X28. One post that is no object spoils the whole answer: when the data
    list holds such a post, [reddit_search] raises an attribute error and
    returns none of the other posts. *)
Theorem reddit_search_bad_post `{Tools.Requests}
    (query subreddit : string) (limit : Z) (r : Tools.Response)
    (o : gmap string json) (posts : list json) :
  (forall url params, Tools.requests_get url params = Tools.Returned r) ->
  (Tools.status_code r < 400 \/ 600 <= Tools.status_code r) ->
  Tools.body r = Some (JObj o) ->
  o !! "data" = Some (JArr posts) ->
  Exists (fun p => forall post, p <> JObj post) posts ->
  Tools.reddit_search query subreddit limit = Tools.Raised Tools.AttributeError.
Proof.
  intros Hget Hst Hbody Hdata Hbad. unfold Tools.reddit_search. cbv zeta.
  rewrite Hget. unfold Tools.raise_for_status.
  replace ((400 <=? Tools.status_code r) && (Tools.status_code r <? 600))
    with false by (symmetry; apply andb_false_iff; lia).
  rewrite Hbody, Hdata. cbn [from_option id]. now apply entries_bad.
Qed.

Lemma reddit_search_bad_post_witness :
  Tools.reddit_search
    (H := Samples.api 200
            (Some (JObj {[ "data" := JArr [JObj Samples.full_post; JNull] ]})))
    "rocket" "all" 5
  = Tools.Raised Tools.AttributeError.
Proof.
  apply (reddit_search_bad_post
           (H := Samples.api 200
                   (Some (JObj {[ "data" := JArr [JObj Samples.full_post; JNull] ]})))
           "rocket" "all" 5
           {| Tools.status_code := 200;
              Tools.body :=
                Some (JObj {[ "data" := JArr [JObj Samples.full_post; JNull] ]}) |}
           {[ "data" := JArr [JObj Samples.full_post; JNull] ]}
           [JObj Samples.full_post; JNull]).
  - reflexivity.
  - simpl. lia.
  - reflexivity.
  - vm_compute. reflexivity.
  - apply Exists_cons_tl, Exists_cons_hd. discriminate.
Defined.
